(** * QEMU driver: job discipline and save-image handling

    A shallow embedding of the parts of [src/qemu/qemu_driver.c] that drive
    the per-domain job state machine and the save-image file format:
    [qemuOpenFile], [qemuDomainSaveHeader], [qemuDomainSaveMemory],
    [qemuDomainSaveInternal], [qemuDomainSaveImageOpen],
    [qemuDomainObjRestore], [qemuDomainObjStart], [qemudDomainSuspend],
    [qemuDomainDestroyFlags], [qemuDomainGetControlInfo],
    [qemuDomainGetJobInfo], [qemuDomainAbortJob],
    [qemuDomainSnapshotCreateActiveExternal], [qemuDomainMigrateBegin3] and
    [qemuDomainMigrateConfirm3].

    The driver is C code written around [goto] cleanup chains and calls into
    collaborators that live in other translation units (job admission, the
    monitor, the process manager, the kernel).  Every such call is an
    [extcall]: the model appends it to a trace together with the value it
    returned, and takes that value from an [environment], so that a theorem
    quantified over environments covers every behaviour of the
    collaborators.  Labels become continuations named after the label. *)

From Stdlib Require Import ZArith List String Ascii Bool Lia.
Import ListNotations.
Open Scope string_scope.
Open Scope list_scope.
Open Scope Z_scope.

(** ** Enumerations of the public API and of the job layer *)

Inductive virErrorNumber :=
| VIR_ERR_INTERNAL_ERROR
| VIR_ERR_NO_DOMAIN
| VIR_ERR_INVALID_ARG
| VIR_ERR_OPERATION_FAILED
| VIR_ERR_OPERATION_INVALID
| VIR_ERR_BLOCK_COPY_ACTIVE.

Inductive virDomainState :=
| VIR_DOMAIN_NOSTATE
| VIR_DOMAIN_RUNNING
| VIR_DOMAIN_BLOCKED
| VIR_DOMAIN_PAUSED
| VIR_DOMAIN_SHUTDOWN
| VIR_DOMAIN_SHUTOFF
| VIR_DOMAIN_CRASHED
| VIR_DOMAIN_PMSUSPENDED.

Inductive virDomainPausedReason :=
| VIR_DOMAIN_PAUSED_USER
| VIR_DOMAIN_PAUSED_MIGRATION
| VIR_DOMAIN_PAUSED_SAVE
| VIR_DOMAIN_PAUSED_SNAPSHOT.

Inductive virDomainRunningReason :=
| VIR_DOMAIN_RUNNING_UNPAUSED
| VIR_DOMAIN_RUNNING_SAVE_CANCELED.

Inductive virDomainShutoffReason :=
| VIR_DOMAIN_SHUTOFF_DESTROYED
| VIR_DOMAIN_SHUTOFF_SAVED
| VIR_DOMAIN_SHUTOFF_FROM_SNAPSHOT.

Inductive virDomainEventType :=
| VIR_DOMAIN_EVENT_STARTED
| VIR_DOMAIN_EVENT_SUSPENDED
| VIR_DOMAIN_EVENT_STOPPED.

Inductive virDomainEventDetail :=
| VIR_DOMAIN_EVENT_STARTED_BOOTED
| VIR_DOMAIN_EVENT_SUSPENDED_PAUSED
| VIR_DOMAIN_EVENT_SUSPENDED_MIGRATED
| VIR_DOMAIN_EVENT_SUSPENDED_API_ERROR
| VIR_DOMAIN_EVENT_STOPPED_DESTROYED
| VIR_DOMAIN_EVENT_STOPPED_SAVED
| VIR_DOMAIN_EVENT_STOPPED_FROM_SNAPSHOT.

Inductive virDomainJobType :=
| VIR_DOMAIN_JOB_NONE
| VIR_DOMAIN_JOB_BOUNDED
| VIR_DOMAIN_JOB_UNBOUNDED
| VIR_DOMAIN_JOB_COMPLETED
| VIR_DOMAIN_JOB_FAILED
| VIR_DOMAIN_JOB_CANCELLED.

Inductive virDomainControlState :=
| VIR_DOMAIN_CONTROL_OK
| VIR_DOMAIN_CONTROL_JOB
| VIR_DOMAIN_CONTROL_OCCUPIED
| VIR_DOMAIN_CONTROL_ERROR.

Inductive qemuDomainJob :=
| QEMU_JOB_NONE
| QEMU_JOB_QUERY
| QEMU_JOB_DESTROY
| QEMU_JOB_SUSPEND
| QEMU_JOB_MODIFY
| QEMU_JOB_ABORT
| QEMU_JOB_MIGRATION_OP.

Inductive qemuDomainAsyncJob :=
| QEMU_ASYNC_JOB_NONE
| QEMU_ASYNC_JOB_MIGRATION_OUT
| QEMU_ASYNC_JOB_MIGRATION_IN
| QEMU_ASYNC_JOB_SAVE
| QEMU_ASYNC_JOB_DUMP
| QEMU_ASYNC_JOB_SNAPSHOT.

Inductive qemuMigrationJobPhase :=
| QEMU_MIGRATION_PHASE_NONE
| QEMU_MIGRATION_PHASE_PERFORM2
| QEMU_MIGRATION_PHASE_BEGIN3
| QEMU_MIGRATION_PHASE_PERFORM3
| QEMU_MIGRATION_PHASE_PERFORM3_DONE
| QEMU_MIGRATION_PHASE_CONFIRM3_CANCELLED
| QEMU_MIGRATION_PHASE_CONFIRM3.

Definition asyncJob_eqb (a b : qemuDomainAsyncJob) : bool :=
  match a, b with
  | QEMU_ASYNC_JOB_NONE, QEMU_ASYNC_JOB_NONE
  | QEMU_ASYNC_JOB_MIGRATION_OUT, QEMU_ASYNC_JOB_MIGRATION_OUT
  | QEMU_ASYNC_JOB_MIGRATION_IN, QEMU_ASYNC_JOB_MIGRATION_IN
  | QEMU_ASYNC_JOB_SAVE, QEMU_ASYNC_JOB_SAVE
  | QEMU_ASYNC_JOB_DUMP, QEMU_ASYNC_JOB_DUMP
  | QEMU_ASYNC_JOB_SNAPSHOT, QEMU_ASYNC_JOB_SNAPSHOT => true
  | _, _ => false
  end.

Definition job_eqb (a b : qemuDomainJob) : bool :=
  match a, b with
  | QEMU_JOB_NONE, QEMU_JOB_NONE
  | QEMU_JOB_QUERY, QEMU_JOB_QUERY
  | QEMU_JOB_DESTROY, QEMU_JOB_DESTROY
  | QEMU_JOB_SUSPEND, QEMU_JOB_SUSPEND
  | QEMU_JOB_MODIFY, QEMU_JOB_MODIFY
  | QEMU_JOB_ABORT, QEMU_JOB_ABORT
  | QEMU_JOB_MIGRATION_OP, QEMU_JOB_MIGRATION_OP => true
  | _, _ => false
  end.

Definition state_eqb (a b : virDomainState) : bool :=
  match a, b with
  | VIR_DOMAIN_NOSTATE, VIR_DOMAIN_NOSTATE
  | VIR_DOMAIN_RUNNING, VIR_DOMAIN_RUNNING
  | VIR_DOMAIN_BLOCKED, VIR_DOMAIN_BLOCKED
  | VIR_DOMAIN_PAUSED, VIR_DOMAIN_PAUSED
  | VIR_DOMAIN_SHUTDOWN, VIR_DOMAIN_SHUTDOWN
  | VIR_DOMAIN_SHUTOFF, VIR_DOMAIN_SHUTOFF
  | VIR_DOMAIN_CRASHED, VIR_DOMAIN_CRASHED
  | VIR_DOMAIN_PMSUSPENDED, VIR_DOMAIN_PMSUSPENDED => true
  | _, _ => false
  end.

(** ** The domain object and its job state *)

(** [struct _virDomainJobInfo] of the public API. *)
Record virDomainJobInfo := mkJobInfo {
  ji_type : virDomainJobType;
  timeElapsed : Z;
  timeRemaining : Z;
  dataTotal : Z;
  dataProcessed : Z;
  dataRemaining : Z;
  memTotal : Z;
  memProcessed : Z;
  memRemaining : Z;
  fileTotal : Z;
  fileProcessed : Z;
  fileRemaining : Z
}.

(** [memset(info, 0, sizeof(\*info))]: the enum value 0 is
    [VIR_DOMAIN_JOB_NONE]. *)
Definition jobinfo_zero : virDomainJobInfo :=
  mkJobInfo VIR_DOMAIN_JOB_NONE 0 0 0 0 0 0 0 0 0 0 0.

Definition set_ji_type (t : virDomainJobType) (i : virDomainJobInfo) :=
  mkJobInfo t (timeElapsed i) (timeRemaining i) (dataTotal i)
            (dataProcessed i) (dataRemaining i) (memTotal i)
            (memProcessed i) (memRemaining i) (fileTotal i)
            (fileProcessed i) (fileRemaining i).

Definition set_timeElapsed (t : Z) (i : virDomainJobInfo) :=
  mkJobInfo (ji_type i) t (timeRemaining i) (dataTotal i)
            (dataProcessed i) (dataRemaining i) (memTotal i)
            (memProcessed i) (memRemaining i) (fileTotal i)
            (fileProcessed i) (fileRemaining i).

(** [struct qemuDomainJobObj]: the fields the driver reads or writes. *)
Record qemuDomainJobObj := mkJob {
  active : qemuDomainJob;
  asyncJob : qemuDomainAsyncJob;
  phase : qemuMigrationJobPhase;
  mask : Z;
  start : Z;
  dump_memory_only : bool;
  info : virDomainJobInfo
}.

Definition set_job_info (i : virDomainJobInfo) (j : qemuDomainJobObj) :=
  mkJob (active j) (asyncJob j) (phase j) (mask j) (start j)
        (dump_memory_only j) i.

(** [qemuDomainObjPrivate]: [monError] is a pointer in the source and is
    only tested for being set; [monStart] is the time the monitor was
    entered, 0 when it is not in use. *)
Record qemuDomainObjPrivate := mkPriv {
  job : qemuDomainJobObj;
  monError : bool;
  monStart : Z;
  beingDestroyed : bool
}.

Definition set_job (j : qemuDomainJobObj) (p : qemuDomainObjPrivate) :=
  mkPriv j (monError p) (monStart p) (beingDestroyed p).

Definition set_beingDestroyed (b : bool) (p : qemuDomainObjPrivate) :=
  mkPriv (job p) (monError p) (monStart p) b.

(** [virDomainObj]: [def_name] is [vm->def->name]; [def_id] is
    [vm->def->id], which is -1 exactly when the domain is not active. *)
Record virDomainObj := mkVm {
  def_name : string;
  def_id : Z;
  vm_state : virDomainState;
  persistent : bool;
  hasManagedSave : bool;
  privateData : qemuDomainObjPrivate
}.

Definition set_privateData (p : qemuDomainObjPrivate) (vm : virDomainObj) :=
  mkVm (def_name vm) (def_id vm) (vm_state vm) (persistent vm)
       (hasManagedSave vm) p.

Definition set_hasManagedSave (b : bool) (vm : virDomainObj) :=
  mkVm (def_name vm) (def_id vm) (vm_state vm) (persistent vm) b
       (privateData vm).

Definition virDomainObjIsActive (vm : virDomainObj) : bool :=
  negb (def_id vm =? -1).

Definition virDomainObjGetState (vm : virDomainObj) : virDomainState :=
  vm_state vm.

(** ** Unsigned machine arithmetic *)

Definition u32 (z : Z) : Z := z mod 2 ^ 32.
Definition u64 (z : Z) : Z := z mod 2 ^ 64.

(** [a -= b] on [unsigned long long]. *)
Definition sub64 (a b : Z) : Z := u64 (a - b).

Definition bswap_32 (v : Z) : Z :=
  Z.lor (Z.lor (Z.shiftl (Z.land v 255) 24)
               (Z.shiftl (Z.land (Z.shiftr v 8) 255) 16))
        (Z.lor (Z.shiftl (Z.land (Z.shiftr v 16) 255) 8)
               (Z.land (Z.shiftr v 24) 255)).

(** [flags & bit] as a C condition. *)
Definition has_flag (flags bit : Z) : bool := negb (Z.land flags bit =? 0).

(** ** Constants of the headers the driver includes

    Values of [<fcntl.h>] and [<errno.h>] on Linux, and of the public
    [libvirt.h] flag enumerations. *)

Definition O_RDONLY : Z := 0.
Definition O_WRONLY : Z := 1.
Definition O_RDWR : Z := 2.
Definition O_CREAT : Z := 64.
Definition O_TRUNC : Z := 512.
Definition EPERM : Z := 1.
Definition ENOENT : Z := 2.
Definition EBADF : Z := 9.
Definition EACCES : Z := 13.
Definition S_IRUSR : Z := 256.
Definition S_IWUSR : Z := 128.
Definition S_IRGRP : Z := 32.
Definition S_IWGRP : Z := 16.
Definition VIR_FILE_OPEN_NOFORK : Z := 1.
Definition VIR_FILE_OPEN_FORK : Z := 2.
Definition VIR_FILE_OPEN_FORCE_OWNER : Z := 8.

Definition VIR_DOMAIN_SAVE_BYPASS_CACHE : Z := 1.
Definition VIR_DOMAIN_SAVE_RUNNING : Z := 2.
Definition VIR_DOMAIN_SAVE_PAUSED : Z := 4.

Definition VIR_DOMAIN_DESTROY_GRACEFUL : Z := 1.
Definition VIR_QEMU_PROCESS_KILL_FORCE : Z := 1.
Definition VIR_QEMU_PROCESS_START_COLD : Z := 1.
Definition VIR_QEMU_PROCESS_START_PAUSED : Z := 2.
Definition VIR_QEMU_PROCESS_START_AUTODESROY : Z := 4.

Definition VIR_DOMAIN_START_PAUSED : Z := 1.
Definition VIR_DOMAIN_START_AUTODESTROY : Z := 2.
Definition VIR_DOMAIN_START_BYPASS_CACHE : Z := 4.
Definition VIR_DOMAIN_START_FORCE_BOOT : Z := 8.

Definition VIR_MIGRATE_CHANGE_PROTECTION : Z := 256.
Definition VIR_MIGRATE_UNDEFINE_SOURCE : Z := 16.

Definition VIR_DOMAIN_SNAPSHOT_CREATE_HALT : Z := 8.
Definition VIR_DOMAIN_SNAPSHOT_CREATE_QUIESCE : Z := 64.
Definition VIR_DOMAIN_SNAPSHOT_CREATE_ATOMIC : Z := 128.
Definition VIR_DOMAIN_SNAPSHOT_CREATE_LIVE : Z := 256.

(** ** The save-image header *)

Definition bytes := list Z.

Definition bytes_of_string (s : string) : bytes :=
  map (fun c => Z.of_N (N_of_ascii c)) (list_ascii_of_string s).

Definition QEMUD_SAVE_MAGIC : bytes := bytes_of_string "LibvirtQemudSave".
Definition QEMUD_SAVE_PARTIAL : bytes := bytes_of_string "LibvirtQemudPart".
Definition QEMUD_SAVE_VERSION : Z := 2.

(** [enum qemud_save_formats] and [qemudSaveCompressionTypeToString]. *)
Definition QEMUD_SAVE_FORMAT_RAW : Z := 0.
Definition QEMUD_SAVE_FORMAT_LAST : Z := 5.

Definition qemudSaveCompressionTypeToString (c : Z) : option string :=
  if c =? 0 then Some "raw"
  else if c =? 1 then Some "gzip"
  else if c =? 2 then Some "bzip2"
  else if c =? 3 then Some "xz"
  else if c =? 4 then Some "lzop"
  else None.

Definition qemuCompressProgramName (compress : Z) : option string :=
  if compress =? QEMUD_SAVE_FORMAT_RAW then None
  else qemudSaveCompressionTypeToString compress.

(** [struct qemud_save_header]: a 16-byte magic, four 32-bit words and
    fifteen unused words. *)
Record qemud_save_header := mkHeader {
  magic : bytes;
  version : Z;
  xml_len : Z;
  was_running : Z;
  compressed : Z;
  unused : list Z
}.

Definition sizeof_magic : nat := 16.
Definition sizeof_header : nat := 92.

(** [memset(&header, 0, sizeof(header))]. *)
Definition header_zero : qemud_save_header :=
  mkHeader (repeat 0 sizeof_magic) 0 0 0 0 (repeat 0 15).

(** [memcpy(header.magic, m, sizeof(header.magic))]. *)
Definition set_magic (m : bytes) (h : qemud_save_header) :=
  mkHeader (firstn sizeof_magic m) (version h) (xml_len h) (was_running h)
           (compressed h) (unused h).

Definition set_version (v : Z) (h : qemud_save_header) :=
  mkHeader (magic h) (u32 v) (xml_len h) (was_running h) (compressed h)
           (unused h).

Definition set_xml_len (v : Z) (h : qemud_save_header) :=
  mkHeader (magic h) (version h) (u32 v) (was_running h) (compressed h)
           (unused h).

Definition set_was_running (v : Z) (h : qemud_save_header) :=
  mkHeader (magic h) (version h) (xml_len h) (u32 v) (compressed h)
           (unused h).

Definition set_compressed (v : Z) (h : qemud_save_header) :=
  mkHeader (magic h) (version h) (xml_len h) (was_running h) (u32 v)
           (unused h).

Definition bswap_header (h : qemud_save_header) : qemud_save_header :=
  mkHeader (magic h) (bswap_32 (version h)) (bswap_32 (xml_len h))
           (bswap_32 (was_running h)) (bswap_32 (compressed h)) (unused h).

(** The header is written to the file as it lies in memory, so the four
    octets of a word come in the byte order of the host. *)
Definition word_bytes (big_endian : bool) (v : Z) : bytes :=
  let le := [v mod 256; (v / 256) mod 256; (v / 65536) mod 256;
             (v / 16777216) mod 256] in
  if big_endian then rev le else le.

Definition word_of_bytes (big_endian : bool) (b : bytes) : Z :=
  match (if big_endian then rev (firstn 4 b) else firstn 4 b) with
  | [b0; b1; b2; b3] => b0 + 256 * b1 + 65536 * b2 + 16777216 * b3
  | _ => 0
  end.

Definition encode_header (big_endian : bool) (h : qemud_save_header) : bytes :=
  magic h ++ word_bytes big_endian (version h)
          ++ word_bytes big_endian (xml_len h)
          ++ word_bytes big_endian (was_running h)
          ++ word_bytes big_endian (compressed h)
          ++ flat_map (word_bytes big_endian) (unused h).

Fixpoint words_of_bytes (big_endian : bool) (n : nat) (b : bytes) : list Z :=
  match n with
  | O => []
  | S n' => word_of_bytes big_endian b
            :: words_of_bytes big_endian n' (skipn 4 b)
  end.

Definition decode_header (big_endian : bool) (b : bytes) : qemud_save_header :=
  mkHeader (firstn sizeof_magic b)
           (word_of_bytes big_endian (skipn 16 b))
           (word_of_bytes big_endian (skipn 20 b))
           (word_of_bytes big_endian (skipn 24 b))
           (word_of_bytes big_endian (skipn 28 b))
           (words_of_bytes big_endian 15 (skipn 32 b)).

Fixpoint bytes_eqb (a b : bytes) : bool :=
  match a, b with
  | [], [] => true
  | x :: a', y :: b' => (x =? y) && bytes_eqb a' b'
  | _, _ => false
  end.

(** [memcmp(header.magic, m, sizeof(header.magic)) == 0]. *)
Definition magic_is (m : bytes) (h : qemud_save_header) : bool :=
  bytes_eqb (firstn sizeof_magic (magic h)) (firstn sizeof_magic m).

(** ** Files *)

(** A file is regular or not (a block device, say) and holds octets. *)
Record file := mkFile { f_reg : bool; f_data : bytes }.

Definition filesystem := string -> option file.

Definition fs_set (p : string) (o : option file) (fs : filesystem)
  : filesystem :=
  fun q => if String.eqb q p then o else fs q.

(** The open file description behind a descriptor. *)
Record open_file := mkOpen { of_fd : Z; of_path : string; of_pos : nat }.

(** [pwrite]: put [b] at offset [pos], zero-filling a hole if the offset is
    past the end. *)
Definition write_at (pos : nat) (b data : bytes) : bytes :=
  firstn pos data ++ repeat 0 (pos - List.length data)%nat ++ b
         ++ skipn (pos + List.length b)%nat data.

Definition starts_with (m : bytes) (data : bytes) : bool :=
  bytes_eqb (firstn (List.length m) data) m.

(** ** Calls that leave the translation unit *)

Inductive extcall :=
(* error reporting and logging *)
| C_virReportError (code : virErrorNumber) (msg : string)
| C_virReportSystemError (msg : string)
| C_virReportOOMError
| C_VIR_WARN (msg : string)
| C_VIR_DEBUG (msg : string)
| C_VIR_INFO (msg : string)
| C_virGetLastError
(* memory, files and time *)
| C_VIR_ALLOC_N (n : Z)
| C_virStorageFileIsSharedFS (path : string)
| C_getuid
| C_getgid
| C_st_uid (path : string)
| C_st_gid (path : string)
| C_open (path : string) (oflags : Z)
| C_virFileOpenAs (path : string) (oflags mode uid gid vfoflags : Z)
| C_virFileDirectFdFlag
| C_virFileWrapperFdNew (path : string) (bypass_cache : bool)
| C_virFileWrapperFdClose
| C_virFileWrapperFdCatchError
| C_virFileWrapperFdFree
| C_safewrite (site : nat) (fd : Z) (buf : bytes)
| C_saferead (site : nat) (fd : Z) (n : Z)
| C_close (site : nat) (fd : Z)
| C_unlink (path : string)
| C_virTimeMillisNow
| C_gettimeofday
(* the driver and its domain list *)
| C_qemuDriverLock
| C_qemuDriverUnlock
| C_virDomainFindByUUID
| C_virDomainObjUnlock
| C_qemuDomainRemoveInactive
| C_virDomainDeleteConfig
| C_virDomainSaveStatus
| C_virDomainObjAssignDef
(* domain definitions *)
| C_virDomainDefParseString (xml : bytes)
| C_virDomainDefCheckABIStability
| C_virDomainDefFree
| C_qemuDomainDefFormatLive (of_xmlin : bool) (inactive compatible : bool)
| C_virAsprintf
| C_def_identity_differs
| C_virDomainHasDiskMirror
(* events and audit *)
| C_virDomainEventNewFromObj (type : virDomainEventType)
                             (detail : virDomainEventDetail)
| C_qemuDomainEventQueue (type : virDomainEventType)
                         (detail : virDomainEventDetail)
| C_virDomainAuditStop (reason : string)
| C_virDomainAuditStart (reason : string) (success : bool)
(* job admission *)
| C_qemuDomainObjBeginJob (j : qemuDomainJob)
| C_qemuDomainObjBeginJobWithDriver (j : qemuDomainJob)
| C_qemuDomainObjBeginAsyncJobWithDriver (j : qemuDomainAsyncJob)
| C_qemuDomainObjEndJob
| C_qemuDomainObjEndAsyncJob
| C_qemuDomainObjSetAsyncJobMask (mask : Z)
| C_qemuDomainObjAbortAsyncJob
| C_qemuDomainObjEnterMonitor
| C_qemuDomainObjExitMonitor
| C_qemuMonitorMigrateCancel
(* the process manager *)
| C_qemuProcessAutoDestroyActive
| C_qemuDomainSetFakeReboot (v : bool)
| C_qemuProcessKill (flags : Z)
| C_qemuProcessStopCPUs (reason : virDomainPausedReason)
                        (asyncJob : qemuDomainAsyncJob)
| C_qemuProcessStartCPUs (reason : virDomainRunningReason)
                         (asyncJob : qemuDomainAsyncJob)
| C_qemuProcessStop (reason : virDomainShutoffReason)
| C_qemuProcessStart (start_flags : Z)
| C_qemuDomainSaveImageStartVM (path : string) (start_paused : bool)
| C_qemuDomainSaveImageStartVM_fd
(* snapshots *)
| C_qemuCapsGet_TRANSACTION
| C_qemuDomainSnapshotFSFreeze
| C_qemuDomainSnapshotFSThaw (report : bool)
| C_qemuDomainSnapshotCreateDiskActive (flags : Z)
                                       (asyncJob : qemuDomainAsyncJob)
(* migration *)
| C_qemuMigrationToFile (fd : Z) (offset : Z) (path : string)
                        (compressor : option string)
                        (bypassSecurityDriver : bool)
                        (asyncJob : qemuDomainAsyncJob)
| C_qemuMigrationJobStart (j : qemuDomainAsyncJob)
| C_qemuMigrationJobIsActive (j : qemuDomainAsyncJob)
| C_qemuMigrationJobStartPhase (phase : qemuMigrationJobPhase)
| C_qemuMigrationJobContinue
| C_qemuMigrationJobFinish
| C_qemuDomainCheckEjectableMedia (asyncJob : qemuDomainAsyncJob)
| C_qemuMigrationBegin
| C_qemuMigrationConfirm (flags : Z) (cancelled : Z)
| C_qemuDriverCloseCallbackSet
| C_qemuDriverCloseCallbackUnset.

(** One entry of the trace: the call and what it returned. *)
Record event := Ev { ev_call : extcall; ev_rc : Z }.

(** What the collaborators answer.  [env_rc] is the value a call returns
    (for a call returning a pointer, 0 stands for [NULL]); [env_errno] is
    [errno] after a failed call; [env_data] is the text or the octets a
    call produces; [env_path] is a path it produces; [env_vm] is what the
    call, and the threads that run while it has dropped the domain lock,
    do to the domain object. *)
Record environment := mkEnv {
  env_rc : extcall -> Z;
  env_errno : extcall -> positive;
  env_data : extcall -> bytes;
  env_path : extcall -> string;
  env_vm : extcall -> virDomainObj -> virDomainObj
}.

(** [struct qemud_driver]: the configuration the modelled code reads. *)
Record qemud_driver := mkDriver {
  saveDir : string;
  dynamicOwnership : bool;
  user : Z;
  group : Z
}.

(** One entry of the journal: a call that names a file, what it returned,
    and what the file held once it had returned ([None]: no such file). *)
Record journal_entry := Jn {
  j_call : extcall;
  j_rc : Z;
  j_file : option file
}.

(** The state the modelled code runs in: the domain object, the files, the
    open descriptor, the calls made so far, and, for every call that names
    a file, what that file held once the call had returned. *)
Record world := mkWorld {
  w_vm : virDomainObj;
  w_fs : filesystem;
  w_open : option open_file;
  w_trace : list event;
  w_journal : list journal_entry
}.

Definition init_world (vm : virDomainObj) (fs : filesystem) : world :=
  mkWorld vm fs None [] [].

Definition log (c : extcall) (rc : Z) (w : world) : world :=
  mkWorld (w_vm w) (w_fs w) (w_open w) (w_trace w ++ [Ev c rc])
          (w_journal w).

Definition with_vm (vm : virDomainObj) (w : world) : world :=
  mkWorld vm (w_fs w) (w_open w) (w_trace w) (w_journal w).

Definition with_file (c : extcall) (rc : Z) (p : string) (f : option file)
           (o : option open_file) (w : world) : world :=
  mkWorld (w_vm w) (fs_set p f (w_fs w)) o (w_trace w)
          (w_journal w ++ [Jn c rc f]).

(** ** A state monad over the world *)

Definition M (A : Type) : Type := world -> A * world.

Definition ret {A : Type} (a : A) : M A := fun w => (a, w).

Definition bind {A B : Type} (m : M A) (k : A -> M B) : M B :=
  fun w => match m w with (a, w') => k a w' end.

Declare Scope monad_scope.
Delimit Scope monad_scope with monad.
Notation "x <- m ;; k" := (bind m (fun x => k))
  (at level 61, m at next level, right associativity) : monad_scope.
Notation "m ;; k" := (bind m (fun _ => k))
  (at level 61, right associativity) : monad_scope.
Notation "' pat <- m ;; k" := (bind m (fun x => match x with pat => k end))
  (at level 61, pat pattern, m at next level, right associativity)
  : monad_scope.
Open Scope monad_scope.

Definition get_vm : M virDomainObj := fun w => (w_vm w, w).

Definition modify_vm (f : virDomainObj -> virDomainObj) : M unit :=
  fun w => (tt, with_vm (f (w_vm w)) w).

Definition file_exists (p : string) : M bool :=
  fun w => (match w_fs w p with Some _ => true | None => false end, w).

Definition file_is_reg (p : string) : M bool :=
  fun w => (match w_fs w p with Some f => f_reg f | None => false end, w).

Definition trace_of {A : Type} (r : A * world) : list event := w_trace (snd r).
Definition calls_of {A : Type} (r : A * world) : list extcall :=
  map ev_call (w_trace (snd r)).
Definition journal_of {A : Type} (r : A * world) := w_journal (snd r).
Definition file_of {A : Type} (r : A * world) (p : string) : option file :=
  w_fs (snd r) p.

(** ** The model *)

Section Model.

(** The collaborators. *)
Variable env : environment.

(** Byte order of the host. *)
Variable big_endian : bool.

(** [QEMU_MONITOR_MIGRATE_TO_FILE_BS] of [qemu_monitor.h], the block size
    the memory image is aligned to. *)
Variable QEMU_MONITOR_MIGRATE_TO_FILE_BS : Z.

(** [JOB_MASK] and [DEFAULT_JOB_MASK] of [qemu_domain.h]. *)
Variable JOB_MASK : qemuDomainJob -> Z.
Variable DEFAULT_JOB_MASK : Z.

(** [QEMU_MIGRATION_FLAGS] of [qemu_migration.h], the flags the migration
    entry points accept. *)
Variable QEMU_MIGRATION_FLAGS : Z.

(** *** Primitive steps *)

(** A call whose only effect on the model is its return value. *)
Definition extern (c : extcall) : M Z :=
  fun w => (env_rc env c, log c (env_rc env c) w).

(** A call that may change the domain object, itself or by dropping the
    domain lock while it waits. *)
Definition extern_vm (c : extcall) : M Z :=
  fun w => (env_rc env c,
            log c (env_rc env c) (with_vm (env_vm env c (w_vm w)) w)).

Definition virReportError (code : virErrorNumber) (msg : string) : M unit :=
  fun w => (tt, log (C_virReportError code msg) 0 w).

Definition virReportSystemError (msg : string) : M unit :=
  fun w => (tt, log (C_virReportSystemError msg) 0 w).

Definition virReportOOMError : M unit :=
  fun w => (tt, log C_virReportOOMError 0 w).

Definition VIR_WARN (msg : string) : M unit :=
  fun w => (tt, log (C_VIR_WARN msg) 0 w).

Definition VIR_DEBUG (msg : string) : M unit :=
  fun w => (tt, log (C_VIR_DEBUG msg) 0 w).

Definition VIR_INFO (msg : string) : M unit :=
  fun w => (tt, log (C_VIR_INFO msg) 0 w).

(** [open(2)] and [virFileOpenAs]: a file that is not there is made when
    [O_CREAT] is given and the open fails with [ENOENT] when it is not; a
    regular file is emptied by [O_TRUNC]; the descriptor starts at 0. *)
Definition sys_open (c : extcall) (path : string) (oflags : Z) : M Z :=
  fun w =>
    let rc := match w_fs w path with
              | None => if has_flag oflags O_CREAT then env_rc env c
                        else - ENOENT
              | Some _ => env_rc env c
              end in
    if rc <? 0 then (rc, log c rc w)
    else
      let f := match w_fs w path with
               | None => mkFile true []
               | Some f0 => if has_flag oflags O_TRUNC && f_reg f0
                            then mkFile true [] else f0
               end in
      (rc, log c rc (with_file c rc path (Some f) (Some (mkOpen rc path 0)) w)).

(** [safewrite]: the environment says how many octets the kernel takes
    before it reports an error; when that covers the buffer the call
    returns the length of the buffer, otherwise the octets taken so far
    are in the file and the call returns -1. *)
Definition safewrite (site : nat) (fd : Z) (buf : bytes) : M Z :=
  fun w =>
    let c := C_safewrite site fd buf in
    match w_open w with
    | Some o =>
        if of_fd o =? fd then
          let k := env_rc env c in
          let n := List.length buf in
          let all := Z.of_nat n <=? k in
          let done := if all then n else Z.to_nat k in
          let rc := if all then Z.of_nat n else -1 in
          let f := option_map
                     (fun f0 => mkFile (f_reg f0)
                                  (write_at (of_pos o) (firstn done buf)
                                            (f_data f0)))
                     (w_fs w (of_path o)) in
          (rc, log c rc
                 (with_file c rc (of_path o) f
                    (Some (mkOpen fd (of_path o) (of_pos o + done)%nat)) w))
        else (-1, log c (-1) w)
    | None => (-1, log c (-1) w)
    end.

(** [saferead]: the octets from the current offset, at most [n] of them,
    or -1 when the environment reports an error. *)
Definition saferead (site : nat) (fd : Z) (n : Z) : M (Z * bytes) :=
  fun w =>
    let c := C_saferead site fd n in
    match w_open w with
    | Some o =>
        if (of_fd o =? fd) && negb (env_rc env c <? 0) then
          let data := match w_fs w (of_path o) with
                      | Some f0 => f_data f0
                      | None => []
                      end in
          let got := firstn (Z.to_nat n) (skipn (of_pos o) data) in
          let rc := Z.of_nat (List.length got) in
          ((rc, got),
           log c rc
             (mkWorld (w_vm w) (w_fs w)
                (Some (mkOpen fd (of_path o) (of_pos o + List.length got)%nat))
                (w_trace w) (w_journal w)))
        else ((-1, []), log c (-1) w)
    | None => ((-1, []), log c (-1) w)
    end.

(** [VIR_CLOSE(fd)]: the descriptor is gone whether or not [close]
    reports an error. *)
Definition VIR_CLOSE (site : nat) (fd : Z) : M Z :=
  fun w =>
    let c := C_close site fd in
    let rc := if env_rc env c <? 0 then -1 else 0 in
    (rc, log c rc
           (mkWorld (w_vm w) (w_fs w) None (w_trace w) (w_journal w))).

(** [VIR_FORCE_CLOSE(fd)]: nothing for a negative descriptor. *)
Definition VIR_FORCE_CLOSE (site : nat) (fd : Z) : M unit :=
  if fd <? 0 then ret tt else (_ <- VIR_CLOSE site fd ;; ret tt).

(** [unlink(2)]: fails on a path that names nothing, and when the
    environment says so. *)
Definition unlink (path : string) : M Z :=
  fun w =>
    let c := C_unlink path in
    match w_fs w path with
    | None => (-1, log c (-1) (with_file c (-1) path None (w_open w) w))
    | Some f =>
        if env_rc env c <? 0
        then (-1, log c (-1) (with_file c (-1) path (Some f) (w_open w) w))
        else (0, log c 0 (with_file c 0 path None (w_open w) w))
    end.

(** [errno] after the failed call [c], negated as the source does. *)
Definition neg_errno (c : extcall) : Z := Z.neg (env_errno env c).

(** Modelled from the spec: [qemuMigrationToFile] is defined in
    [qemu_migration.c], which is not part of the sources at hand.  The
    specification treats the monitor as an opaque channel that either
    completes a command or fails; the emulator streams the memory image
    through the descriptor it is handed, behind what the descriptor has
    already written, so the octets already in the file are kept and the
    stream the environment supplies is added at the end, in part or in
    whole even when the call then fails.  The call runs monitor commands,
    so the domain object may change under it. *)
Definition qemuMigrationToFile (fd offset : Z) (path : string)
           (compressor : option string) (bypassSecurityDriver : bool)
           (asyncJob : qemuDomainAsyncJob) : M Z :=
  fun w =>
    let c := C_qemuMigrationToFile fd offset path compressor
                                   bypassSecurityDriver asyncJob in
    let f := option_map
               (fun f0 => mkFile (f_reg f0) (f_data f0 ++ env_data env c))
               (w_fs w path) in
    (env_rc env c,
     log c (env_rc env c)
       (with_file c (env_rc env c) path f (w_open w)
          (with_vm (env_vm env c (w_vm w)) w))).

(** *** [qemuOpenFile] *)

Definition qemuOpenFile (driver : qemud_driver) (path : string) (oflags : Z)
  : M (Z * bool * bool) :=
  path_shared <- extern (C_virStorageFileIsSharedFS path) ;;
  uid0 <- extern C_getuid ;;
  gid0 <- extern C_getgid ;;
  ex <- file_exists path ;;
  reg <- file_is_reg path ;;
  let creat := has_flag oflags O_CREAT in
  let need_unlink := creat in
  let vfoflags :=
    if creat && ((path_shared <=? 0) || dynamicOwnership driver)
    then VIR_FILE_OPEN_FORCE_OWNER else 0 in
  let is_reg := if creat && ex then reg else true in
  let keep_owner := creat && ex && is_reg && negb (dynamicOwnership driver) in
  let uid := if keep_owner then env_rc env (C_st_uid path) else uid0 in
  let gid := if keep_owner then env_rc env (C_st_gid path) else gid0 in
  if negb is_reg then
    let fl := Z.land oflags (Z.lnot O_CREAT) in
    fd <- sys_open (C_open path fl) path fl ;;
    (if fd <? 0 then virReportSystemError "unable to open %s" else ret tt) ;;
    ret (fd, need_unlink, false)
  else
    let first := C_virFileOpenAs path oflags (Z.lor S_IRUSR S_IWUSR) uid gid
                                 (Z.lor vfoflags VIR_FILE_OPEN_NOFORK) in
    fd <- sys_open first path oflags ;;
    if fd <? 0 then
      me <- (if negb (fd =? - EACCES) && negb (fd =? - EPERM)
             then ret (user driver) else extern C_getuid) ;;
      if (negb (fd =? - EACCES) && negb (fd =? - EPERM)) || (user driver =? me)
      then
        virReportSystemError "Failed to create file '%s'" ;;
        ret (fd, need_unlink, false)
      else if path_shared =? 1 then
        let second := C_virFileOpenAs path oflags
                        (Z.lor (Z.lor (Z.lor S_IRUSR S_IWUSR) S_IRGRP) S_IWGRP)
                        (user driver) (group driver)
                        (Z.lor vfoflags VIR_FILE_OPEN_FORK) in
        fd2 <- sys_open second path oflags ;;
        if fd2 <? 0 then
          virReportSystemError "Error from child process creating '%s'" ;;
          ret (fd2, need_unlink, false)
        else ret (fd2, need_unlink, true)
      else if path_shared =? -1 then
        virReportSystemError
          "Failed to create file '%s': couldn't determine fs type" ;;
        ret (fd, need_unlink, false)
      else
        virReportSystemError "Failed to create file '%s'" ;;
        ret (fd, need_unlink, false)
    else ret (fd, need_unlink, false).

(** *** [qemuDomainSaveHeader] *)

Definition qemuDomainSaveHeader (fd : Z) (path : string) (xml : bytes)
           (header : qemud_save_header) : M Z :=
  let hb := encode_header big_endian header in
  n <- safewrite 0 fd hb ;;
  if negb (n =? Z.of_nat sizeof_header) then
    virReportError VIR_ERR_OPERATION_FAILED
                   "failed to write header to domain save file '%s'" ;;
    ret (neg_errno (C_safewrite 0 fd hb))
  else
    let xb := firstn (Z.to_nat (xml_len header)) xml in
    m <- safewrite 1 fd xb ;;
    if negb (m =? xml_len header) then
      virReportError VIR_ERR_OPERATION_FAILED "failed to write xml to '%s'" ;;
      ret (neg_errno (C_safewrite 1 fd xb))
    else ret 0.

(** *** [qemuDomainSaveMemory] *)

(** [strlen] of a C string given by its characters. *)
Definition strlen (s : bytes) : Z := Z.of_nat (List.length s).

(** Label [cleanup] of [qemuDomainSaveMemory]. *)
Definition qemuDomainSaveMemory_cleanup (path : string) (ret_ fd : Z)
           (wrapperFd needUnlink : bool) : M Z :=
  VIR_FORCE_CLOSE 9 fd ;;
  (if wrapperFd then _ <- extern C_virFileWrapperFdCatchError ;; ret tt
   else ret tt) ;;
  _ <- extern C_virFileWrapperFdFree ;;
  (if negb (ret_ =? 0) && needUnlink then _ <- unlink path ;; ret tt
   else ret tt) ;;
  ret ret_.

(** The header as it is set up before the file is opened. *)
Definition save_header_partial (domXML : bytes) (compressed_ : Z)
           (was_running_ : bool) : qemud_save_header :=
  set_xml_len (strlen domXML + 1)
    (set_compressed compressed_
       (set_was_running (if was_running_ then 1 else 0)
          (set_version QEMUD_SAVE_VERSION
             (set_magic QEMUD_SAVE_PARTIAL header_zero)))).

(** The padding that follows the XML text in the buffer. *)
Definition save_pad (domXML : bytes) : Z :=
  let offset := u64 (Z.of_nat sizeof_header + (strlen domXML + 1)) in
  u64 (1024 + (QEMU_MONITOR_MIGRATE_TO_FILE_BS
               - ((offset + 1024) mod QEMU_MONITOR_MIGRATE_TO_FILE_BS))).

(** The buffer [xml]: [VIR_ALLOC_N] hands out zeroed memory and [strcpy]
    puts the text and its terminator at the front. *)
Definition save_xml_buffer (domXML : bytes) : bytes :=
  domXML ++ repeat 0 (Z.to_nat (strlen domXML + 1 + save_pad domXML)
                      - List.length domXML)%nat.

Definition qemuDomainSaveMemory (driver : qemud_driver) (path : string)
           (domXML : bytes) (compressed_ : Z) (was_running_ : bool)
           (flags : Z) (asyncJob_ : qemuDomainAsyncJob) : M Z :=
  let header := save_header_partial domXML compressed_ was_running_ in
  let len := strlen domXML + 1 in
  let pad := save_pad domXML in
  let offset := u64 (u64 (Z.of_nat sizeof_header + len) + pad) in
  let cleanup := qemuDomainSaveMemory_cleanup path in
  a <- extern (C_VIR_ALLOC_N (len + pad)) ;;
  if a <? 0 then
    virReportOOMError ;;
    cleanup (-1) (-1) false false
  else
    let xml := save_xml_buffer domXML in
    let bypass := has_flag flags VIR_DOMAIN_SAVE_BYPASS_CACHE in
    directFlag <- (if bypass then extern C_virFileDirectFdFlag else ret 0) ;;
    if bypass && (directFlag <? 0) then
      virReportError VIR_ERR_OPERATION_FAILED
                     "bypass cache unsupported by this system" ;;
      cleanup (-1) (-1) false false
    else
      '(fd, needUnlink, bypassSecurityDriver) <-
        qemuOpenFile driver path
          (Z.lor (Z.lor (Z.lor O_WRONLY O_TRUNC) O_CREAT) directFlag) ;;
      if fd <? 0 then cleanup (-1) fd false needUnlink
      else
        wr <- extern (C_virFileWrapperFdNew path bypass) ;;
        if wr =? 0 then cleanup (-1) fd false needUnlink
        else
          h <- qemuDomainSaveHeader fd path xml header ;;
          if h <? 0 then cleanup (-1) fd true needUnlink
          else
            mig <- qemuMigrationToFile fd offset path
                     (qemuCompressProgramName compressed_)
                     bypassSecurityDriver asyncJob_ ;;
            if mig <? 0 then cleanup (-1) fd true needUnlink
            else
              (* Touch up file header to mark image complete. *)
              c1 <- VIR_CLOSE 0 fd ;;
              if c1 <? 0 then
                virReportSystemError "unable to close %s" ;;
                cleanup (-1) (-1) true needUnlink
              else
                wc <- extern C_virFileWrapperFdClose ;;
                if wc <? 0 then cleanup (-1) (-1) true needUnlink
                else
                  '(fd2, _, _) <- qemuOpenFile driver path O_WRONLY ;;
                  if fd2 <? 0 then cleanup (-1) fd2 true needUnlink
                  else
                    let header2 := set_magic QEMUD_SAVE_MAGIC header in
                    n <- safewrite 2 fd2 (encode_header big_endian header2) ;;
                    if negb (n =? Z.of_nat sizeof_header) then
                      virReportSystemError "unable to write %s" ;;
                      cleanup (-1) fd2 true needUnlink
                    else
                      c2 <- VIR_CLOSE 1 fd2 ;;
                      if c2 <? 0 then
                        virReportSystemError "unable to close %s" ;;
                        cleanup (-1) (-1) true needUnlink
                      else cleanup 0 (-1) true needUnlink.

(** *** Local variables that hold pointers *)

(** The caller's reference [vm] to the domain object: the object itself
    lives in the world, the variable only says whether it still points
    there. *)
Inductive virDomainObjPtr := vm_NULL | vm_obj.

Definition vm_set (vm : virDomainObjPtr) : bool :=
  match vm with vm_obj => true | vm_NULL => false end.

(** A [virDomainEventPtr]: [None] is [NULL]. *)
Definition virDomainEventPtr : Type :=
  option (virDomainEventType * virDomainEventDetail).

Definition virDomainEventNewFromObj (t : virDomainEventType)
           (d : virDomainEventDetail) : M virDomainEventPtr :=
  rc <- extern (C_virDomainEventNewFromObj t d) ;;
  ret (if rc =? 0 then None else Some (t, d)).

Definition queue_if_set (event : virDomainEventPtr) : M unit :=
  match event with
  | Some (t, d) => _ <- extern (C_qemuDomainEventQueue t d) ;; ret tt
  | None => ret tt
  end.

Definition unlock_if_set (vm : virDomainObjPtr) : M unit :=
  if vm_set vm then _ <- extern C_virDomainObjUnlock ;; ret tt else ret tt.

(** [virCheckFlags(supported, retval)]. *)
Definition unsupported_flags (flags supported : Z) : bool :=
  negb (Z.land flags (Z.lnot supported) =? 0).

(** *** [qemuDomainSaveInternal] *)

(** Label [cleanup]. *)
Definition qemuDomainSaveInternal_cleanup (ret_ : Z) (vm : virDomainObjPtr)
           (event : virDomainEventPtr) : M Z :=
  queue_if_set event ;;
  unlock_if_set vm ;;
  ret ret_.

(** Label [endjob]. *)
Definition qemuDomainSaveInternal_endjob (ret_ : Z) (vm : virDomainObjPtr)
           (was_running_ : bool) (event : virDomainEventPtr) : M Z :=
  if vm_set vm then
    v <- get_vm ;;
    event' <-
      (if negb (ret_ =? 0) && (was_running_ && virDomainObjIsActive v) then
         rc <- extern_vm (C_qemuProcessStartCPUs
                            VIR_DOMAIN_RUNNING_SAVE_CANCELED
                            QEMU_ASYNC_JOB_SAVE) ;;
         if rc <? 0 then
           VIR_WARN "Unable to resume guest CPUs after save failure" ;;
           virDomainEventNewFromObj VIR_DOMAIN_EVENT_SUSPENDED
                                    VIR_DOMAIN_EVENT_SUSPENDED_API_ERROR
         else ret event
       else ret event) ;;
    e <- extern_vm C_qemuDomainObjEndAsyncJob ;;
    qemuDomainSaveInternal_cleanup ret_ (if e =? 0 then vm_NULL else vm)
                                   event'
  else qemuDomainSaveInternal_cleanup ret_ vm event.

(** From the comment "libvirt.c already guaranteed these two flags are
    exclusive" to the end of the function. *)
Definition qemuDomainSaveInternal_save (driver : qemud_driver)
           (path : string) (compressed_ : Z) (xmlin : option bytes)
           (flags : Z) (was_running0 : bool) : M Z :=
  let was_running_ :=
    if has_flag flags VIR_DOMAIN_SAVE_RUNNING then true
    else if has_flag flags VIR_DOMAIN_SAVE_PAUSED then false
    else was_running0 in
  let endjob := qemuDomainSaveInternal_endjob in
  let with_xml (c : extcall) : M Z :=
    x <- extern c ;;
    if x =? 0 then
      virReportError VIR_ERR_OPERATION_FAILED "failed to get domain xml" ;;
      endjob (-1) vm_obj was_running_ None
    else
      r <- qemuDomainSaveMemory driver path (env_data env c) compressed_
             was_running_ flags QEMU_ASYNC_JOB_SAVE ;;
      if r <? 0 then endjob r vm_obj was_running_ None
      else
        (* Shut it down *)
        _ <- extern_vm (C_qemuProcessStop VIR_DOMAIN_SHUTOFF_SAVED) ;;
        _ <- extern (C_virDomainAuditStop "saved") ;;
        event <- virDomainEventNewFromObj VIR_DOMAIN_EVENT_STOPPED
                                          VIR_DOMAIN_EVENT_STOPPED_SAVED ;;
        v <- get_vm ;;
        if negb (persistent v) then
          e <- extern_vm C_qemuDomainObjEndAsyncJob ;;
          (if 0 <? e then _ <- extern C_qemuDomainRemoveInactive ;; ret tt
           else ret tt) ;;
          endjob r vm_NULL was_running_ event
        else endjob r vm_obj was_running_ event in
  match xmlin with
  | Some x =>
      d <- extern (C_virDomainDefParseString x) ;;
      if d =? 0 then endjob (-1) vm_obj was_running_ None
      else
        abi <- extern C_virDomainDefCheckABIStability ;;
        if abi =? 0 then
          _ <- extern C_virDomainDefFree ;;
          endjob (-1) vm_obj was_running_ None
        else with_xml (C_qemuDomainDefFormatLive true true true)
  | None => with_xml (C_qemuDomainDefFormatLive false true true)
  end.

Definition qemuDomainSaveInternal (driver : qemud_driver) (path : string)
           (compressed_ : Z) (xmlin : option bytes) (flags : Z) : M Z :=
  ad <- extern C_qemuProcessAutoDestroyActive ;;
  if negb (ad =? 0) then
    virReportError VIR_ERR_OPERATION_INVALID
                   "domain is marked for auto destroy" ;;
    qemuDomainSaveInternal_cleanup (-1) vm_obj None
  else
    dm <- extern C_virDomainHasDiskMirror ;;
    if negb (dm =? 0) then
      virReportError VIR_ERR_BLOCK_COPY_ACTIVE
                     "domain has active block copy job" ;;
      qemuDomainSaveInternal_cleanup (-1) vm_obj None
    else
      b <- extern_vm (C_qemuDomainObjBeginAsyncJobWithDriver
                        QEMU_ASYNC_JOB_SAVE) ;;
      (* the statement under the [if] is the [memset] *)
      (if b <? 0 then
         modify_vm (fun v =>
           set_privateData
             (set_job (set_job_info jobinfo_zero (job (privateData v)))
                      (privateData v)) v)
       else ret tt) ;;
      modify_vm (fun v =>
        set_privateData
          (set_job (set_job_info
                      (set_ji_type VIR_DOMAIN_JOB_UNBOUNDED
                                   (info (job (privateData v))))
                      (job (privateData v)))
                   (privateData v)) v) ;;
      (* Pause *)
      v <- get_vm ;;
      if state_eqb (virDomainObjGetState v) VIR_DOMAIN_RUNNING then
        s <- extern_vm (C_qemuProcessStopCPUs VIR_DOMAIN_PAUSED_SAVE
                                              QEMU_ASYNC_JOB_SAVE) ;;
        if s <? 0 then qemuDomainSaveInternal_endjob (-1) vm_obj true None
        else
          v' <- get_vm ;;
          if negb (virDomainObjIsActive v') then
            virReportError VIR_ERR_INTERNAL_ERROR "guest unexpectedly quit" ;;
            qemuDomainSaveInternal_endjob (-1) vm_obj true None
          else
            qemuDomainSaveInternal_save driver path compressed_ xmlin flags
                                        true
      else
        qemuDomainSaveInternal_save driver path compressed_ xmlin flags false.
(** *** [qemudDomainSuspend] *)

(** Label [cleanup]. *)
Definition qemudDomainSuspend_cleanup (ret_ : Z) (vm : virDomainObjPtr)
           (event : virDomainEventPtr) : M Z :=
  unlock_if_set vm ;;
  queue_if_set event ;;
  _ <- extern C_qemuDriverUnlock ;;
  ret ret_.

(** Label [endjob]: the reference is dropped when [qemuDomainObjEndJob]
    returns 0. *)
Definition qemudDomainSuspend_endjob (ret_ : Z) (vm : virDomainObjPtr)
           (event : virDomainEventPtr) : M Z :=
  e <- extern_vm C_qemuDomainObjEndJob ;;
  qemudDomainSuspend_cleanup ret_ (if e =? 0 then vm_NULL else vm) event.

Definition qemudDomainSuspend : M Z :=
  _ <- extern C_qemuDriverLock ;;
  f <- extern C_virDomainFindByUUID ;;
  if f =? 0 then
    virReportError VIR_ERR_NO_DOMAIN "no domain with matching uuid '%s'" ;;
    qemudDomainSuspend_cleanup (-1) vm_NULL None
  else
    v0 <- get_vm ;;
    if negb (virDomainObjIsActive v0) then
      virReportError VIR_ERR_OPERATION_INVALID "domain is not running" ;;
      qemudDomainSuspend_cleanup (-1) vm_obj None
    else
      b <- extern_vm (C_qemuDomainObjBeginJobWithDriver QEMU_JOB_SUSPEND) ;;
      if b <? 0 then qemudDomainSuspend_cleanup (-1) vm_obj None
      else
        v <- get_vm ;;
        if negb (virDomainObjIsActive v) then
          virReportError VIR_ERR_OPERATION_INVALID "domain is not running" ;;
          qemudDomainSuspend_endjob (-1) vm_obj None
        else
          let aj := asyncJob (job (privateData v)) in
          let reason :=
            if asyncJob_eqb aj QEMU_ASYNC_JOB_MIGRATION_OUT
            then VIR_DOMAIN_PAUSED_MIGRATION
            else if asyncJob_eqb aj QEMU_ASYNC_JOB_SNAPSHOT
            then VIR_DOMAIN_PAUSED_SNAPSHOT
            else VIR_DOMAIN_PAUSED_USER in
          let eventDetail :=
            if asyncJob_eqb aj QEMU_ASYNC_JOB_MIGRATION_OUT
            then Some VIR_DOMAIN_EVENT_SUSPENDED_MIGRATED
            else if asyncJob_eqb aj QEMU_ASYNC_JOB_SNAPSHOT
            then None
            else Some VIR_DOMAIN_EVENT_SUSPENDED_PAUSED in
          let finish (event : virDomainEventPtr) : M Z :=
            s <- extern C_virDomainSaveStatus ;;
            if s <? 0 then qemudDomainSuspend_endjob (-1) vm_obj event
            else qemudDomainSuspend_endjob 0 vm_obj event in
          if state_eqb (virDomainObjGetState v) VIR_DOMAIN_PMSUSPENDED then
            virReportError VIR_ERR_OPERATION_INVALID "domain is pmsuspended" ;;
            qemudDomainSuspend_endjob (-1) vm_obj None
          else if negb (state_eqb (virDomainObjGetState v) VIR_DOMAIN_PAUSED)
          then
            s <- extern_vm (C_qemuProcessStopCPUs reason QEMU_ASYNC_JOB_NONE) ;;
            if s <? 0 then qemudDomainSuspend_endjob (-1) vm_obj None
            else
              match eventDetail with
              | Some d =>
                  event <- virDomainEventNewFromObj
                             VIR_DOMAIN_EVENT_SUSPENDED d ;;
                  finish event
              | None => finish None
              end
          else finish None.

(** *** [qemuDomainDestroyFlags] *)

(** Label [cleanup]. *)
Definition qemuDomainDestroyFlags_cleanup (ret_ : Z) (vm : virDomainObjPtr)
           (event : virDomainEventPtr) : M Z :=
  unlock_if_set vm ;;
  queue_if_set event ;;
  _ <- extern C_qemuDriverUnlock ;;
  ret ret_.

(** Label [endjob]. *)
Definition qemuDomainDestroyFlags_endjob (ret_ : Z) (vm : virDomainObjPtr)
           (event : virDomainEventPtr) : M Z :=
  if vm_set vm then
    e <- extern_vm C_qemuDomainObjEndJob ;;
    qemuDomainDestroyFlags_cleanup ret_ (if e =? 0 then vm_NULL else vm)
                                   event
  else qemuDomainDestroyFlags_cleanup ret_ vm event.

Definition set_vm_beingDestroyed (b : bool) : M unit :=
  modify_vm (fun v =>
    set_privateData (set_beingDestroyed b (privateData v)) v).

Definition qemuDomainDestroyFlags (flags : Z) : M Z :=
  if unsupported_flags flags VIR_DOMAIN_DESTROY_GRACEFUL then
    virReportError VIR_ERR_INVALID_ARG
                   "unsupported flags (0x%lx) in function %s" ;;
    ret (-1)
  else
    _ <- extern C_qemuDriverLock ;;
    f <- extern C_virDomainFindByUUID ;;
    if f =? 0 then
      virReportError VIR_ERR_NO_DOMAIN "no domain with matching uuid '%s'" ;;
      qemuDomainDestroyFlags_cleanup (-1) vm_NULL None
    else
      _ <- extern (C_qemuDomainSetFakeReboot false) ;;
      let graceful := has_flag flags VIR_DOMAIN_DESTROY_GRACEFUL in
      k <- extern_vm (C_qemuProcessKill
                        (if graceful then 0
                         else VIR_QEMU_PROCESS_KILL_FORCE)) ;;
      if graceful && (k <? 0) then
        virReportError VIR_ERR_OPERATION_FAILED
                       "failed to kill qemu process with SIGTERM" ;;
        qemuDomainDestroyFlags_cleanup (-1) vm_obj None
      else
        set_vm_beingDestroyed true ;;
        b <- extern_vm (C_qemuDomainObjBeginJobWithDriver QEMU_JOB_DESTROY) ;;
        if b <? 0 then qemuDomainDestroyFlags_cleanup (-1) vm_obj None
        else
          set_vm_beingDestroyed false ;;
          v <- get_vm ;;
          if negb (virDomainObjIsActive v) then
            virReportError VIR_ERR_OPERATION_INVALID "domain is not running" ;;
            qemuDomainDestroyFlags_endjob (-1) vm_obj None
          else
            _ <- extern_vm (C_qemuProcessStop VIR_DOMAIN_SHUTOFF_DESTROYED) ;;
            event <- virDomainEventNewFromObj
                       VIR_DOMAIN_EVENT_STOPPED
                       VIR_DOMAIN_EVENT_STOPPED_DESTROYED ;;
            _ <- extern (C_virDomainAuditStop "destroyed") ;;
            v' <- get_vm ;;
            if negb (persistent v') then
              e <- extern_vm C_qemuDomainObjEndJob ;;
              (if 0 <? e then _ <- extern C_qemuDomainRemoveInactive ;; ret tt
               else ret tt) ;;
              qemuDomainDestroyFlags_endjob 0 vm_NULL event
            else qemuDomainDestroyFlags_endjob 0 vm_obj event.

(** *** [qemuDomainAbortJob] *)

(** Label [cleanup]. *)
Definition qemuDomainAbortJob_cleanup (ret_ : Z) (vm : virDomainObjPtr)
  : M Z :=
  unlock_if_set vm ;;
  ret ret_.

(** Label [endjob]. *)
Definition qemuDomainAbortJob_endjob (ret_ : Z) (vm : virDomainObjPtr)
  : M Z :=
  e <- extern_vm C_qemuDomainObjEndJob ;;
  qemuDomainAbortJob_cleanup ret_ (if e =? 0 then vm_NULL else vm).

Definition qemuDomainAbortJob : M Z :=
  _ <- extern C_qemuDriverLock ;;
  f <- extern C_virDomainFindByUUID ;;
  _ <- extern C_qemuDriverUnlock ;;
  if f =? 0 then
    virReportError VIR_ERR_NO_DOMAIN "no domain with matching uuid '%s'" ;;
    qemuDomainAbortJob_cleanup (-1) vm_NULL
  else
    b <- extern_vm (C_qemuDomainObjBeginJob QEMU_JOB_ABORT) ;;
    if b <? 0 then qemuDomainAbortJob_cleanup (-1) vm_obj
    else
      v <- get_vm ;;
      if negb (virDomainObjIsActive v) then
        virReportError VIR_ERR_OPERATION_INVALID "domain is not running" ;;
        qemuDomainAbortJob_endjob (-1) vm_obj
      else
        let j := job (privateData v) in
        if asyncJob_eqb (asyncJob j) QEMU_ASYNC_JOB_NONE
           || dump_memory_only j then
          virReportError VIR_ERR_OPERATION_INVALID
                         "no job is active on the domain" ;;
          qemuDomainAbortJob_endjob (-1) vm_obj
        else if asyncJob_eqb (asyncJob j) QEMU_ASYNC_JOB_MIGRATION_IN then
          virReportError VIR_ERR_OPERATION_INVALID
            "cannot abort incoming migration; use virDomainDestroy instead" ;;
          qemuDomainAbortJob_endjob (-1) vm_obj
        else
          VIR_DEBUG "Cancelling job at client request" ;;
          _ <- extern C_qemuDomainObjAbortAsyncJob ;;
          _ <- extern_vm C_qemuDomainObjEnterMonitor ;;
          r <- extern_vm C_qemuMonitorMigrateCancel ;;
          _ <- extern_vm C_qemuDomainObjExitMonitor ;;
          qemuDomainAbortJob_endjob r vm_obj.

(** *** [qemuDomainGetJobInfo] and [qemuDomainGetControlInfo] *)

(** [virTimeMillisNow(&now)]: the status, and the clock in milliseconds
    as an [unsigned long long]. *)
Definition virTimeMillisNow : M (Z * Z) :=
  rc <- extern C_virTimeMillisNow ;;
  ret (rc, u64 (env_rc env C_gettimeofday)).

(** The caller's [info] is an out-parameter: the function returns the
    status together with what [info] holds on return. *)
Definition qemuDomainGetJobInfo (info0 : virDomainJobInfo)
  : M (Z * virDomainJobInfo) :=
  let cleanup (ret_ : Z) (vm : virDomainObjPtr) (i : virDomainJobInfo) :=
    unlock_if_set vm ;; ret (ret_, i) in
  _ <- extern C_qemuDriverLock ;;
  f <- extern C_virDomainFindByUUID ;;
  _ <- extern C_qemuDriverUnlock ;;
  if f =? 0 then
    virReportError VIR_ERR_NO_DOMAIN "no domain with matching uuid '%s'" ;;
    cleanup (-1) vm_NULL info0
  else
    v <- get_vm ;;
    let j := job (privateData v) in
    if virDomainObjIsActive v then
      if negb (asyncJob_eqb (asyncJob j) QEMU_ASYNC_JOB_NONE)
         && negb (dump_memory_only j) then
        '(rc, now) <- virTimeMillisNow ;;
        if rc <? 0 then cleanup (-1) vm_obj (info j)
        else cleanup 0 vm_obj (set_timeElapsed (sub64 now (start j)) (info j))
      else
        cleanup 0 vm_obj (set_ji_type VIR_DOMAIN_JOB_NONE jobinfo_zero)
    else
      virReportError VIR_ERR_OPERATION_INVALID "domain is not running" ;;
      cleanup (-1) vm_obj info0.

(** [struct _virDomainControlInfo]. *)
Record virDomainControlInfo := mkControlInfo {
  ci_state : virDomainControlState;
  ci_details : Z;
  ci_stateTime : Z
}.

Definition qemuDomainGetControlInfo (info0 : virDomainControlInfo)
           (flags : Z) : M (Z * virDomainControlInfo) :=
  let cleanup (ret_ : Z) (vm : virDomainObjPtr) (i : virDomainControlInfo) :=
    unlock_if_set vm ;; ret (ret_, i) in
  if unsupported_flags flags 0 then
    virReportError VIR_ERR_INVALID_ARG
                   "unsupported flags (0x%lx) in function %s" ;;
    ret (-1, info0)
  else
    _ <- extern C_qemuDriverLock ;;
    f <- extern C_virDomainFindByUUID ;;
    _ <- extern C_qemuDriverUnlock ;;
    if f =? 0 then
      virReportError VIR_ERR_NO_DOMAIN "no domain with matching uuid '%s'" ;;
      cleanup (-1) vm_NULL info0
    else
      v <- get_vm ;;
      if negb (virDomainObjIsActive v) then
        virReportError VIR_ERR_OPERATION_INVALID "domain is not running" ;;
        cleanup (-1) vm_obj info0
      else
        let priv := privateData v in
        (* memset(info, 0, sizeof( *info)) makes the state CONTROL_OK *)
        if monError priv then
          cleanup 0 vm_obj (mkControlInfo VIR_DOMAIN_CONTROL_ERROR 0 0)
        else if negb (job_eqb (active (job priv)) QEMU_JOB_NONE) then
          if monStart priv =? 0 then
            '(rc, now) <- virTimeMillisNow ;;
            if rc <? 0
            then cleanup (-1) vm_obj (mkControlInfo VIR_DOMAIN_CONTROL_JOB 0 0)
            else cleanup 0 vm_obj
                   (mkControlInfo VIR_DOMAIN_CONTROL_JOB 0
                                  (sub64 now (start (job priv))))
          else
            '(rc, now) <- virTimeMillisNow ;;
            if rc <? 0
            then cleanup (-1) vm_obj
                   (mkControlInfo VIR_DOMAIN_CONTROL_OCCUPIED 0 0)
            else cleanup 0 vm_obj
                   (mkControlInfo VIR_DOMAIN_CONTROL_OCCUPIED 0
                                  (sub64 now (monStart priv)))
        else cleanup 0 vm_obj (mkControlInfo VIR_DOMAIN_CONTROL_OK 0 0).
(** *** [qemuDomainSaveImageOpen] *)

(** The C string held in a buffer: the octets before the first NUL. *)
Fixpoint cstr (b : bytes) : bytes :=
  match b with
  | [] => []
  | x :: b' => if x =? 0 then [] else x :: cstr b'
  end.

(** What [qemuDomainSaveImageOpen] hands back: the value it returns, the
    definition and header stored through [ret_def] and [ret_header] when
    it returns a descriptor, and whether [*wrapperFd] was set. *)
Record save_image := mkImage {
  img_fd : Z;
  img_def : Z;
  img_header : option qemud_save_header;
  img_wrapperFd : bool
}.

(** Label [error]. *)
Definition qemuDomainSaveImageOpen_error (fd : Z) (wrapperFd : bool)
  : M save_image :=
  _ <- extern C_virDomainDefFree ;;
  VIR_FORCE_CLOSE 9 fd ;;
  ret (mkImage (-1) 0 None wrapperFd).

(** The arm taken for a short header and for the partial magic when
    [unlink_corrupt] is set. *)
Definition qemuDomainSaveImageOpen_unlink (path : string) (fd : Z)
           (wrapperFd : bool) : M save_image :=
  c <- VIR_CLOSE 0 fd ;;
  if c <? 0 then
    virReportSystemError "cannot remove corrupt file: %s" ;;
    qemuDomainSaveImageOpen_error (-1) wrapperFd
  else
    u <- unlink path ;;
    if u <? 0 then
      virReportSystemError "cannot remove corrupt file: %s" ;;
      qemuDomainSaveImageOpen_error (-1) wrapperFd
    else ret (mkImage (-3) 0 None wrapperFd).

Definition qemuDomainSaveImageOpen (driver : qemud_driver) (path : string)
           (bypass_cache : bool) (xmlin : option bytes) (state : Z)
           (edit unlink_corrupt : bool) : M save_image :=
  let oflags0 := if edit then O_RDWR else O_RDONLY in
  directFlag <- (if bypass_cache then extern C_virFileDirectFdFlag
                 else ret 0) ;;
  if bypass_cache && (directFlag <? 0) then
    virReportError VIR_ERR_OPERATION_FAILED
                   "bypass cache unsupported by this system" ;;
    qemuDomainSaveImageOpen_error (-1) false
  else
    '(fd, _, _) <- qemuOpenFile driver path (Z.lor oflags0 directFlag) ;;
    if fd <? 0 then qemuDomainSaveImageOpen_error fd false
    else
      wr <- (if bypass_cache then extern (C_virFileWrapperFdNew path true)
             else ret 1) ;;
      if bypass_cache && (wr =? 0) then qemuDomainSaveImageOpen_error fd false
      else
        let error := qemuDomainSaveImageOpen_error fd bypass_cache in
        '(n, hb) <- saferead 0 fd (Z.of_nat sizeof_header) ;;
        if negb (n =? Z.of_nat sizeof_header) then
          if unlink_corrupt
          then qemuDomainSaveImageOpen_unlink path fd bypass_cache
          else
            virReportError VIR_ERR_OPERATION_FAILED
                           "failed to read qemu header" ;;
            error
        else
          let header := decode_header big_endian hb in
          if negb (magic_is QEMUD_SAVE_MAGIC header) then
            if magic_is QEMUD_SAVE_PARTIAL header then
              if unlink_corrupt
              then qemuDomainSaveImageOpen_unlink path fd bypass_cache
              else
                virReportError VIR_ERR_OPERATION_FAILED
                               "save image is incomplete" ;;
                error
            else
              virReportError VIR_ERR_OPERATION_FAILED
                             "image magic is incorrect" ;;
              error
          else
            (* convert endianess and try again *)
            let header :=
              if QEMUD_SAVE_VERSION <? version header
              then bswap_header header else header in
            if QEMUD_SAVE_VERSION <? version header then
              virReportError VIR_ERR_OPERATION_FAILED
                             "image version is not supported (%d > %d)" ;;
              error
            else if xml_len header <=? 0 then
              virReportError VIR_ERR_OPERATION_FAILED
                             "invalid XML length: %d" ;;
              error
            else
              a <- extern (C_VIR_ALLOC_N (xml_len header)) ;;
              if a <? 0 then virReportOOMError ;; error
              else
                '(m, xml) <- saferead 1 fd (xml_len header) ;;
                if negb (m =? xml_len header) then
                  virReportError VIR_ERR_OPERATION_FAILED
                                 "failed to read XML" ;;
                  error
                else if edit
                        && match xmlin with
                           | Some x => bytes_eqb (cstr xml) (cstr x)
                           | None => false
                           end
                        && ((state <? 0) || (u32 state =? was_running header))
                then
                  c <- VIR_CLOSE 1 fd ;;
                  if c <? 0 then
                    virReportSystemError "cannot close file: %s" ;;
                    qemuDomainSaveImageOpen_error (-1) bypass_cache
                  else ret (mkImage (-2) 0 None bypass_cache)
                else
                  let header :=
                    if 0 <=? state then set_was_running state header
                    else header in
                  (* Create a domain from this XML *)
                  def <- extern (C_virDomainDefParseString (cstr xml)) ;;
                  if def =? 0 then error
                  else
                    match xmlin with
                    | Some x =>
                        def2 <- extern (C_virDomainDefParseString x) ;;
                        if def2 =? 0 then error
                        else
                          abi <- extern C_virDomainDefCheckABIStability ;;
                          if abi =? 0 then
                            _ <- extern C_virDomainDefFree ;;
                            error
                          else
                            _ <- extern C_virDomainDefFree ;;
                            ret (mkImage fd def2 (Some header) bypass_cache)
                    | None => ret (mkImage fd def (Some header) bypass_cache)
                    end.

(** *** [qemuDomainObjRestore] and [qemuDomainObjStart] *)

(** [qemuDomainSaveImageStartVM] starts the emulator on the image behind
    the descriptor.  What the driver does after a save image has been
    accepted is outside this development, so the function is kept as one
    call: it may change the domain object, and it takes the descriptor by
    reference, closing it and storing -1 on most of its paths; which one
    was taken is the environment's answer. *)
Definition qemuDomainSaveImageStartVM (fd : Z) (path : string)
           (start_paused : bool) : M (Z * Z) :=
  r <- extern_vm (C_qemuDomainSaveImageStartVM path start_paused) ;;
  if env_rc env C_qemuDomainSaveImageStartVM_fd <? 0 then
    (fun w => ((r, -1),
               mkWorld (w_vm w) (w_fs w) None (w_trace w) (w_journal w)))
  else ret (r, fd).

(** Label [cleanup] of [qemuDomainObjRestore]. *)
Definition qemuDomainObjRestore_cleanup (ret_ fd : Z) : M Z :=
  _ <- extern C_virDomainDefFree ;;
  VIR_FORCE_CLOSE 8 fd ;;
  _ <- extern C_virFileWrapperFdFree ;;
  ret ret_.

Definition qemuDomainObjRestore (driver : qemud_driver) (path : string)
           (start_paused bypass_cache : bool) : M Z :=
  img <- qemuDomainSaveImageOpen driver path bypass_cache None (-1) false
           true ;;
  let fd := img_fd img in
  if fd <? 0 then
    qemuDomainObjRestore_cleanup (if fd =? -3 then 1 else -1) fd
  else
    diff <- extern C_def_identity_differs ;;
    if negb (diff =? 0) then
      virReportError VIR_ERR_OPERATION_FAILED
        "cannot restore domain '%s' uuid %s from a file which belongs to domain '%s' uuid %s" ;;
      qemuDomainObjRestore_cleanup (-1) fd
    else
      _ <- extern C_virDomainObjAssignDef ;;
      '(r, fd') <- qemuDomainSaveImageStartVM fd path start_paused ;;
      wc <- extern C_virFileWrapperFdClose ;;
      (if wc <? 0 then VIR_WARN "Failed to close %s" else ret tt) ;;
      qemuDomainObjRestore_cleanup r fd'.

Definition qemuDomainManagedSavePath (driver : qemud_driver)
  : M (option string) :=
  r <- extern C_virAsprintf ;;
  if r <? 0 then virReportOOMError ;; ret None
  else
    v <- get_vm ;;
    ret (Some (saveDir driver ++ "/" ++ def_name v ++ ".save")%string).

Definition qemuDomainObjStart (driver : qemud_driver) (flags : Z) : M Z :=
  let start_paused := has_flag flags VIR_DOMAIN_START_PAUSED in
  let autodestroy := has_flag flags VIR_DOMAIN_START_AUTODESTROY in
  let bypass_cache := has_flag flags VIR_DOMAIN_START_BYPASS_CACHE in
  let force_boot := has_flag flags VIR_DOMAIN_START_FORCE_BOOT in
  let start_flags :=
    Z.lor (Z.lor VIR_QEMU_PROCESS_START_COLD
                 (if start_paused then VIR_QEMU_PROCESS_START_PAUSED else 0))
          (if autodestroy then VIR_QEMU_PROCESS_START_AUTODESROY else 0) in
  let boot : M Z :=
    r <- extern_vm (C_qemuProcessStart start_flags) ;;
    _ <- extern (C_virDomainAuditStart "booted" (0 <=? r)) ;;
    (if 0 <=? r then
       event <- virDomainEventNewFromObj VIR_DOMAIN_EVENT_STARTED
                                         VIR_DOMAIN_EVENT_STARTED_BOOTED ;;
       match event with
       | Some _ =>
           queue_if_set event ;;
           if start_paused then
             event2 <- virDomainEventNewFromObj
                         VIR_DOMAIN_EVENT_SUSPENDED
                         VIR_DOMAIN_EVENT_SUSPENDED_PAUSED ;;
             queue_if_set event2
           else ret tt
       | None => ret tt
       end
     else ret tt) ;;
    ret r in
  ms <- qemuDomainManagedSavePath driver ;;
  match ms with
  | None => ret (-1)
  | Some managed_save =>
      ex <- file_exists managed_save ;;
      if ex then
        if force_boot then
          u <- unlink managed_save ;;
          if u <? 0 then
            virReportSystemError "cannot remove managed save file %s" ;;
            ret (-1)
          else boot
        else
          r <- qemuDomainObjRestore driver managed_save start_paused
                 bypass_cache ;;
          (if r =? 0 then
             u <- unlink managed_save ;;
             if u <? 0
             then VIR_WARN "Failed to remove the managed state %s"
             else modify_vm (set_hasManagedSave false)
           else ret tt) ;;
          if 0 <? r then
            VIR_WARN "Ignoring incomplete managed state %s" ;;
            boot
          else ret r
      else boot
  end.
(** *** [qemuDomainSnapshotCreateActiveExternal] *)

(** The mask handed to [qemuDomainObjSetAsyncJobMask] around the memory
    image. *)
Definition snapshot_memory_mask : Z :=
  Z.lor (Z.lor DEFAULT_JOB_MASK (JOB_MASK QEMU_JOB_SUSPEND))
        (JOB_MASK QEMU_JOB_MIGRATION_OP).

(** Label [endjob]; [thaw] is 1 if freeze succeeded, -1 if freeze failed.
    The function returns its status and what [*vmptr] holds. *)
Definition qemuDomainSnapshotCreateActiveExternal_endjob (ret_ : Z)
           (vm : virDomainObjPtr) (resume : bool) (thaw : Z)
  : M (Z * virDomainObjPtr) :=
  v <- get_vm ;;
  s <- (if resume && vm_set vm && virDomainObjIsActive v
        then extern_vm (C_qemuProcessStartCPUs VIR_DOMAIN_RUNNING_UNPAUSED
                                               QEMU_ASYNC_JOB_SNAPSHOT)
        else ret 0) ;;
  if s <? 0 then
    event <- virDomainEventNewFromObj VIR_DOMAIN_EVENT_SUSPENDED
                                      VIR_DOMAIN_EVENT_SUSPENDED_API_ERROR ;;
    queue_if_set event ;;
    e <- extern C_virGetLastError ;;
    (if e =? 0
     then virReportError VIR_ERR_OPERATION_FAILED
                         "resuming after snapshot failed"
     else ret tt) ;;
    ret (-1, vm_obj)
  else
    t <- (if vm_set vm && negb (thaw =? 0)
          then extern_vm (C_qemuDomainSnapshotFSThaw (0 <? thaw))
          else ret 0) ;;
    let ret1 := if (t <? 0) && (0 <? thaw) then -1 else ret_ in
    if vm_set vm then
      e <- extern_vm C_qemuDomainObjEndAsyncJob ;;
      if e =? 0 then ret (-1, vm_NULL) else ret (ret1, vm_obj)
    else ret (ret1, vm_obj).

(** From "do the memory snapshot if necessary" to label [endjob]. *)
Definition qemuDomainSnapshotCreateActiveExternal_take
           (driver : qemud_driver) (memory : bool) (file_ : string)
           (flags : Z) (resume : bool) (thaw : Z)
  : M (Z * virDomainObjPtr) :=
  let endjob := qemuDomainSnapshotCreateActiveExternal_endjob in
  let disks : M (Z * virDomainObjPtr) :=
    d <- extern_vm (C_qemuDomainSnapshotCreateDiskActive
                      flags QEMU_ASYNC_JOB_SNAPSHOT) ;;
    if d <? 0 then endjob d vm_obj resume thaw
    else if has_flag flags VIR_DOMAIN_SNAPSHOT_CREATE_HALT then
      event <- virDomainEventNewFromObj
                 VIR_DOMAIN_EVENT_STOPPED
                 VIR_DOMAIN_EVENT_STOPPED_FROM_SNAPSHOT ;;
      _ <- extern_vm (C_qemuProcessStop VIR_DOMAIN_SHUTOFF_FROM_SNAPSHOT) ;;
      _ <- extern (C_virDomainAuditStop "from-snapshot") ;;
      _ <- extern_vm C_qemuDomainObjEndAsyncJob ;;
      queue_if_set event ;;
      endjob 0 vm_NULL false 0
    else endjob 0 vm_obj resume thaw in
  if memory then
    (* allow the migration job to be cancelled or the domain to be paused *)
    _ <- extern (C_qemuDomainObjSetAsyncJobMask snapshot_memory_mask) ;;
    let fmt := C_qemuDomainDefFormatLive false true false in
    x <- extern fmt ;;
    if x =? 0 then endjob (-1) vm_obj resume thaw
    else
      r <- qemuDomainSaveMemory driver file_ (env_data env fmt)
             QEMUD_SAVE_FORMAT_RAW resume 0 QEMU_ASYNC_JOB_SNAPSHOT ;;
      if r <? 0 then endjob r vm_obj resume thaw
      else
        (* forbid any further manipulation *)
        _ <- extern (C_qemuDomainObjSetAsyncJobMask DEFAULT_JOB_MASK) ;;
        disks
  else disks.

Definition qemuDomainSnapshotCreateActiveExternal (driver : qemud_driver)
           (memory : bool) (file_ : string) (flags : Z)
  : M (Z * virDomainObjPtr) :=
  let endjob := qemuDomainSnapshotCreateActiveExternal_endjob in
  let atomic := has_flag flags VIR_DOMAIN_SNAPSHOT_CREATE_ATOMIC in
  tr <- extern C_qemuCapsGet_TRANSACTION ;;
  let transaction := negb (tr =? 0) in
  b <- extern_vm (C_qemuDomainObjBeginAsyncJobWithDriver
                    QEMU_ASYNC_JOB_SNAPSHOT) ;;
  if b <? 0 then ret (-1, vm_obj)
  else
    fz <- (if has_flag flags VIR_DOMAIN_SNAPSHOT_CREATE_QUIESCE
           then extern_vm C_qemuDomainSnapshotFSFreeze else ret 0) ;;
    if fz <? 0 then endjob (-1) vm_obj false (-1)
    else
      let thaw :=
        if has_flag flags VIR_DOMAIN_SNAPSHOT_CREATE_QUIESCE then 1 else 0 in
      v <- get_vm ;;
      (* we need to resume the guest only if it was previously running *)
      if state_eqb (virDomainObjGetState v) VIR_DOMAIN_RUNNING then
        if (memory && negb (has_flag flags VIR_DOMAIN_SNAPSHOT_CREATE_LIVE))
           || (negb memory && atomic && negb transaction) then
          s <- extern_vm (C_qemuProcessStopCPUs VIR_DOMAIN_PAUSED_SNAPSHOT
                                                QEMU_ASYNC_JOB_SNAPSHOT) ;;
          if s <? 0 then endjob (-1) vm_obj true thaw
          else
            v' <- get_vm ;;
            if negb (virDomainObjIsActive v') then
              virReportError VIR_ERR_INTERNAL_ERROR
                             "guest unexpectedly quit" ;;
              endjob (-1) vm_obj true thaw
            else
              qemuDomainSnapshotCreateActiveExternal_take
                driver memory file_ flags true thaw
        else
          qemuDomainSnapshotCreateActiveExternal_take
            driver memory file_ flags true thaw
      else
        qemuDomainSnapshotCreateActiveExternal_take
          driver memory file_ flags false thaw.

(** *** [qemuDomainMigrateBegin3] and [qemuDomainMigrateConfirm3] *)

(** Label [cleanup] of [qemuDomainMigrateBegin3]; [xml] is the value the
    function returns, [None] for [NULL]. *)
Definition qemuDomainMigrateBegin3_cleanup (xml : option bytes)
           (vm : virDomainObjPtr) : M (option bytes) :=
  unlock_if_set vm ;;
  _ <- extern C_qemuDriverUnlock ;;
  ret xml.

(** Label [endjob] of [qemuDomainMigrateBegin3]. *)
Definition qemuDomainMigrateBegin3_endjob (flags : Z) (xml : option bytes)
  : M (option bytes) :=
  e <- (if has_flag flags VIR_MIGRATE_CHANGE_PROTECTION
        then extern_vm C_qemuMigrationJobFinish
        else extern_vm C_qemuDomainObjEndJob) ;;
  qemuDomainMigrateBegin3_cleanup xml (if e =? 0 then vm_NULL else vm_obj).

Definition qemuDomainMigrateBegin3 (flags : Z) : M (option bytes) :=
  if unsupported_flags flags QEMU_MIGRATION_FLAGS then
    virReportError VIR_ERR_INVALID_ARG
                   "unsupported flags (0x%lx) in function %s" ;;
    ret None
  else
    let cp := has_flag flags VIR_MIGRATE_CHANGE_PROTECTION in
    _ <- extern C_qemuDriverLock ;;
    f <- extern C_virDomainFindByUUID ;;
    if f =? 0 then
      virReportError VIR_ERR_NO_DOMAIN "no domain with matching uuid '%s'" ;;
      qemuDomainMigrateBegin3_cleanup None vm_NULL
    else
      b <- (if cp
            then extern_vm (C_qemuMigrationJobStart
                              QEMU_ASYNC_JOB_MIGRATION_OUT)
            else extern_vm (C_qemuDomainObjBeginJobWithDriver
                              QEMU_JOB_MODIFY)) ;;
      if b <? 0 then qemuDomainMigrateBegin3_cleanup None vm_obj
      else
        let asyncJob_ := if cp then QEMU_ASYNC_JOB_MIGRATION_OUT
                         else QEMU_ASYNC_JOB_NONE in
        v <- get_vm ;;
        if negb (virDomainObjIsActive v) then
          virReportError VIR_ERR_OPERATION_INVALID "domain is not running" ;;
          qemuDomainMigrateBegin3_endjob flags None
        else
          m <- extern_vm (C_qemuDomainCheckEjectableMedia asyncJob_) ;;
          if m <? 0 then qemuDomainMigrateBegin3_endjob flags None
          else
            x <- extern_vm C_qemuMigrationBegin ;;
            if x =? 0 then qemuDomainMigrateBegin3_endjob flags None
            else
              let xml := Some (env_data env C_qemuMigrationBegin) in
              if cp then
                (* We keep the job active across API calls until the
                   confirm() call. *)
                s <- extern C_qemuDriverCloseCallbackSet ;;
                if s <? 0 then qemuDomainMigrateBegin3_endjob flags xml
                else
                  c <- extern_vm C_qemuMigrationJobContinue ;;
                  if c =? 0 then
                    virReportError VIR_ERR_OPERATION_FAILED
                                   "domain disappeared" ;;
                    qemuDomainMigrateBegin3_cleanup None vm_NULL
                  else qemuDomainMigrateBegin3_cleanup xml vm_obj
              else qemuDomainMigrateBegin3_endjob flags xml.

(** Label [cleanup] of [qemuDomainMigrateConfirm3]. *)
Definition qemuDomainMigrateConfirm3_cleanup (ret_ : Z)
           (vm : virDomainObjPtr) : M Z :=
  unlock_if_set vm ;;
  _ <- extern C_qemuDriverUnlock ;;
  ret ret_.

Definition qemuDomainMigrateConfirm3 (flags : Z) (cancelled : Z) : M Z :=
  if unsupported_flags flags QEMU_MIGRATION_FLAGS then
    virReportError VIR_ERR_INVALID_ARG
                   "unsupported flags (0x%lx) in function %s" ;;
    ret (-1)
  else
    _ <- extern C_qemuDriverLock ;;
    f <- extern C_virDomainFindByUUID ;;
    if f =? 0 then
      virReportError VIR_ERR_NO_DOMAIN "no domain with matching uuid '%s'" ;;
      qemuDomainMigrateConfirm3_cleanup (-1) vm_NULL
    else
      a <- extern (C_qemuMigrationJobIsActive QEMU_ASYNC_JOB_MIGRATION_OUT) ;;
      if a =? 0 then qemuDomainMigrateConfirm3_cleanup (-1) vm_obj
      else
        let phase_ := if negb (cancelled =? 0)
                      then QEMU_MIGRATION_PHASE_CONFIRM3_CANCELLED
                      else QEMU_MIGRATION_PHASE_CONFIRM3 in
        _ <- extern (C_qemuMigrationJobStartPhase phase_) ;;
        _ <- extern C_qemuDriverCloseCallbackUnset ;;
        r <- extern_vm (C_qemuMigrationConfirm flags cancelled) ;;
        e <- extern_vm C_qemuMigrationJobFinish ;;
        if e =? 0 then qemuDomainMigrateConfirm3_cleanup r vm_NULL
        else
          v <- get_vm ;;
          if negb (virDomainObjIsActive v)
             && (negb (persistent v)
                 || has_flag flags VIR_MIGRATE_UNDEFINE_SOURCE) then
            (if has_flag flags VIR_MIGRATE_UNDEFINE_SOURCE
             then _ <- extern C_virDomainDeleteConfig ;; ret tt
             else ret tt) ;;
            _ <- extern C_qemuDomainRemoveInactive ;;
            qemuDomainMigrateConfirm3_cleanup r vm_NULL
          else qemuDomainMigrateConfirm3_cleanup r vm_obj.

End Model.


(** * Observations on runs *)

(** The domain object as [qemuDomainAbortJob] finds it once it holds the
    abort job. *)
Definition abort_vm (env : environment) (vm : virDomainObj) : virDomainObj :=
  env_vm env (C_qemuDomainObjBeginJob QEMU_JOB_ABORT) vm.

(** What every run that has acquired the abort job starts with, and how it
    ends: the job is ended, and the domain is unlocked unless ending the
    job dropped the last reference. *)
Definition abort_prologue : list extcall :=
  [C_qemuDriverLock; C_virDomainFindByUUID; C_qemuDriverUnlock;
   C_qemuDomainObjBeginJob QEMU_JOB_ABORT].

Definition abort_epilogue (env : environment) : list extcall :=
  C_qemuDomainObjEndJob
    :: (if env_rc env C_qemuDomainObjEndJob =? 0 then []
        else [C_virDomainObjUnlock]).


(** ** The reference to the domain object *)

(** Calls that are handed the domain object, or reach it through the
    private data. *)
Definition accesses_vm (c : extcall) : bool :=
  match c with
  | C_virDomainObjUnlock
  | C_qemuDomainRemoveInactive
  | C_virDomainDeleteConfig
  | C_virDomainSaveStatus
  | C_virDomainObjAssignDef
  | C_virDomainHasDiskMirror
  | C_virDomainEventNewFromObj _ _
  | C_virDomainAuditStop _
  | C_virDomainAuditStart _ _
  | C_qemuDomainObjBeginJob _
  | C_qemuDomainObjBeginJobWithDriver _
  | C_qemuDomainObjBeginAsyncJobWithDriver _
  | C_qemuDomainObjEndJob
  | C_qemuDomainObjEndAsyncJob
  | C_qemuDomainObjSetAsyncJobMask _
  | C_qemuDomainObjAbortAsyncJob
  | C_qemuDomainObjEnterMonitor
  | C_qemuDomainObjExitMonitor
  | C_qemuMonitorMigrateCancel
  | C_qemuProcessAutoDestroyActive
  | C_qemuDomainSetFakeReboot _
  | C_qemuProcessKill _
  | C_qemuProcessStopCPUs _ _
  | C_qemuProcessStartCPUs _ _
  | C_qemuProcessStop _
  | C_qemuProcessStart _
  | C_qemuDomainSaveImageStartVM _ _
  | C_qemuDomainDefFormatLive _ _ _
  | C_qemuCapsGet_TRANSACTION
  | C_qemuDomainSnapshotFSFreeze
  | C_qemuDomainSnapshotFSThaw _
  | C_qemuDomainSnapshotCreateDiskActive _ _
  | C_qemuMigrationToFile _ _ _ _ _ _
  | C_qemuMigrationJobStart _
  | C_qemuMigrationJobIsActive _
  | C_qemuMigrationJobStartPhase _
  | C_qemuMigrationJobContinue
  | C_qemuMigrationJobFinish
  | C_qemuDomainCheckEjectableMedia _
  | C_qemuMigrationBegin
  | C_qemuMigrationConfirm _ _
  | C_qemuDriverCloseCallbackSet
  | C_qemuDriverCloseCallbackUnset => true
  | _ => false
  end.

(** Calls that end a job and say whether the object is still referenced. *)
Definition ends_job (c : extcall) : bool :=
  match c with
  | C_qemuDomainObjEndJob
  | C_qemuDomainObjEndAsyncJob
  | C_qemuMigrationJobFinish => true
  | _ => false
  end.

Definition untouched (t : list event) : bool :=
  forallb (fun e => negb (accesses_vm (ev_call e))) t.

(** Once a job has been ended with result 0, nothing in the rest of the
    run is handed the domain object. *)
Fixpoint released_untouched (t : list event) : bool :=
  match t with
  | [] => true
  | e :: t' =>
      (if ends_job (ev_call e) && (ev_rc e =? 0) then untouched t' else true)
      && released_untouched t'
  end.

(** A job ended with a positive result is followed at once by
    [qemuDomainRemoveInactive]. *)
Fixpoint removed_when_kept (t : list event) : bool :=
  match t with
  | [] => true
  | e :: t' =>
      (if ends_job (ev_call e) && (0 <? ev_rc e)
       then match t' with
            | Ev C_qemuDomainRemoveInactive _ :: _ => true
            | _ => false
            end
       else true)
      && removed_when_kept t'
  end.

(** The domain object as [qemuDomainDestroyFlags] finds it once
    [qemuProcessStop] has returned. *)
Definition destroy_stopped_vm (env : environment) (flags : Z)
           (vm : virDomainObj) : virDomainObj :=
  let kill := C_qemuProcessKill
                (if has_flag flags VIR_DOMAIN_DESTROY_GRACEFUL then 0
                 else VIR_QEMU_PROCESS_KILL_FORCE) in
  let begun :=
    env_vm env (C_qemuDomainObjBeginJobWithDriver QEMU_JOB_DESTROY)
      (set_privateData
         (set_beingDestroyed true (privateData (env_vm env kill vm)))
         (env_vm env kill vm)) in
  env_vm env (C_qemuProcessStop VIR_DOMAIN_SHUTOFF_DESTROYED)
    (set_privateData (set_beingDestroyed false (privateData begun)) begun).

(** ** Migration with change protection *)

(** The domain object as [qemuDomainMigrateBegin3] finds it once the
    migration job has been started. *)
Definition begin3_vm (env : environment) (vm : virDomainObj) : virDomainObj :=
  env_vm env (C_qemuMigrationJobStart QEMU_ASYNC_JOB_MIGRATION_OUT) vm.

(** Every step of [qemuDomainMigrateBegin3] between starting the job and
    handing it over succeeds. *)
Definition begin3_steps_ok (env : environment) (vm : virDomainObj) : bool :=
  virDomainObjIsActive (begin3_vm env vm)
  && (0 <=? env_rc env (C_qemuDomainCheckEjectableMedia
                          QEMU_ASYNC_JOB_MIGRATION_OUT))
  && negb (env_rc env C_qemuMigrationBegin =? 0)
  && (0 <=? env_rc env C_qemuDriverCloseCallbackSet).

Definition begin3_prologue : list extcall :=
  [C_qemuDriverLock; C_virDomainFindByUUID;
   C_qemuMigrationJobStart QEMU_ASYNC_JOB_MIGRATION_OUT].

Definition confirm3_phase (cancelled : Z) : qemuMigrationJobPhase :=
  if cancelled =? 0 then QEMU_MIGRATION_PHASE_CONFIRM3
  else QEMU_MIGRATION_PHASE_CONFIRM3_CANCELLED.

Definition extcall_is_JobFinish (c : extcall) : bool :=
  match c with C_qemuMigrationJobFinish => true | _ => false end.

(** ** Opening a save image *)

(** The header has been read in full. *)
Definition reads_header (e : event) : bool :=
  match ev_call e with
  | C_saferead O _ n =>
      (n =? Z.of_nat sizeof_header) && (ev_rc e =? Z.of_nat sizeof_header)
  | _ => false
  end.

Definition header_read (t : list event) : bool := existsb reads_header t.

Definition is_SaveImageStartVM (c : extcall) : bool :=
  match c with C_qemuDomainSaveImageStartVM _ _ => true | _ => false end.

Definition is_ProcessStart (c : extcall) : bool :=
  match c with C_qemuProcessStart _ => true | _ => false end.

(** How opening an image whose header carries the partial magic ends
    according to the specification: with the error "save image is
    incomplete", or, when [unlink_corrupt] is set, with the file removed
    and the value -3. *)
Definition partial_open_as_claimed (unlink_corrupt : bool)
           (r : save_image * world) (path : string) : Prop :=
  (img_fd (fst r) = -1
   /\ In (C_virReportError VIR_ERR_OPERATION_FAILED "save image is incomplete")
         (calls_of r))
  \/ (unlink_corrupt = true /\ img_fd (fst r) = -3
      /\ file_of r path = None).

(** The third way it can end: the file could not be closed or removed. *)
Definition partial_open_not_removed (unlink_corrupt : bool)
           (r : save_image * world) (path : string) (before : option file)
  : Prop :=
  unlink_corrupt = true /\ img_fd (fst r) = -1
  /\ In (C_virReportSystemError "cannot remove corrupt file: %s") (calls_of r)
  /\ ~ In (C_virReportError VIR_ERR_OPERATION_FAILED "save image is incomplete")
          (calls_of r)
  /\ file_of r path = before.

(** The path [qemuDomainManagedSavePath] computes. *)
Definition managed_save_path (driver : qemud_driver) (vm : virDomainObj)
  : string :=
  (saveDir driver ++ "/" ++ def_name vm ++ ".save")%string.

(** ** Sample values *)

Definition sample_job : qemuDomainJobObj :=
  mkJob QEMU_JOB_NONE QEMU_ASYNC_JOB_NONE QEMU_MIGRATION_PHASE_NONE 0 0 false
        jobinfo_zero.

Definition sample_vm : virDomainObj :=
  mkVm "guest" 7 VIR_DOMAIN_RUNNING true false
       (mkPriv sample_job false 0 false).

Definition sample_driver : qemud_driver := mkDriver "/save" true 107 107.

Definition no_files : filesystem := fun _ => None.

(** An environment in which every call succeeds: calls returning a status
    return 0, calls returning a pointer or a descriptor return 3, and
    writes take all they are given. *)
Definition env_success : environment :=
  mkEnv (fun c =>
           match c with
           | C_safewrite _ _ _ => 1000000
           | C_virFileOpenAs _ _ _ _ _ _ | C_open _ _ => 3
           | C_virFileWrapperFdNew _ _ => 3
           | C_virDomainFindByUUID => 3
           | C_virDomainDefParseString _ => 3
           | C_virDomainDefCheckABIStability => 1
           | C_qemuDomainDefFormatLive _ _ _ => 3
           | C_virDomainEventNewFromObj _ _ => 3
           | C_qemuDomainObjEndJob | C_qemuDomainObjEndAsyncJob
           | C_qemuMigrationJobFinish | C_qemuMigrationJobContinue => 1
           | C_qemuMigrationJobIsActive _ => 1
           | C_qemuMigrationBegin => 3
           | C_gettimeofday => 5000
           | _ => 0
           end)
        (fun _ => 5%positive)
        (fun c =>
           match c with
           | C_qemuMigrationToFile _ _ _ _ _ _ => [81; 69; 86; 77]
           | _ => bytes_of_string "<domain/>"
           end)
        (fun _ => EmptyString)
        (fun _ vm => vm).

(** [env_success] with the answer to one call replaced. *)
Definition env_with (test : extcall -> bool) (rc : Z) (env : environment)
  : environment :=
  mkEnv (fun c => if test c then rc else env_rc env c)
        (env_errno env) (env_data env) (env_path env) (env_vm env).

(** A managed-save file that was never completed. *)
Definition partial_image : file :=
  mkFile true
         (encode_header false
            (save_header_partial (bytes_of_string "<domain/>") 0 true)
          ++ bytes_of_string "<domain/>" ++ [0]).

Definition partial_image_fs : filesystem :=
  fs_set "/save/guest.save" (Some partial_image) no_files.

Definition is_unlink (c : extcall) : bool :=
  match c with C_unlink _ => true | _ => false end.

(** ** Runs of the file helpers, seen from outside *)

(** The world after further calls that touch neither the domain object nor
    the files. *)
Definition logs (evs : list event) (w : world) : world :=
  mkWorld (w_vm w) (w_fs w) (w_open w) (w_trace w ++ evs) (w_journal w).

(** Calls made by [qemuOpenFile]. *)
Definition opening_call (c : extcall) : bool :=
  match c with
  | C_virStorageFileIsSharedFS _ | C_getuid | C_getgid
  | C_open _ _ | C_virFileOpenAs _ _ _ _ _ _
  | C_virReportSystemError _ => true
  | _ => false
  end.

Definition opening (e : event) : Prop := opening_call (ev_call e) = true.

(** What [path] names once it has been opened with [oflags]. *)
Definition opened_file (oflags : Z) (before : option file) : file :=
  match before with
  | None => mkFile true []
  | Some f0 => if has_flag oflags O_TRUNC && f_reg f0 then mkFile true []
               else f0
  end.

(** The run has removed the file at [path]. *)
Definition removes (path : string) (e : event) : bool :=
  match ev_call e with
  | C_unlink p => String.eqb p path && (ev_rc e =? 0)
  | _ => false
  end.

Definition removed (path : string) (t : list event) : bool :=
  existsb (removes path) t.

(** Somewhere in the run the warning [msg] is followed at once by
    [qemuProcessStart]. *)
Fixpoint boots_after_warning (msg : string) (l : list extcall) : bool :=
  match l with
  | [] => false
  | c :: l' =>
      match c, l' with
      | C_VIR_WARN m, C_qemuProcessStart _ :: _ =>
          String.eqb m msg || boots_after_warning msg l'
      | _, _ => boots_after_warning msg l'
      end
  end.

(** The flags [qemuDomainObjStart] hands to [qemuProcessStart]. *)
Definition start_flags_of (flags : Z) : Z :=
  Z.lor (Z.lor VIR_QEMU_PROCESS_START_COLD
               (if has_flag flags VIR_DOMAIN_START_PAUSED
                then VIR_QEMU_PROCESS_START_PAUSED else 0))
        (if has_flag flags VIR_DOMAIN_START_AUTODESTROY
         then VIR_QEMU_PROCESS_START_AUTODESROY else 0).

(** ** Saving a domain *)

Definition is_BeginSave (c : extcall) : bool :=
  match c with
  | C_qemuDomainObjBeginAsyncJobWithDriver QEMU_ASYNC_JOB_SAVE => true
  | _ => false
  end.

Definition is_StopCPUs (c : extcall) : bool :=
  match c with C_qemuProcessStopCPUs _ _ => true | _ => false end.

Definition is_MigrationToFile (c : extcall) : bool :=
  match c with C_qemuMigrationToFile _ _ _ _ _ _ => true | _ => false end.

Definition is_EndAsyncJob (c : extcall) : bool :=
  match c with C_qemuDomainObjEndAsyncJob => true | _ => false end.

(** The save job was refused. *)
Definition save_job_refused (t : list event) : bool :=
  existsb (fun e => is_BeginSave (ev_call e) && (ev_rc e <? 0)) t.

(** What the specification asks of a save whose job was refused: failure
    is returned, the guest CPUs are left alone, nothing is sent to the
    monitor and no job is ended. *)
Definition refused_save_backs_out (s : Z * world) : bool :=
  (fst s <? 0)
  && negb (existsb is_StopCPUs (calls_of s))
  && negb (existsb is_MigrationToFile (calls_of s))
  && negb (existsb is_EndAsyncJob (calls_of s)).

(** The block size of [qemu_monitor.h] used in the examples. *)
Definition sample_bs : Z := 4096.

(** Every call succeeds except the admission of the save job. *)
Definition env_save_refused : environment :=
  env_with is_BeginSave (-1) env_success.

(** ** The save image while it is written *)

(** No file, or a file that starts with the partial magic. *)
Definition absent_or_partial (o : option file) : bool :=
  match o with
  | None => true
  | Some f => starts_with QEMUD_SAVE_PARTIAL (f_data f)
  end.

(** Where a save stands: the header is not in the file yet; the header is
    in the file and the memory image is not; the memory image is in the
    file; the header has been touched up. *)
Inductive save_phase :=
| save_opening
| save_streaming
| save_streamed
| save_completed.

(** One entry of the journal, checked against the order the specification
    gives: the first write is the header [hp], whole or in part; from the
    moment it is in the file until the header is touched up the file is
    absent or starts with the partial magic; the touch-up writes [hc] and
    comes only after [qemuMigrationToFile] has succeeded. *)
Definition save_step (hp hc : bytes) (ph : save_phase) (e : journal_entry)
  : option save_phase :=
  match ph with
  | save_completed => Some save_completed
  | save_opening =>
      match j_call e with
      | C_safewrite O _ buf =>
          if bytes_eqb buf hp then
            if j_rc e =? Z.of_nat sizeof_header then
              if absent_or_partial (j_file e) then Some save_streaming
              else None
            else Some save_opening
          else None
      | C_safewrite _ _ _ => None
      | C_qemuMigrationToFile _ _ _ _ _ _ => None
      | _ => Some save_opening
      end
  | save_streaming =>
      if absent_or_partial (j_file e) then
        match j_call e with
        | C_safewrite 2 _ _ => None
        | C_qemuMigrationToFile _ _ _ _ _ _ =>
            Some (if 0 <=? j_rc e then save_streamed else save_streaming)
        | _ => Some save_streaming
        end
      else None
  | save_streamed =>
      match j_call e with
      | C_safewrite 2 _ buf =>
          if bytes_eqb buf hc then Some save_completed else None
      | _ => if absent_or_partial (j_file e) then Some save_streamed else None
      end
  end.

Fixpoint save_run (hp hc : bytes) (ph : save_phase) (j : list journal_entry)
  : option save_phase :=
  match j with
  | [] => Some ph
  | e :: j' =>
      match save_step hp hc ph e with
      | Some ph' => save_run hp hc ph' j'
      | None => None
      end
  end.

Definition save_discipline (hp hc : bytes) (j : list journal_entry) : bool :=
  match save_run hp hc save_opening j with
  | Some _ => true
  | None => false
  end.

(** What the file holds at the end of a run, read off the journal. *)
Definition final_file (before : option file) (j : list journal_entry)
  : option file :=
  last (map j_file j) before.

(** The write that touches up the header. *)
Definition is_touch_up (c : extcall) : bool :=
  match c with C_safewrite 2 _ _ => true | _ => false end.

(** What the file held just before the header was touched up, and what it
    held just after. *)
Fixpoint completion_step (before : option file) (j : list journal_entry)
  : option (option file * option file) :=
  match j with
  | [] => None
  | e :: j' =>
      if is_touch_up (j_call e) then Some (before, j_file e)
      else completion_step (j_file e) j'
  end.

(** The header at the front of a file. *)
Definition header_of (be : bool) (f : file) : qemud_save_header :=
  decode_header be (firstn sizeof_header (f_data f)).

(** What follows the header: the XML text and the memory image. *)
Definition body_of (f : file) : bytes := skipn sizeof_header (f_data f).

(** ** The job mask during a snapshot *)

(** Calls made while the memory image is written to its file. *)
Definition saves_memory (c : extcall) : bool :=
  match c with
  | C_VIR_ALLOC_N _
  | C_virStorageFileIsSharedFS _ | C_getuid | C_getgid
  | C_open _ _ | C_virFileOpenAs _ _ _ _ _ _
  | C_virFileDirectFdFlag
  | C_virFileWrapperFdNew _ _
  | C_virFileWrapperFdClose
  | C_virFileWrapperFdCatchError
  | C_virFileWrapperFdFree
  | C_safewrite _ _ _
  | C_close _ _
  | C_unlink _
  | C_qemuMigrationToFile _ _ _ _ _ _ => true
  | _ => false
  end.

Definition is_report (c : extcall) : bool :=
  match c with
  | C_virReportError _ _ | C_virReportSystemError _ | C_virReportOOMError =>
      true
  | _ => false
  end.

(** Calls [qemuDomainSaveMemory] can make. *)
Definition saving_call (c : extcall) : bool := saves_memory c || is_report c.

Definition saving (e : event) : Prop := saving_call (ev_call e) = true.

Definition mask_is (m : Z) (cur : option Z) : bool :=
  match cur with Some x => x =? m | None => false end.

(** One call of a snapshot with a memory image, checked against the mask
    set so far ([cur]) and the call before it ([prev]): the first mask set
    is [wide]; the image is written under [wide]; the next mask is [dflt]
    and is set right after [qemuDomainSaveMemory] has made its last call;
    the disks are snapshotted right after that, under [dflt]. *)
Definition mask_step (wide dflt : Z) (st : option Z * option extcall)
           (c : extcall) : option (option Z * option extcall) :=
  let '(cur, prev) := st in
  match c with
  | C_qemuDomainObjSetAsyncJobMask m =>
      match cur with
      | None => if m =? wide then Some (Some m, Some c) else None
      | Some _ =>
          match prev with
          | Some C_virFileWrapperFdFree =>
              if m =? dflt then Some (Some m, Some c) else None
          | _ => None
          end
      end
  | C_qemuDomainSnapshotCreateDiskActive _ _ =>
      match prev with
      | Some (C_qemuDomainObjSetAsyncJobMask m) =>
          if (m =? dflt) && mask_is dflt cur then Some (cur, Some c) else None
      | _ => None
      end
  | _ =>
      if saves_memory c then
        if mask_is wide cur then Some (cur, Some c) else None
      else Some (cur, Some c)
  end.

Fixpoint mask_run (wide dflt : Z) (st : option Z * option extcall)
         (l : list extcall) : option (option Z * option extcall) :=
  match l with
  | [] => Some st
  | c :: l' =>
      match mask_step wide dflt st c with
      | Some st' => mask_run wide dflt st' l'
      | None => None
      end
  end.

Definition mask_discipline (wide dflt : Z) (l : list extcall) : bool :=
  match mask_run wide dflt (None, None) l with
  | Some _ => true
  | None => false
  end.

Definition is_SetAsyncJobMask (m : Z) (c : extcall) : bool :=
  match c with C_qemuDomainObjSetAsyncJobMask x => x =? m | _ => false end.

Definition is_SnapshotCreateDiskActive (c : extcall) : bool :=
  match c with C_qemuDomainSnapshotCreateDiskActive _ _ => true | _ => false end.

(** [JOB_MASK] and [DEFAULT_JOB_MASK] of [qemu_domain.h], for the
    examples. *)
Definition sample_JOB_MASK (j : qemuDomainJob) : Z :=
  match j with
  | QEMU_JOB_NONE => 0
  | QEMU_JOB_QUERY => 1
  | QEMU_JOB_DESTROY => 2
  | QEMU_JOB_SUSPEND => 4
  | QEMU_JOB_MODIFY => 8
  | QEMU_JOB_ABORT => 16
  | QEMU_JOB_MIGRATION_OP => 32
  end.

Definition sample_DEFAULT_JOB_MASK : Z := 19.

(** ** More sample values *)

(** A running domain in the middle of a save, inside the monitor. *)
Definition sample_busy_vm : virDomainObj :=
  mkVm "guest" 7 VIR_DOMAIN_RUNNING true false
       (mkPriv (mkJob QEMU_JOB_MODIFY QEMU_ASYNC_JOB_SAVE
                      QEMU_MIGRATION_PHASE_NONE 0 1000 false jobinfo_zero)
               false 2000 false).

(** A running domain without a persistent definition. *)
Definition sample_transient_vm : virDomainObj :=
  mkVm "guest" 7 VIR_DOMAIN_RUNNING false false
       (mkPriv sample_job false 0 false).

Definition is_EndJob (c : extcall) : bool :=
  match c with C_qemuDomainObjEndJob => true | _ => false end.

(** Every call succeeds and ending the job drops the last reference. *)
Definition env_last_reference : environment :=
  env_with is_EndJob 0 env_success.

(** ** Stepping through a run

    The larger functions are run one call at a time.  [wp m Q w] says that
    running [m] in the world [w] yields a result and a world that satisfy
    [Q]; the rules below say what each primitive step asks of [Q], and
    [mgo] applies them until the run is over, splitting on every test the
    run meets. *)

Definition wp {A : Type} (m : M A) (Q : A -> world -> Prop) (w : world)
  : Prop :=
  Q (fst (m w)) (snd (m w)).


(** * Callers and further observations *)

(** ** Requests that cannot be served *)

(** The error codes reported through [virReportError] in a run. *)
Definition reported_errors (l : list extcall) : list virErrorNumber :=
  flat_map (fun c => match c with
                     | C_virReportError code _ => [code]
                     | _ => []
                     end) l.


(** ** Holding the synchronous job *)

(** A synchronous job has been acquired. *)
Definition begins_job (e : event) : bool :=
  match ev_call e with
  | C_qemuDomainObjBeginJob _ | C_qemuDomainObjBeginJobWithDriver _ =>
      0 <=? ev_rc e
  | _ => false
  end.

(** Calls that start the emulator, talk to it or change its run state.
    [qemuProcessKill], which signals the process from outside and which
    [qemuDomainDestroyFlags] calls before it has a job, is not among them:
    it is followed by [kill_precedes_job] below. *)
Definition needs_job (c : extcall) : bool :=
  match c with
  | C_qemuProcessStopCPUs _ _ | C_qemuProcessStartCPUs _ _
  | C_qemuProcessStop _ | C_qemuProcessStart _
  | C_qemuDomainSaveImageStartVM _ _
  | C_qemuDomainObjEnterMonitor | C_qemuDomainObjExitMonitor
  | C_qemuMonitorMigrateCancel
  | C_qemuDomainCheckEjectableMedia _ | C_qemuMigrationBegin => true
  | _ => false
  end.

(** A job is acquired only when none is held, ended only when one is
    held, the emulator is touched only while one is held, and none is
    held when the run is over. *)
Fixpoint job_discipline (held : bool) (t : list event) : bool :=
  match t with
  | [] => negb held
  | e :: t' =>
      if begins_job e then negb held && job_discipline true t'
      else if is_EndJob (ev_call e) then held && job_discipline false t'
      else (if needs_job (ev_call e) then held else true)
           && job_discipline held t'
  end.


(** A running domain in the middle of an outgoing migration. *)
Definition sample_migrating_vm : virDomainObj :=
  mkVm "guest" 7 VIR_DOMAIN_RUNNING true false
       (mkPriv (mkJob QEMU_JOB_NONE QEMU_ASYNC_JOB_MIGRATION_OUT
                      QEMU_MIGRATION_PHASE_PERFORM3 0 1000 false jobinfo_zero)
               false 0 false).


(** ** Holding the asynchronous job *)

(** An asynchronous job has been acquired. *)
Definition begins_async (e : event) : bool :=
  match ev_call e with
  | C_qemuDomainObjBeginAsyncJobWithDriver _ => 0 <=? ev_rc e
  | _ => false
  end.

(** Calls of a snapshot that talk to the emulator or to the guest agent. *)
Definition uses_guest (c : extcall) : bool :=
  match c with
  | C_qemuProcessStopCPUs _ _ | C_qemuProcessStartCPUs _ _
  | C_qemuProcessStop _
  | C_qemuDomainSnapshotFSFreeze | C_qemuDomainSnapshotFSThaw _
  | C_qemuDomainSnapshotCreateDiskActive _ _
  | C_qemuMigrationToFile _ _ _ _ _ _
  | C_qemuDomainObjSetAsyncJobMask _ => true
  | _ => false
  end.

(** One call checked against whether the job is held: it is acquired only
    when not held, ended only when held, and the guest is touched only
    while it is held.  [None] is a violation. *)
Definition async_step (held : bool) (e : event) : option bool :=
  if begins_async e then (if held then None else Some true)
  else if is_EndAsyncJob (ev_call e) then (if held then Some false else None)
  else if uses_guest (ev_call e) then (if held then Some true else None)
  else Some held.

(** Whether the job is held at the end of a run. *)
Fixpoint async_run (held : bool) (t : list event) : option bool :=
  match t with
  | [] => Some held
  | e :: t' =>
      match async_step held e with
      | Some h => async_run h t'
      | None => None
      end
  end.

(** Resuming the CPUs has failed. *)
Definition resume_failed (t : list event) : bool :=
  existsb (fun e => match ev_call e with
                    | C_qemuProcessStartCPUs _ _ => ev_rc e <? 0
                    | _ => false
                    end) t.


(** ** Migration without change protection *)

(** Calls that belong to the migration job held across API calls. *)
Definition is_migration_job_call (c : extcall) : bool :=
  match c with
  | C_qemuMigrationJobStart _ | C_qemuMigrationJobStartPhase _
  | C_qemuMigrationJobContinue | C_qemuMigrationJobFinish
  | C_qemuDriverCloseCallbackSet | C_qemuDriverCloseCallbackUnset => true
  | _ => false
  end.

Definition is_RemoveInactive (c : extcall) : bool :=
  match c with C_qemuDomainRemoveInactive => true | _ => false end.

Definition is_DeleteConfig (c : extcall) : bool :=
  match c with C_virDomainDeleteConfig => true | _ => false end.

(** The domain object once [qemuDomainMigrateConfirm3] has confirmed the
    migration and finished the job. *)
Definition confirm3_vm (env : environment) (flags cancelled : Z)
           (vm : virDomainObj) : virDomainObj :=
  env_vm env C_qemuMigrationJobFinish
         (env_vm env (C_qemuMigrationConfirm flags cancelled) vm).

Definition is_ObjUnlock (c : extcall) : bool :=
  match c with C_virDomainObjUnlock => true | _ => false end.


(** ** Opening a file the way the driver does *)

(** [virFileOpenAs] run in a child process under another identity. *)
Definition is_fork_open (c : extcall) : bool :=
  match c with
  | C_virFileOpenAs _ _ _ _ _ vfoflags => has_flag vfoflags VIR_FILE_OPEN_FORK
  | _ => false
  end.

(** [virFileOpenAs] run in the daemon itself, refused for lack of
    permission. *)
Definition denied_in_process (e : event) : bool :=
  match ev_call e with
  | C_virFileOpenAs _ _ _ _ _ vfoflags =>
      has_flag vfoflags VIR_FILE_OPEN_NOFORK
      && ((ev_rc e =? - EACCES) || (ev_rc e =? - EPERM))
  | _ => false
  end.

Definition is_plain_open (c : extcall) : bool :=
  match c with C_open _ _ => true | _ => false end.

Definition is_ReportSystemError (c : extcall) : bool :=
  match c with C_virReportSystemError _ => true | _ => false end.

Definition is_IsSharedFS (c : extcall) : bool :=
  match c with C_virStorageFileIsSharedFS _ => true | _ => false end.

Definition is_nofork_open (c : extcall) : bool :=
  match c with
  | C_virFileOpenAs _ _ _ _ _ vfoflags =>
      has_flag vfoflags VIR_FILE_OPEN_NOFORK
  | _ => false
  end.

(** The file is on a shared file system that refuses the daemon and lets
    the configured user in. *)
Definition env_root_squash : environment :=
  env_with is_IsSharedFS 1
    (env_with is_nofork_open (- EACCES)
       (env_with is_fork_open 5 env_success)).


(** The header of a save image as [qemuDomainSaveImageOpen] takes it
    from the first octets of the file: a version above the current one
    is read as a header written in the other byte order. *)
Definition header_on_disk (big_endian : bool) (f : file)
  : qemud_save_header :=
  decode_header big_endian (firstn sizeof_header (f_data f)).

Definition header_as_read (big_endian : bool) (f : file)
  : qemud_save_header :=
  let h := header_on_disk big_endian f in
  if QEMUD_SAVE_VERSION <? version h then bswap_header h else h.

(** The domain XML that follows the header. *)
Definition xml_on_disk (big_endian : bool) (f : file) : bytes :=
  firstn (Z.to_nat (xml_len (header_as_read big_endian f)))
         (skipn sizeof_header (f_data f)).




(** The offsets at which [qemuMigrationToFile] was told to put the
    memory image. *)
Definition migration_offsets (l : list extcall) : list Z :=
  flat_map (fun c => match c with
                     | C_qemuMigrationToFile _ offset _ _ _ _ => [offset]
                     | _ => []
                     end) l.


(** A call that opens a file. *)
Definition opens_file (c : extcall) : bool :=
  match c with
  | C_open _ _ | C_virFileOpenAs _ _ _ _ _ _ => true
  | _ => false
  end.


(** ** Saving a domain and stopping it *)

Definition is_ProcessStop (c : extcall) : bool :=
  match c with C_qemuProcessStop _ => true | _ => false end.

Definition is_StartCPUs (c : extcall) : bool :=
  match c with C_qemuProcessStartCPUs _ _ => true | _ => false end.


(** ** Callers of the managed-save helpers *)

Section Callers.

Variable env : environment.
Variable big_endian : bool.
Variable QEMU_MONITOR_MIGRATE_TO_FILE_BS : Z.

(** *** [qemuDomainHasManagedSaveImage] and [qemuDomainManagedSaveRemove] *)

(** Label [cleanup] of the three functions. *)
Definition qemuDomainManagedSave_cleanup (ret_ : Z) (vm : virDomainObjPtr)
  : M Z :=
  unlock_if_set env vm ;;
  _ <- extern env C_qemuDriverUnlock ;;
  ret ret_.

Definition qemuDomainHasManagedSaveImage (flags : Z) : M Z :=
  if unsupported_flags flags 0 then
    virReportError VIR_ERR_INVALID_ARG
                   "unsupported flags (0x%lx) in function %s" ;;
    ret (-1)
  else
    _ <- extern env C_qemuDriverLock ;;
    f <- extern env C_virDomainFindByUUID ;;
    if f =? 0 then
      virReportError VIR_ERR_NO_DOMAIN "no domain with matching uuid '%s'" ;;
      qemuDomainManagedSave_cleanup (-1) vm_NULL
    else
      v <- get_vm ;;
      qemuDomainManagedSave_cleanup (if hasManagedSave v then 1 else 0)
                                    vm_obj.

Definition qemuDomainManagedSaveRemove (driver : qemud_driver) (flags : Z)
  : M Z :=
  if unsupported_flags flags 0 then
    virReportError VIR_ERR_INVALID_ARG
                   "unsupported flags (0x%lx) in function %s" ;;
    ret (-1)
  else
    _ <- extern env C_qemuDriverLock ;;
    f <- extern env C_virDomainFindByUUID ;;
    if f =? 0 then
      virReportError VIR_ERR_NO_DOMAIN "no domain with matching uuid '%s'" ;;
      qemuDomainManagedSave_cleanup (-1) vm_NULL
    else
      name <- qemuDomainManagedSavePath env driver ;;
      match name with
      | None => qemuDomainManagedSave_cleanup (-1) vm_obj
      | Some name =>
          u <- unlink env name ;;
          modify_vm (set_hasManagedSave false) ;;
          qemuDomainManagedSave_cleanup u vm_obj
      end.

(** *** [qemuDomainManagedSave] *)

(** The function keeps its own pointer [vm] while [qemuDomainSaveInternal]
    runs, uses it for [vm->hasManagedSave = true] when the save has
    returned 0, and only then sets it to [NULL]: label [cleanup] is always
    reached without a reference from there. *)
Definition qemuDomainManagedSave (driver : qemud_driver) (flags : Z) : M Z :=
  if unsupported_flags flags
       (Z.lor (Z.lor VIR_DOMAIN_SAVE_BYPASS_CACHE VIR_DOMAIN_SAVE_RUNNING)
              VIR_DOMAIN_SAVE_PAUSED)
  then
    virReportError VIR_ERR_INVALID_ARG
                   "unsupported flags (0x%lx) in function %s" ;;
    ret (-1)
  else
    _ <- extern env C_qemuDriverLock ;;
    f <- extern env C_virDomainFindByUUID ;;
    if f =? 0 then
      virReportError VIR_ERR_NO_DOMAIN "no domain with matching uuid '%s'" ;;
      qemuDomainManagedSave_cleanup (-1) vm_NULL
    else
      v <- get_vm ;;
      if negb (virDomainObjIsActive v) then
        virReportError VIR_ERR_OPERATION_INVALID "domain is not running" ;;
        qemuDomainManagedSave_cleanup (-1) vm_obj
      else if negb (persistent v) then
        virReportError VIR_ERR_OPERATION_INVALID
                       "cannot do managed save for transient domain" ;;
        qemuDomainManagedSave_cleanup (-1) vm_obj
      else
        name <- qemuDomainManagedSavePath env driver ;;
        match name with
        | None => qemuDomainManagedSave_cleanup (-1) vm_obj
        | Some name =>
            VIR_INFO "Saving state to %s" ;;
            r <- qemuDomainSaveInternal env big_endian
                   QEMU_MONITOR_MIGRATE_TO_FILE_BS driver name
                   QEMUD_SAVE_FORMAT_RAW None flags ;;
            (if r =? 0 then modify_vm (set_hasManagedSave true)
             else ret tt) ;;
            qemuDomainManagedSave_cleanup r vm_NULL
        end.

(** *** [qemuDomainStartWithFlags] *)

(** Label [endjob]. *)
Definition qemuDomainStartWithFlags_endjob (ret_ : Z) : M Z :=
  e <- extern_vm env C_qemuDomainObjEndJob ;;
  qemuDomainManagedSave_cleanup ret_ (if e =? 0 then vm_NULL else vm_obj).

Definition qemuDomainStartWithFlags (driver : qemud_driver) (flags : Z)
  : M Z :=
  if unsupported_flags flags
       (Z.lor (Z.lor (Z.lor VIR_DOMAIN_START_PAUSED
                            VIR_DOMAIN_START_AUTODESTROY)
                     VIR_DOMAIN_START_BYPASS_CACHE)
              VIR_DOMAIN_START_FORCE_BOOT)
  then
    virReportError VIR_ERR_INVALID_ARG
                   "unsupported flags (0x%lx) in function %s" ;;
    ret (-1)
  else
    _ <- extern env C_qemuDriverLock ;;
    f <- extern env C_virDomainFindByUUID ;;
    if f =? 0 then
      virReportError VIR_ERR_NO_DOMAIN "no domain with matching uuid '%s'" ;;
      qemuDomainManagedSave_cleanup (-1) vm_NULL
    else
      b <- extern_vm env (C_qemuDomainObjBeginJobWithDriver QEMU_JOB_MODIFY) ;;
      if b <? 0 then qemuDomainManagedSave_cleanup (-1) vm_obj
      else
        v <- get_vm ;;
        if virDomainObjIsActive v then
          virReportError VIR_ERR_OPERATION_INVALID
                         "domain is already running" ;;
          qemuDomainStartWithFlags_endjob (-1)
        else
          r <- qemuDomainObjStart env big_endian driver flags ;;
          if r <? 0 then qemuDomainStartWithFlags_endjob (-1)
          else qemuDomainStartWithFlags_endjob 0.

End Callers.


(** Calls [qemuDomainObjStart] can make. *)
Definition starting_call (c : extcall) : bool :=
  match c with
  | C_virAsprintf | C_virFileDirectFdFlag
  | C_virStorageFileIsSharedFS _ | C_getuid | C_getgid
  | C_open _ _ | C_virFileOpenAs _ _ _ _ _ _
  | C_virFileWrapperFdNew _ _ | C_virFileWrapperFdClose
  | C_virFileWrapperFdFree
  | C_saferead _ _ _ | C_VIR_ALLOC_N _ | C_close _ _ | C_unlink _
  | C_virDomainDefParseString _ | C_virDomainDefCheckABIStability
  | C_virDomainDefFree | C_def_identity_differs | C_virDomainObjAssignDef
  | C_qemuDomainSaveImageStartVM _ _ | C_qemuProcessStart _
  | C_virDomainAuditStart _ _
  | C_virDomainEventNewFromObj _ _ | C_qemuDomainEventQueue _ _
  | C_virReportError _ _ | C_virReportSystemError _ | C_virReportOOMError
  | C_VIR_WARN _ => true
  | _ => false
  end.

Definition starting (e : event) : Prop := starting_call (ev_call e) = true.

(** ** A save that is cut short *)

(** What the open for writing leaves in the file before anything is
    written: nothing, for a file that it makes and for a regular file,
    which [O_TRUNC] empties; what was there, for any other file. *)
Definition found_at_open (before : option file) : bytes :=
  match before with
  | None => []
  | Some f => if f_reg f then [] else f_data f
  end.

(** The file holds a beginning of the header [hp], shorter than [hp], over
    what the open left in it. *)
Definition beginning_of_header (hp d0 data : bytes) : bool :=
  existsb (fun k => bytes_eqb data (firstn k hp ++ skipn k d0))
          (seq 0 (List.length hp)).

Definition file_eqb (f g : file) : bool :=
  Bool.eqb (f_reg f) (f_reg g) && bytes_eqb (f_data f) (f_data g).

(** The image while it is written: no file; a file that starts with the
    partial magic; a file in which the header has only begun; or the file
    that was there before the save, as it was. *)
Definition image_in_progress (hp : bytes) (before o : option file) : bool :=
  match o with
  | None => true
  | Some f =>
      starts_with QEMUD_SAVE_PARTIAL (f_data f)
      || beginning_of_header hp (found_at_open before) (f_data f)
      || match before with
         | Some f0 => file_eqb f f0
         | None => false
         end
  end.

(** Every state the file goes through before the header is touched up is
    one of those. *)
Fixpoint interrupted_in_progress (hp : bytes) (before : option file)
         (j : list journal_entry) : bool :=
  match j with
  | [] => true
  | e :: j' =>
      if is_touch_up (j_call e) then true
      else image_in_progress hp before (j_file e)
           && interrupted_in_progress hp before j'
  end.

Definition is_WrapperFdNew (c : extcall) : bool :=
  match c with C_virFileWrapperFdNew _ _ => true | _ => false end.

(** The wrapper for the descriptor cannot be set up and the file cannot
    be removed; every other call succeeds. *)
Definition env_save_cut_short : environment :=
  env_with is_unlink (-1) (env_with is_WrapperFdNew 0 env_success).

(** ** The job mask after the memory image *)





(** ** A managed save that drops the last reference *)

(** [qemuDomainObjEndAsyncJob] drops the last reference to the domain
    object and returns 0; every other call succeeds. *)
Definition env_last_async_reference : environment :=
  env_with is_EndAsyncJob 0 env_success.

(** [qemuDomainManagedSave] up to its call of [qemuDomainSaveInternal], for
    a domain that is found, active and persistent: the value is the name of
    the file. *)
Definition managed_save_prologue (env : environment) (driver : qemud_driver)
  : M (option string) :=
  _ <- extern env C_qemuDriverLock ;;
  _ <- extern env C_virDomainFindByUUID ;;
  name <- qemuDomainManagedSavePath env driver ;;
  VIR_INFO "Saving state to %s" ;;
  ret name.

(** ** Killing the emulator before the job *)

Definition is_ProcessKill (c : extcall) : bool :=
  match c with C_qemuProcessKill _ => true | _ => false end.

(** A synchronous job is asked for, whether or not it is granted. *)
Definition asks_for_job (c : extcall) : bool :=
  match c with
  | C_qemuDomainObjBeginJob _ | C_qemuDomainObjBeginJobWithDriver _ => true
  | _ => false
  end.

(** [qemuProcessKill] is called at most once, and only before the job is
    asked for: [asked] says whether the job has been asked for, [killed]
    whether the process has been signalled. *)
Fixpoint kill_precedes_job (asked killed : bool) (t : list event) : bool :=
  match t with
  | [] => true
  | e :: t' =>
      if is_ProcessKill (ev_call e)
      then negb asked && negb killed && kill_precedes_job asked true t'
      else kill_precedes_job (asked || asks_for_job (ev_call e)) killed t'
  end.

(** The job is asked for only once the process has been signalled. *)
Fixpoint job_follows_kill (killed : bool) (t : list event) : bool :=
  match t with
  | [] => true
  | e :: t' =>
      (if asks_for_job (ev_call e) then killed else true)
      && job_follows_kill (killed || is_ProcessKill (ev_call e)) t'
  end.

(** * Properties *)

(** ** Symbolic execution of the model *)

Ltac munfold :=
  unfold bind, ret, extern, extern_vm, get_vm, modify_vm, unlock_if_set,
    queue_if_set, virReportError, virReportSystemError, virReportOOMError,
    VIR_WARN, VIR_DEBUG, virTimeMillisNow, virDomainEventNewFromObj,
    trace_of, calls_of, journal_of, file_of in *.

(** Split on the test the run is stuck on. *)
Ltac mcase :=
  match goal with
  | |- context [if ?b then _ else _] =>
      lazymatch b with
      | context [if _ then _ else _] => fail
      | true => fail
      | false => fail
      | _ => let E := fresh "E" in destruct b eqn:E
      end
  end.

Ltac zbool :=
  repeat match goal with
         | H : (_ =? _) = true |- _ => apply Z.eqb_eq in H
         | H : (_ =? _) = false |- _ => apply Z.eqb_neq in H
         | H : (_ <? _) = true |- _ => apply Z.ltb_lt in H
         | H : (_ <? _) = false |- _ => apply Z.ltb_ge in H
         | H : (_ <=? _) = true |- _ => apply Z.leb_le in H
         | H : (_ <=? _) = false |- _ => apply Z.leb_gt in H
         end.

(** ** Unsigned subtraction *)

Lemma u64_small z : 0 <= z < 2 ^ 64 -> u64 z = z.
Proof. intros H. unfold u64. apply Z.mod_small. exact H. Qed.

Lemma u64_range z : 0 <= u64 z < 2 ^ 64.
Proof. unfold u64. apply Z.mod_pos_bound. reflexivity. Qed.

Lemma sub64_exact now t : 0 <= t <= now -> now < 2 ^ 64 -> sub64 now t = now - t.
Proof. intros H1 H2. unfold sub64. apply u64_small. lia. Qed.

(** ** Job information (claim C8) *)

(** C8.  For a domain that is running, [qemuDomainGetJobInfo] hands back
    the stored job information with [timeElapsed] set to the clock minus
    [job.start] (the subtraction of [unsigned long long], which is the
    plain difference when the job started no later than now) when an async
    job is active and it is not a memory-only dump, and a zeroed structure
    of type [VIR_DOMAIN_JOB_NONE] when there is no async job or it is a
    memory-only dump; for a domain that is not running it reports
    "domain is not running" and fails.  The clock is taken to be
    readable. *)
Theorem qemuDomainGetJobInfo_reports
        (env : environment) (vm : virDomainObj) (fs : filesystem)
        (info0 : virDomainJobInfo) :
  env_rc env C_virDomainFindByUUID <> 0 ->
  0 <= env_rc env C_virTimeMillisNow ->
  let j := job (privateData vm) in
  let now := u64 (env_rc env C_gettimeofday) in
  let r := qemuDomainGetJobInfo env info0 (init_world vm fs) in
  (virDomainObjIsActive vm = true ->
   asyncJob j <> QEMU_ASYNC_JOB_NONE -> dump_memory_only j = false ->
   fst r = (0, set_timeElapsed (sub64 now (start j)) (info j))
   /\ (0 <= start j <= now -> timeElapsed (snd (fst r)) = now - start j))
  /\ (virDomainObjIsActive vm = true ->
      asyncJob j = QEMU_ASYNC_JOB_NONE \/ dump_memory_only j = true ->
      fst r = (0, jobinfo_zero)
      /\ ji_type (snd (fst r)) = VIR_DOMAIN_JOB_NONE)
  /\ (virDomainObjIsActive vm = false ->
      fst (fst r) = -1
      /\ calls_of r =
         [C_qemuDriverLock; C_virDomainFindByUUID; C_qemuDriverUnlock;
          C_virReportError VIR_ERR_OPERATION_INVALID "domain is not running";
          C_virDomainObjUnlock]).
Proof.
  intros Hfound Hclock j now r.
  assert (Ef : (env_rc env C_virDomainFindByUUID =? 0) = false)
    by (apply Z.eqb_neq; exact Hfound).
  assert (Ec : (env_rc env C_virTimeMillisNow <? 0) = false)
    by (apply Z.ltb_ge; exact Hclock).
  subst r. unfold qemuDomainGetJobInfo. munfold. cbn. rewrite Ef. cbn.
  fold j.
  repeat match goal with |- _ /\ _ => split end; intros;
    repeat match goal with
           | H : virDomainObjIsActive vm = _ |- _ => rewrite H; clear H
           | H : dump_memory_only j = _ |- _ => rewrite H; clear H
           | H : asyncJob j = _ |- _ => rewrite H; clear H
           | H : _ \/ _ |- _ => destruct H
           end; cbn; repeat rewrite andb_false_r; cbn;
    try (destruct (asyncJob j); try congruence; cbn);
    try rewrite Ec; cbn; try reflexivity;
    try (split; [reflexivity | intros; cbn]);
    try (split; reflexivity);
    apply sub64_exact; try lia; apply u64_range.
Qed.

(** ** Control information (claim C9) *)

(** C9.  For a domain that is running, [qemuDomainGetControlInfo] reports
    [VIR_DOMAIN_CONTROL_ERROR] when a monitor error is recorded;
    otherwise, with a job active, [VIR_DOMAIN_CONTROL_OCCUPIED] and the
    clock minus [monStart] when the monitor has been entered
    ([monStart] is not 0), and [VIR_DOMAIN_CONTROL_JOB] and the clock
    minus [job.start] when it has not; and [VIR_DOMAIN_CONTROL_OK] when no
    job is active.  The differences are those of [unsigned long long],
    the plain difference when the timestamp is not in the future.  The
    clock is taken to be readable. *)
Theorem qemuDomainGetControlInfo_reports
        (env : environment) (vm : virDomainObj) (fs : filesystem)
        (info0 : virDomainControlInfo) :
  env_rc env C_virDomainFindByUUID <> 0 ->
  virDomainObjIsActive vm = true ->
  0 <= env_rc env C_virTimeMillisNow ->
  let priv := privateData vm in
  let now := u64 (env_rc env C_gettimeofday) in
  let r := qemuDomainGetControlInfo env info0 0 (init_world vm fs) in
  (monError priv = true ->
   fst r = (0, mkControlInfo VIR_DOMAIN_CONTROL_ERROR 0 0))
  /\ (monError priv = false -> active (job priv) <> QEMU_JOB_NONE ->
      monStart priv <> 0 ->
      fst r = (0, mkControlInfo VIR_DOMAIN_CONTROL_OCCUPIED 0
                                (sub64 now (monStart priv)))
      /\ (0 <= monStart priv <= now ->
          ci_stateTime (snd (fst r)) = now - monStart priv))
  /\ (monError priv = false -> active (job priv) <> QEMU_JOB_NONE ->
      monStart priv = 0 ->
      fst r = (0, mkControlInfo VIR_DOMAIN_CONTROL_JOB 0
                                (sub64 now (start (job priv))))
      /\ (0 <= start (job priv) <= now ->
          ci_stateTime (snd (fst r)) = now - start (job priv)))
  /\ (monError priv = false -> active (job priv) = QEMU_JOB_NONE ->
      fst r = (0, mkControlInfo VIR_DOMAIN_CONTROL_OK 0 0)).
Proof.
  intros Hfound Hact Hclock priv now r.
  assert (Ef : (env_rc env C_virDomainFindByUUID =? 0) = false)
    by (apply Z.eqb_neq; exact Hfound).
  assert (Ec : (env_rc env C_virTimeMillisNow <? 0) = false)
    by (apply Z.ltb_ge; exact Hclock).
  subst r. unfold qemuDomainGetControlInfo. munfold. cbn.
  rewrite Ef. cbn. rewrite Hact. cbn. fold priv.
  repeat match goal with |- _ /\ _ => split end; intros;
    repeat match goal with
           | H : monError priv = _ |- _ => rewrite H; clear H
           | H : monStart priv = 0 |- _ => rewrite H; clear H
           | H : active (job priv) = _ |- _ => rewrite H; clear H
           end; cbn;
    try (destruct (active (job priv)); try congruence; cbn);
    try (destruct (monStart priv =? 0) eqn:E; [apply Z.eqb_eq in E; lia |]);
    cbn; try rewrite Ec; cbn; try reflexivity;
    try (split; [reflexivity | intros; cbn]);
    apply sub64_exact; try lia; apply u64_range.
Qed.

(** ** Aborting a job (claim C6) *)

(** C6.  Once [qemuDomainAbortJob] holds the [QEMU_JOB_ABORT] job it fails
    with [VIR_ERR_OPERATION_INVALID] when the domain is not running, when
    no async job is active, when the async job is a memory-only dump, and
    when the async job is an incoming migration; in every other case it
    requests the abort of the async job, enters the monitor, issues
    migrate-cancel, leaves the monitor and returns what migrate-cancel
    returned.  In each case these are all the calls it makes: nothing
    interrupts the async job by force. *)
Theorem qemuDomainAbortJob_cases
        (env : environment) (vm : virDomainObj) (fs : filesystem) :
  env_rc env C_virDomainFindByUUID <> 0 ->
  0 <= env_rc env (C_qemuDomainObjBeginJob QEMU_JOB_ABORT) ->
  let v := abort_vm env vm in
  let j := job (privateData v) in
  let r := qemuDomainAbortJob env (init_world vm fs) in
  let failing msg :=
    fst r = -1
    /\ calls_of r =
       abort_prologue ++ [C_virReportError VIR_ERR_OPERATION_INVALID msg]
                      ++ abort_epilogue env in
  (virDomainObjIsActive v = false -> failing "domain is not running")
  /\ (virDomainObjIsActive v = true ->
      asyncJob j = QEMU_ASYNC_JOB_NONE \/ dump_memory_only j = true ->
      failing "no job is active on the domain")
  /\ (virDomainObjIsActive v = true -> dump_memory_only j = false ->
      asyncJob j = QEMU_ASYNC_JOB_MIGRATION_IN ->
      failing "cannot abort incoming migration; use virDomainDestroy instead")
  /\ (virDomainObjIsActive v = true -> dump_memory_only j = false ->
      asyncJob j <> QEMU_ASYNC_JOB_NONE ->
      asyncJob j <> QEMU_ASYNC_JOB_MIGRATION_IN ->
      fst r = env_rc env C_qemuMonitorMigrateCancel
      /\ calls_of r =
         abort_prologue
           ++ [C_VIR_DEBUG "Cancelling job at client request";
               C_qemuDomainObjAbortAsyncJob; C_qemuDomainObjEnterMonitor;
               C_qemuMonitorMigrateCancel; C_qemuDomainObjExitMonitor]
           ++ abort_epilogue env).
Proof.
  intros Hfound Hjob v j r failing.
  assert (Ef : (env_rc env C_virDomainFindByUUID =? 0) = false)
    by (apply Z.eqb_neq; exact Hfound).
  assert (Eb : (env_rc env (C_qemuDomainObjBeginJob QEMU_JOB_ABORT) <? 0)
               = false) by (apply Z.ltb_ge; exact Hjob).
  subst failing r. unfold qemuDomainAbortJob, qemuDomainAbortJob_endjob,
    qemuDomainAbortJob_cleanup, abort_epilogue, abort_prologue.
  munfold. cbn. rewrite Ef. cbn. rewrite Eb. cbn.
  fold (abort_vm env vm). fold v. fold j.
  repeat match goal with |- _ /\ _ => split end; intros;
    repeat match goal with
           | H : _ \/ _ |- _ => destruct H
           end;
    repeat match goal with
           | H : virDomainObjIsActive _ = _ |- _ => rewrite H; clear H
           | H : dump_memory_only _ = _ |- _ => rewrite H; clear H
           | H : asyncJob _ = _ |- _ => rewrite H; clear H
           end; cbn;
    repeat rewrite orb_true_r; cbn;
    try (destruct (asyncJob j); try congruence; cbn);
    destruct (env_rc env C_qemuDomainObjEndJob =? 0); cbn; split; reflexivity.
Qed.

(** ** The reference to the domain after a job is ended *)

Ltac mrun := repeat (cbn; mcase).

Ltac mdone := first [reflexivity | discriminate | exfalso; zbool; lia].

(** X17.  In [qemudDomainSuspend], [qemuDomainDestroyFlags] and
    [qemuDomainAbortJob], whenever [qemuDomainObjEndJob] returns 0 the
    label that called it goes on with the reference [vm] set to [NULL],
    and no later call of the run is handed the domain object; and where
    [qemuDomainDestroyFlags] has stopped a domain that is not persistent,
    a positive result of [qemuDomainObjEndJob] is followed at once by
    [qemuDomainRemoveInactive]. *)
Theorem reference_dropped_after_end_job
        (env : environment) (vm : virDomainObj) (fs : filesystem)
        (flags : Z) :
  let w0 := init_world vm fs in
  let ended w := snd (extern_vm env C_qemuDomainObjEndJob w) in
  (* the reference the labels carry on with *)
  (env_rc env C_qemuDomainObjEndJob = 0 ->
   forall ret_ event w,
     qemudDomainSuspend_endjob env ret_ vm_obj event w
     = qemudDomainSuspend_cleanup env ret_ vm_NULL event (ended w)
     /\ qemuDomainDestroyFlags_endjob env ret_ vm_obj event w
        = qemuDomainDestroyFlags_cleanup env ret_ vm_NULL event (ended w)
     /\ qemuDomainAbortJob_endjob env ret_ vm_obj w
        = qemuDomainAbortJob_cleanup env ret_ vm_NULL (ended w))
  (* no use of the object after a result of 0 *)
  /\ released_untouched (trace_of (qemudDomainSuspend env w0)) = true
  /\ released_untouched (trace_of (qemuDomainDestroyFlags env flags w0)) = true
  /\ released_untouched (trace_of (qemuDomainAbortJob env w0)) = true
  (* removal of a transient domain that has been stopped *)
  /\ (In (C_qemuProcessStop VIR_DOMAIN_SHUTOFF_DESTROYED)
         (calls_of (qemuDomainDestroyFlags env flags w0)) ->
      persistent (destroy_stopped_vm env flags vm) = false ->
      removed_when_kept (trace_of (qemuDomainDestroyFlags env flags w0))
      = true).
Proof.
  intros w0 ended.
  split; [| split; [| split; [| split]]].
  - intros H0 ret_ event w. subst ended.
    unfold qemudDomainSuspend_endjob, qemuDomainDestroyFlags_endjob,
      qemuDomainAbortJob_endjob. munfold. cbn. rewrite H0. cbn.
    repeat split.
  - subst w0. unfold qemudDomainSuspend, qemudDomainSuspend_endjob,
      qemudDomainSuspend_cleanup. munfold. mrun; mdone.
  - subst w0. unfold qemuDomainDestroyFlags, qemuDomainDestroyFlags_endjob,
      qemuDomainDestroyFlags_cleanup, set_vm_beingDestroyed. munfold.
    mrun; mdone.
  - subst w0. unfold qemuDomainAbortJob, qemuDomainAbortJob_endjob,
      qemuDomainAbortJob_cleanup. munfold. mrun; mdone.
  - subst w0. unfold destroy_stopped_vm.
    unfold qemuDomainDestroyFlags, qemuDomainDestroyFlags_endjob,
      qemuDomainDestroyFlags_cleanup, set_vm_beingDestroyed. munfold.
    mrun; cbn; intros Hin Hp;
      try mdone;
      try (rewrite Hp in *; discriminate);
      try (exfalso; cbn in Hin;
           repeat (destruct Hin as [Hin | Hin]; [discriminate |]);
           exact Hin).
Qed.

(** A domain that is not persistent and is found inactive is not stopped
    by [qemuDomainDestroyFlags], and is not removed either: the job is
    ended with a positive result and the object is only unlocked. *)
Example destroy_keeps_inactive_transient :
  let vm := mkVm "guest" (-1) VIR_DOMAIN_SHUTOFF false false
                 (mkPriv sample_job false 0 false) in
  let r := qemuDomainDestroyFlags env_success 0 (init_world vm no_files) in
  persistent vm = false
  /\ virDomainObjIsActive vm = false
  /\ fst r = -1
  /\ In (Ev C_qemuDomainObjEndJob 1) (trace_of r)
  /\ existsb is_ProcessStop (calls_of r) = false
  /\ existsb is_RemoveInactive (calls_of r) = false
  /\ removed_when_kept (trace_of r) = false.
Proof.
  vm_compute. repeat split; try reflexivity.
  repeat first [left; reflexivity | right].
Qed.

(** ** The reference to the domain after a managed save (claim C4) *)

(** C4.  [qemuDomainManagedSave] uses the domain object after the job has
    been ended with result 0.  On a running, persistent domain, when
    [qemuDomainObjEndAsyncJob] returns 0 inside [qemuDomainSaveInternal]
    and every other call succeeds: [qemuDomainSaveInternal] returns 0,
    having itself handed the object to no call after the job was ended and
    having left [hasManagedSave] unset; [qemuDomainManagedSave] then makes
    no call but [qemuDriverUnlock] and returns 0, and the domain object has
    [hasManagedSave] set: the caller's own pointer [vm], which the zero
    result did not clear, was written through after the reference was
    gone. *)
Theorem managed_save_writes_after_release :
  let env := env_last_async_reference in
  let w0 := init_world sample_vm no_files in
  let s := qemuDomainManagedSave env false sample_bs sample_driver 0 w0 in
  let p := managed_save_prologue env sample_driver w0 in
  let s1 := qemuDomainSaveInternal env false sample_bs sample_driver
              "/save/guest.save" QEMUD_SAVE_FORMAT_RAW None 0 (snd p) in
  (virDomainObjIsActive sample_vm = true
   /\ persistent sample_vm = true
   /\ hasManagedSave sample_vm = false)
  /\ fst p = Some "/save/guest.save"
  /\ (fst s1 = 0
      /\ In (Ev C_qemuDomainObjEndAsyncJob 0) (trace_of s1)
      /\ released_untouched (trace_of s1) = true
      /\ hasManagedSave (w_vm (snd s1)) = false)
  /\ (fst s = 0
      /\ trace_of s = trace_of s1 ++ [Ev C_qemuDriverUnlock 0]
      /\ w_vm (snd s) = set_hasManagedSave true (w_vm (snd s1))
      /\ hasManagedSave (w_vm (snd s)) = true).
Proof.
  cbv zeta. split; [repeat split |]. split; [vm_compute; reflexivity |].
  split.
  - split; [vm_compute; reflexivity |].
    split; [| split; vm_compute; reflexivity].
    vm_compute.
    repeat first [left; reflexivity | right].
  - split; [vm_compute; reflexivity |].
    split; [vm_compute; reflexivity |].
    split; vm_compute; reflexivity.
Qed.

(** ** Migration with change protection (claim C7) *)

(** C7.  With [VIR_MIGRATE_CHANGE_PROTECTION], [qemuDomainMigrateBegin3]
    starts the [QEMU_ASYNC_JOB_MIGRATION_OUT] job first; when every later
    step succeeds it registers the close callback and hands the job over
    with [qemuMigrationJobContinue], without finishing it; it finishes
    the job itself exactly when one of those steps fails.
    [qemuDomainMigrateConfirm3] does nothing unless the migration-out job
    is active; when it is, it enters phase [CONFIRM3_CANCELLED] for a
    cancelled migration and [CONFIRM3] otherwise, unregisters the close
    callback, confirms, and finishes the job before it returns. *)
Theorem migration_job_held_from_begin_to_confirm
        (env : environment) (vm : virDomainObj) (fs : filesystem)
        (QEMU_MIGRATION_FLAGS flags cancelled : Z) :
  unsupported_flags flags QEMU_MIGRATION_FLAGS = false ->
  has_flag flags VIR_MIGRATE_CHANGE_PROTECTION = true ->
  env_rc env C_virDomainFindByUUID <> 0 ->
  let w0 := init_world vm fs in
  let b := qemuDomainMigrateBegin3 env QEMU_MIGRATION_FLAGS flags w0 in
  let c := qemuDomainMigrateConfirm3 env QEMU_MIGRATION_FLAGS flags
                                     cancelled w0 in
  (* Begin3 *)
  (exists rest, calls_of b = begin3_prologue ++ rest)
  /\ (env_rc env (C_qemuMigrationJobStart QEMU_ASYNC_JOB_MIGRATION_OUT) < 0 ->
      fst b = None
      /\ calls_of b = begin3_prologue
                        ++ [C_virDomainObjUnlock; C_qemuDriverUnlock])
  /\ (0 <= env_rc env (C_qemuMigrationJobStart QEMU_ASYNC_JOB_MIGRATION_OUT) ->
      (begin3_steps_ok env vm = true ->
       calls_of b =
       begin3_prologue
         ++ [C_qemuDomainCheckEjectableMedia QEMU_ASYNC_JOB_MIGRATION_OUT;
             C_qemuMigrationBegin; C_qemuDriverCloseCallbackSet;
             C_qemuMigrationJobContinue]
         ++ (if env_rc env C_qemuMigrationJobContinue =? 0
             then [C_virReportError VIR_ERR_OPERATION_FAILED
                                    "domain disappeared"]
             else [C_virDomainObjUnlock])
         ++ [C_qemuDriverUnlock]
       /\ (env_rc env C_qemuMigrationJobContinue <> 0 ->
           fst b = Some (env_data env C_qemuMigrationBegin)))
      /\ (existsb extcall_is_JobFinish (calls_of b)
          = negb (begin3_steps_ok env vm)))
  (* Confirm3 *)
  /\ (env_rc env (C_qemuMigrationJobIsActive QEMU_ASYNC_JOB_MIGRATION_OUT) = 0 ->
      fst c = -1
      /\ calls_of c =
         [C_qemuDriverLock; C_virDomainFindByUUID;
          C_qemuMigrationJobIsActive QEMU_ASYNC_JOB_MIGRATION_OUT;
          C_virDomainObjUnlock; C_qemuDriverUnlock])
  /\ (env_rc env (C_qemuMigrationJobIsActive QEMU_ASYNC_JOB_MIGRATION_OUT)
      <> 0 ->
      fst c = env_rc env (C_qemuMigrationConfirm flags cancelled)
      /\ exists rest,
          calls_of c =
          [C_qemuDriverLock; C_virDomainFindByUUID;
           C_qemuMigrationJobIsActive QEMU_ASYNC_JOB_MIGRATION_OUT;
           C_qemuMigrationJobStartPhase (confirm3_phase cancelled);
           C_qemuDriverCloseCallbackUnset;
           C_qemuMigrationConfirm flags cancelled;
           C_qemuMigrationJobFinish] ++ rest
          /\ existsb extcall_is_JobFinish rest = false).
Proof.
  intros Hflags Hcp Hfound w0 b c.
  assert (Ef : (env_rc env C_virDomainFindByUUID =? 0) = false)
    by (apply Z.eqb_neq; exact Hfound).
  subst b c w0.
  unfold qemuDomainMigrateBegin3, qemuDomainMigrateBegin3_endjob,
    qemuDomainMigrateBegin3_cleanup, qemuDomainMigrateConfirm3,
    qemuDomainMigrateConfirm3_cleanup, begin3_steps_ok, begin3_vm,
    begin3_prologue, confirm3_phase.
  rewrite Hflags, Hcp. munfold. cbn. rewrite Ef. cbn.
  split; [| split; [| split; [| split]]].
  - mrun; eexists; reflexivity.
  - intros Hneg. apply Z.ltb_lt in Hneg. rewrite Hneg. cbn.
    split; reflexivity.
  - intros Hpos. apply Z.ltb_ge in Hpos. rewrite Hpos. cbn. split.
    + intros Hok.
      apply andb_prop in Hok. destruct Hok as [Hok Hset].
      apply andb_prop in Hok. destruct Hok as [Hok Hbegin].
      apply andb_prop in Hok. destruct Hok as [Hact Hmedia].
      rewrite Hact. cbn.
      apply Z.leb_le in Hmedia. apply Z.ltb_ge in Hmedia.
      rewrite Hmedia. cbn.
      apply negb_true_iff in Hbegin. rewrite Hbegin. cbn.
      apply Z.leb_le in Hset. apply Z.ltb_ge in Hset. rewrite Hset. cbn.
      destruct (env_rc env C_qemuMigrationJobContinue =? 0) eqn:E; cbn.
      * split; [reflexivity |].
        intros Hc. apply Z.eqb_eq in E. contradiction.
      * split; reflexivity.
    + mrun; cbn; zbool;
        repeat match goal with
               | |- context [?a <=? ?b] =>
                   let E := fresh "E" in destruct (a <=? b) eqn:E
               | H : negb _ = true |- _ => apply negb_true_iff in H; rewrite H
               | H : negb _ = false |- _ =>
                   apply negb_false_iff in H; rewrite H
               end; zbool; cbn; first [reflexivity | lia].
  - intros Hz. apply Z.eqb_eq in Hz. rewrite Hz. cbn. split; reflexivity.
  - intros Hnz. apply Z.eqb_neq in Hnz. rewrite Hnz. cbn. split.
    + mrun; reflexivity.
    + destruct (cancelled =? 0); cbn; mrun; eexists; split; reflexivity.
Qed.

(** ** Images that were never completed (claim C3) *)

Arguments magic_is : simpl never.
Arguments decode_header : simpl never.

Lemma bytes_eqb_eq a b : bytes_eqb a b = true -> a = b.
Proof.
  revert b. induction a as [| x a IH]; intros [| y b] H; cbn in H;
    try discriminate; try reflexivity.
  apply andb_prop in H. destruct H as [Hxy Hab].
  apply Z.eqb_eq in Hxy. subst y. f_equal. apply IH. exact Hab.
Qed.

Lemma firstn_firstn_le {A : Type} (n m : nat) (l : list A) :
  (n <= m)%nat -> firstn n (firstn m l) = firstn n l.
Proof.
  intros H. rewrite firstn_firstn. f_equal. lia.
Qed.

(** A header read from a file that starts with the partial magic carries
    the partial magic and not the complete one. *)
Lemma partial_magic_read (be : bool) (data : bytes) :
  starts_with QEMUD_SAVE_PARTIAL data = true ->
  magic_is QEMUD_SAVE_PARTIAL (decode_header be (firstn 92 data)) = true
  /\ magic_is QEMUD_SAVE_MAGIC (decode_header be (firstn 92 data)) = false.
Proof.
  intros H. unfold starts_with in H. apply bytes_eqb_eq in H.
  unfold magic_is, decode_header. cbn [magic].
  change sizeof_magic with 16%nat.
  rewrite firstn_firstn_le by lia. rewrite firstn_firstn_le by lia.
  change (List.length QEMUD_SAVE_PARTIAL) with 16%nat in H.
  rewrite H. split; reflexivity.
Qed.

(** ** Rules for stepping through a run *)

Section Steps.

Variable env : environment.
Context {A : Type}.
Variable Q : A -> world -> Prop.
Variable Qz : Z -> world -> Prop.
Variable Qu : unit -> world -> Prop.
Variable w : world.

Lemma wp_run (m : M A) (P : A * world -> Prop) :
  wp m (fun a w' => P (a, w')) w -> P (m w).
Proof. unfold wp. destruct (m w). exact (fun H => H). Qed.

Lemma wp_ret (a : A) : Q a w -> wp (ret a) Q w.
Proof. exact (fun H => H). Qed.

Lemma wp_bind {B : Type} (m : M B) (k : B -> M A) :
  wp m (fun b w' => wp (k b) Q w') w -> wp (bind m k) Q w.
Proof. unfold wp, bind. destruct (m w). exact (fun H => H). Qed.

Lemma wp_extern c :
  Qz (env_rc env c) (log c (env_rc env c) w) -> wp (extern env c) Qz w.
Proof. exact (fun H => H). Qed.

Lemma wp_extern_vm c :
  Qz (env_rc env c)
     (log c (env_rc env c) (with_vm (env_vm env c (w_vm w)) w)) ->
  wp (extern_vm env c) Qz w.
Proof. exact (fun H => H). Qed.

Lemma wp_virReportError code msg :
  Qu tt (log (C_virReportError code msg) 0 w) ->
  wp (virReportError code msg) Qu w.
Proof. exact (fun H => H). Qed.

Lemma wp_virReportSystemError msg :
  Qu tt (log (C_virReportSystemError msg) 0 w) ->
  wp (virReportSystemError msg) Qu w.
Proof. exact (fun H => H). Qed.

Lemma wp_virReportOOMError :
  Qu tt (log C_virReportOOMError 0 w) -> wp virReportOOMError Qu w.
Proof. exact (fun H => H). Qed.

Lemma wp_VIR_WARN msg :
  Qu tt (log (C_VIR_WARN msg) 0 w) -> wp (VIR_WARN msg) Qu w.
Proof. exact (fun H => H). Qed.

Lemma wp_VIR_DEBUG msg :
  Qu tt (log (C_VIR_DEBUG msg) 0 w) -> wp (VIR_DEBUG msg) Qu w.
Proof. exact (fun H => H). Qed.

Lemma wp_get_vm (Qv : virDomainObj -> world -> Prop) :
  Qv (w_vm w) w -> wp get_vm Qv w.
Proof. exact (fun H => H). Qed.

Lemma wp_modify_vm f :
  Qu tt (with_vm (f (w_vm w)) w) -> wp (modify_vm f) Qu w.
Proof. exact (fun H => H). Qed.

Lemma wp_file_exists p (Qb : bool -> world -> Prop) :
  Qb (match w_fs w p with Some _ => true | None => false end) w ->
  wp (file_exists p) Qb w.
Proof. exact (fun H => H). Qed.

Lemma wp_file_is_reg p (Qb : bool -> world -> Prop) :
  Qb (match w_fs w p with Some f => f_reg f | None => false end) w ->
  wp (file_is_reg p) Qb w.
Proof. exact (fun H => H). Qed.

Lemma wp_VIR_CLOSE site fd :
  (forall rc, rc = (if env_rc env (C_close site fd) <? 0 then -1 else 0) ->
     Qz rc (log (C_close site fd) rc
              (mkWorld (w_vm w) (w_fs w) None (w_trace w) (w_journal w)))) ->
  wp (VIR_CLOSE env site fd) Qz w.
Proof. intros H. apply H. reflexivity. Qed.

Lemma wp_sys_open c path fl :
  (forall f0, w_fs w path = Some f0 -> env_rc env c < 0 ->
     Qz (env_rc env c) (log c (env_rc env c) w)) ->
  (forall f0, w_fs w path = Some f0 -> 0 <= env_rc env c ->
     Qz (env_rc env c)
        (log c (env_rc env c)
           (with_file c (env_rc env c) path
              (Some (if has_flag fl O_TRUNC && f_reg f0
                     then mkFile true [] else f0))
              (Some (mkOpen (env_rc env c) path 0)) w))) ->
  (w_fs w path = None -> has_flag fl O_CREAT = true -> env_rc env c < 0 ->
     Qz (env_rc env c) (log c (env_rc env c) w)) ->
  (w_fs w path = None -> has_flag fl O_CREAT = true -> 0 <= env_rc env c ->
     Qz (env_rc env c)
        (log c (env_rc env c)
           (with_file c (env_rc env c) path (Some (mkFile true []))
              (Some (mkOpen (env_rc env c) path 0)) w))) ->
  (w_fs w path = None -> has_flag fl O_CREAT = false ->
     Qz (- ENOENT) (log c (- ENOENT) w)) ->
  wp (sys_open env c path fl) Qz w.
Proof.
  intros H1 H2 H3 H4 H5. unfold wp, sys_open.
  destruct (w_fs w path) as [f0 |] eqn:Ef.
  - destruct (env_rc env c <? 0) eqn:E.
    + apply (H1 f0 eq_refl). apply Z.ltb_lt. exact E.
    + apply (H2 f0 eq_refl). apply Z.ltb_ge. exact E.
  - destruct (has_flag fl O_CREAT) eqn:Ec.
    + destruct (env_rc env c <? 0) eqn:E.
      * apply (H3 eq_refl eq_refl). apply Z.ltb_lt. exact E.
      * apply (H4 eq_refl eq_refl). apply Z.ltb_ge. exact E.
    + cbn. apply (H5 eq_refl eq_refl).
Qed.

Lemma wp_unlink path :
  (forall f0, w_fs w path = Some f0 -> env_rc env (C_unlink path) < 0 ->
     Qz (-1) (log (C_unlink path) (-1)
                (with_file (C_unlink path) (-1) path (Some f0)
                           (w_open w) w))) ->
  (forall f0, w_fs w path = Some f0 -> 0 <= env_rc env (C_unlink path) ->
     Qz 0 (log (C_unlink path) 0
             (with_file (C_unlink path) 0 path None (w_open w) w))) ->
  (w_fs w path = None ->
     Qz (-1) (log (C_unlink path) (-1)
                (with_file (C_unlink path) (-1) path None (w_open w) w))) ->
  wp (unlink env path) Qz w.
Proof.
  intros H1 H2 H3. unfold wp, unlink.
  destruct (w_fs w path) as [f0 |] eqn:Ef.
  - destruct (env_rc env (C_unlink path) <? 0) eqn:E.
    + apply (H1 f0 eq_refl). apply Z.ltb_lt. exact E.
    + apply (H2 f0 eq_refl). apply Z.ltb_ge. exact E.
  - apply (H3 eq_refl).
Qed.

Lemma wp_saferead site fd n o (Qr : Z * bytes -> world -> Prop) :
  w_open w = Some o -> of_fd o = fd ->
  (env_rc env (C_saferead site fd n) < 0 ->
     Qr (-1, []) (log (C_saferead site fd n) (-1) w)) ->
  (0 <= env_rc env (C_saferead site fd n) ->
   forall got,
     got = firstn (Z.to_nat n)
             (skipn (of_pos o)
                (match w_fs w (of_path o) with
                 | Some f0 => f_data f0
                 | None => []
                 end)) ->
     Qr (Z.of_nat (List.length got), got)
        (log (C_saferead site fd n) (Z.of_nat (List.length got))
           (mkWorld (w_vm w) (w_fs w)
              (Some (mkOpen fd (of_path o) (of_pos o + List.length got)%nat))
              (w_trace w) (w_journal w)))) ->
  wp (saferead env site fd n) Qr w.
Proof.
  intros Ho Hfd H1 H2. unfold wp, saferead. rewrite Ho, Hfd, Z.eqb_refl.
  destruct (env_rc env (C_saferead site fd n) <? 0) eqn:E; cbn.
  - apply H1. apply Z.ltb_lt. exact E.
  - apply H2; [apply Z.ltb_ge; exact E | reflexivity].
Qed.

Lemma wp_safewrite site fd buf o :
  w_open w = Some o -> of_fd o = fd ->
  (Z.of_nat (List.length buf) <= env_rc env (C_safewrite site fd buf) ->
     Qz (Z.of_nat (List.length buf))
        (log (C_safewrite site fd buf) (Z.of_nat (List.length buf))
           (with_file (C_safewrite site fd buf) (Z.of_nat (List.length buf))
              (of_path o)
              (option_map
                 (fun f0 => mkFile (f_reg f0)
                              (write_at (of_pos o) buf (f_data f0)))
                 (w_fs w (of_path o)))
              (Some (mkOpen fd (of_path o)
                            (of_pos o + List.length buf)%nat)) w))) ->
  (env_rc env (C_safewrite site fd buf) < Z.of_nat (List.length buf) ->
   forall done, done = Z.to_nat (env_rc env (C_safewrite site fd buf)) ->
     Qz (-1)
        (log (C_safewrite site fd buf) (-1)
           (with_file (C_safewrite site fd buf) (-1) (of_path o)
              (option_map
                 (fun f0 => mkFile (f_reg f0)
                              (write_at (of_pos o) (firstn done buf)
                                        (f_data f0)))
                 (w_fs w (of_path o)))
              (Some (mkOpen fd (of_path o) (of_pos o + done)%nat)) w))) ->
  wp (safewrite env site fd buf) Qz w.
Proof.
  intros Ho Hfd H1 H2. unfold wp, safewrite. rewrite Ho, Hfd, Z.eqb_refl.
  destruct (Z.of_nat (List.length buf) <=? env_rc env (C_safewrite site fd buf))
    eqn:E; cbn.
  - rewrite firstn_all. apply H1. apply Z.leb_le. exact E.
  - apply H2; [apply Z.leb_gt; exact E | reflexivity].
Qed.

Lemma wp_qemuMigrationToFile fd offset path comp byp aj :
  (forall c, c = C_qemuMigrationToFile fd offset path comp byp aj ->
     Qz (env_rc env c)
        (log c (env_rc env c)
           (with_file c (env_rc env c) path
              (option_map
                 (fun f0 => mkFile (f_reg f0) (f_data f0 ++ env_data env c))
                 (w_fs w path))
              (w_open w) (with_vm (env_vm env c (w_vm w)) w)))) ->
  wp (qemuMigrationToFile env fd offset path comp byp aj) Qz w.
Proof. intros H. apply H. reflexivity. Qed.

End Steps.

Arguments String.append : simpl never.
Arguments String.eqb : simpl never.

Lemma fs_set_same (p : string) (o : option file) (fs : filesystem) :
  fs_set p o fs p = o.
Proof. unfold fs_set. rewrite String.eqb_refl. reflexivity. Qed.

(** Bring the world at the head of the run into view. *)
Ltac wsimpl :=
  cbn [w_vm w_fs w_open w_trace w_journal log logs with_vm with_file
       init_world of_fd of_path of_pos fst snd];
  rewrite ?fs_set_same.

Ltac wsimpl_in H :=
  cbn [w_vm w_fs w_open w_trace w_journal log logs with_vm with_file
       init_world of_fd of_path of_pos fst snd] in H;
  rewrite ?fs_set_same in H.

Ltac wside := wsimpl; first [reflexivity | eassumption].

(** Merge what is known about one file. *)
Ltac same_file :=
  try match goal with
      | H1 : ?x = Some ?a, H2 : ?x = Some ?b |- _ =>
          rewrite H1 in H2; injection H2 as H2; subst b
      end.

(** Decide a test from what is already known. *)
Ltac use_known :=
  match goal with
  | H : ?c = true |- wp (if ?c then _ else _) _ _ =>
      replace c with true by (rewrite H; reflexivity)
  | H : ?c = false |- wp (if ?c then _ else _) _ _ =>
      replace c with false by (rewrite H; reflexivity)
  | H : ?c = true |- wp (if negb ?c then _ else _) _ _ =>
      replace (negb c) with false by (rewrite H; reflexivity)
  | H : ?c = false |- wp (if negb ?c then _ else _) _ _ =>
      replace (negb c) with true by (rewrite H; reflexivity)
  end.

(** What to do with the octets a read has returned. *)
Ltac on_read Hgot := idtac.

(** One step of the run at the head of the goal. *)
Ltac mstep :=
  cbv beta zeta;
  lazymatch goal with
  | |- wp (bind _ _) _ _ => apply wp_bind
  | |- wp (ret _) _ _ => apply wp_ret; cbv beta
  | |- wp (if ?c then _ else _) _ _ =>
      first [ change c with true | change c with false
            | progress use_known
            | let E := fresh "E" in
              destruct c eqn:E; try solve [exfalso; zbool; lia] ]
  | |- wp (match ?x with Some _ => _ | None => _ end) _ _ =>
      let E := fresh "E" in destruct x eqn:E
  | |- wp (match ?x with (_, _) => _ end) _ _ => destruct x
  | |- wp (extern _ _) _ _ => apply wp_extern; cbv beta
  | |- wp (extern_vm _ _) _ _ => apply wp_extern_vm; cbv beta
  | |- wp (virReportError _ _) _ _ => apply wp_virReportError; cbv beta
  | |- wp (virReportSystemError _) _ _ =>
      apply wp_virReportSystemError; cbv beta
  | |- wp virReportOOMError _ _ => apply wp_virReportOOMError; cbv beta
  | |- wp (VIR_WARN _) _ _ => apply wp_VIR_WARN; cbv beta
  | |- wp (VIR_DEBUG _) _ _ => apply wp_VIR_DEBUG; cbv beta
  | |- wp get_vm _ _ => apply wp_get_vm; cbv beta
  | |- wp (modify_vm _) _ _ => apply wp_modify_vm; cbv beta
  | |- wp (file_exists _) _ _ => apply wp_file_exists; cbv beta
  | |- wp (file_is_reg _) _ _ => apply wp_file_is_reg; cbv beta
  | |- wp (VIR_CLOSE _ _ _) _ _ =>
      let rc := fresh "rc" in
      let Hrc := fresh "Hrc" in
      apply wp_VIR_CLOSE; intros rc Hrc; cbv beta
  | |- wp (sys_open _ _ _ _) _ _ =>
      let f0 := fresh "f0" in
      let Hf := fresh "Hf" in
      let Hc := fresh "Hc" in
      let Hr := fresh "Hr" in
      apply wp_sys_open;
      [ intros f0 Hf Hr | intros f0 Hf Hr | intros Hf Hc Hr
      | intros Hf Hc Hr | intros Hf Hc ];
      wsimpl_in Hf; try congruence; same_file; cbv beta
  | |- wp (unlink _ _) _ _ =>
      let f0 := fresh "f0" in
      let Hf := fresh "Hf" in
      let Hr := fresh "Hr" in
      apply wp_unlink;
      [ intros f0 Hf Hr | intros f0 Hf Hr | intros Hf ];
      wsimpl_in Hf; try congruence; same_file; cbv beta
  | |- wp (saferead _ _ _ _) _ _ =>
      let got := fresh "got" in
      let Hgot := fresh "Hgot" in
      let Hr := fresh "Hr" in
      eapply wp_saferead;
      [ wside | wside | intros Hr
      | intros Hr got Hgot; wsimpl_in Hgot; on_read Hgot ];
      cbv beta
  | |- wp (safewrite _ _ _ _) _ _ =>
      let done := fresh "done" in
      let Hdone := fresh "Hdone" in
      let Hr := fresh "Hr" in
      eapply wp_safewrite;
      [ wside | wside | intros Hr | intros Hr done Hdone ];
      cbv beta
  | |- wp (qemuMigrationToFile _ _ _ _ _ _ _) _ _ =>
      let c := fresh "mig" in
      let Hc := fresh "Hmig" in
      apply wp_qemuMigrationToFile; intros c Hc; cbv beta
  end;
  wsimpl.

Ltac mgo := repeat mstep.

Lemma logs_nil (w : world) : logs [] w = w.
Proof. destruct w. unfold logs. cbn. rewrite app_nil_r. reflexivity. Qed.

Lemma log_logs c rc evs w : log c rc (logs evs w) = logs (evs ++ [Ev c rc]) w.
Proof. unfold log, logs. cbn. rewrite app_assoc. reflexivity. Qed.

Lemma log_as_logs c rc w : log c rc w = logs [Ev c rc] w.
Proof. reflexivity. Qed.

Lemma logs_logs a b w : logs b (logs a w) = logs (a ++ b) w.
Proof. unfold logs. cbn. rewrite app_assoc. reflexivity. Qed.

(** Gather the calls logged on top of [w] into one [logs]. *)
Ltac to_logs w :=
  rewrite ?(log_as_logs _ _ w); rewrite ?log_logs; cbn [app].

Ltac all_opening :=
  repeat first [apply Forall_nil | apply Forall_cons; [reflexivity |]].
(** [qemuOpenFile] seen from outside: it either fails, leaving the files
    as they were, or returns a descriptor at offset 0 of the file, emptied
    if it was opened with [O_TRUNC]; it asks for removal on error exactly
    when it was given [O_CREAT]. *)
Lemma wp_qemuOpenFile (env : environment) (driver : qemud_driver)
      (path : string) (oflags : Z) (Q : Z * bool * bool -> world -> Prop)
      (w : world) :
  (forall fd pre, fd < 0 -> Forall opening pre ->
     Q (fd, has_flag oflags O_CREAT, false) (logs pre w)) ->
  (forall fd bs c pre, 0 <= fd -> Forall opening pre ->
     opening_call c = true ->
     Q (fd, has_flag oflags O_CREAT, bs)
       (log c fd
          (with_file c fd path (Some (opened_file oflags (w_fs w path)))
             (Some (mkOpen fd path 0)) (logs pre w)))) ->
  wp (qemuOpenFile env driver path oflags) Q w.
Proof.
  intros Hfail Hok. unfold qemuOpenFile.
  mgo.
  all: try (assert (Hreg : f_reg f0 = false)
              by (rewrite Hf in *; cbn in *;
                  rewrite andb_true_r in *;
                  destruct (has_flag oflags O_CREAT); cbn in *;
                  [ apply negb_true_iff; assumption | discriminate ])).
  all: try (exfalso; rewrite Hf in E; cbn in E;
            rewrite ?andb_false_r in E; discriminate E).
  all: try (to_logs w; apply Hfail;
            first [assumption | reflexivity | all_opening]; fail).
  all: unfold opened_file in Hok; rewrite Hf in Hok;
    try (rewrite Hreg, andb_false_r in Hok);
    try rewrite Hreg, andb_false_r;
    to_logs w; apply Hok; first [assumption | reflexivity | all_opening].
Qed.

(** The outside view of [qemuOpenFile] as a step. *)
Ltac mstep_open :=
  lazymatch goal with
  | |- wp (qemuOpenFile _ _ _ _) _ _ =>
      let fd := fresh "fd" in
      let bs := fresh "bs" in
      let oc := fresh "oc" in
      let pre := fresh "pre" in
      let Hfd := fresh "Hfd" in
      let Hpre := fresh "Hpre" in
      let Hoc := fresh "Hoc" in
      apply wp_qemuOpenFile;
      [ intros fd pre Hfd Hpre | intros fd bs oc pre Hfd Hpre Hoc ];
      cbv beta; wsimpl
  end.

Ltac mgo2 := repeat first [mstep_open | mstep].

(** Calls of [qemuOpenFile] are none of the calls a predicate [p] looks
    for, if [p] rejects every call [qemuOpenFile] can make. *)
Lemma opening_existsb (p : event -> bool) (pre : list event) :
  (forall e, opening e -> p e = false) ->
  Forall opening pre -> existsb p pre = false.
Proof.
  intros Hp H. induction H as [| e l He Hl IH]; cbn.
  - reflexivity.
  - rewrite (Hp e He), IH. reflexivity.
Qed.

Lemma opening_not_in (c : extcall) (pre : list event) :
  opening_call c = false -> Forall opening pre -> ~ In c (map ev_call pre).
Proof.
  intros Hc H. induction H as [| e l He Hl IH]; cbn.
  - exact (fun F => F).
  - intros [Heq | Hin]; [| exact (IH Hin)].
    unfold opening in He. rewrite Heq in He. congruence.
Qed.

Lemma opening_not_reading (pre : list event) :
  Forall opening pre -> existsb reads_header pre = false.
Proof.
  apply opening_existsb. intros [c rc] He. unfold opening in He. cbn in He.
  destruct c; try discriminate He; reflexivity.
Qed.

Lemma opening_call_not_reading (c : extcall) (rc : Z) :
  opening_call c = true -> reads_header (Ev c rc) = false.
Proof. destruct c; intros H; try discriminate H; reflexivity. Qed.

(** Membership in a trace that was built call by call. *)
Ltac in_trace :=
  unfold calls_of, trace_of; cbn [fst snd]; wsimpl;
  rewrite ?map_app; cbn [map ev_call];
  repeat first [ apply in_or_app; right; left; reflexivity
               | apply in_or_app; left ].

Ltac not_in_leaf H :=
  cbn [In] in H;
  lazymatch type of H with
  | False => contradiction H
  | In _ (map ev_call _) =>
      match goal with
      | Hpre : Forall opening _ |- _ =>
          refine (opening_not_in _ _ _ Hpre H); reflexivity
      end
  | _ \/ False =>
      destruct H as [H | H];
      [ first [ discriminate H
              | match goal with
                | Hoc : opening_call _ = true |- _ =>
                    rewrite H in Hoc; discriminate Hoc
                end ]
      | contradiction H ]
  end.

Ltac not_in_trace :=
  let H := fresh "Hin" in
  unfold calls_of, trace_of; cbn [fst snd]; wsimpl;
  rewrite ?map_app; cbn [map ev_call];
  intros H;
  repeat (apply in_app_or in H; destruct H as [H | H]);
  not_in_leaf H.

Arguments firstn : simpl never.
Arguments skipn : simpl never.

Ltac booleans :=
  repeat match goal with
         | H : negb _ = true |- _ => apply negb_true_iff in H
         | H : negb _ = false |- _ => apply negb_false_iff in H
         end;
  change (Z.of_nat sizeof_header) with 92 in *.

(** The octets of the header as they come from a file that is known. *)
Ltac read_known_file Hgot :=
  match type of Hgot with
  | _ = firstn _ (skipn _ (f_data (opened_file ?fl ?o))) =>
      let T := fresh "T" in
      unfold opened_file in Hgot;
      match goal with Hfs : _ = Some _ |- _ => rewrite Hfs in Hgot end;
      match type of Hgot with
      | context [if ?t then _ else _] => destruct t eqn:T
      end;
      cbn [f_data] in Hgot; rewrite ?skipn_O in Hgot;
      change (Z.to_nat (Z.of_nat sizeof_header)) with 92%nat in Hgot;
      subst
  | _ => idtac
  end.

(** Use the hypothesis that the header was read on a finished run. *)
Ltac header_was_read Hread :=
  unfold header_read, trace_of in Hread;
  cbn [fst snd] in Hread; wsimpl_in Hread;
  rewrite ?existsb_app in Hread;
  try match goal with
      | Hpre : Forall opening _ |- _ =>
          rewrite (opening_not_reading _ Hpre) in Hread
      end;
  cbn in Hread;
  try match goal with
      | Hoc : opening_call _ = true |- _ =>
          rewrite (opening_call_not_reading _ _ Hoc) in Hread
      end;
  cbn in Hread; try discriminate Hread;
  booleans;
  repeat match goal with
         | H : ?t = false |- _ => rewrite H in Hread
         end;
  cbn in Hread; try discriminate Hread.

Ltac on_read Hgot ::= read_known_file Hgot.

Lemma partial_image_open (env : environment) (be : bool)
      (driver : qemud_driver) (vm : virDomainObj) (fs : filesystem)
      (f : file) (path : string) (bypass_cache : bool)
      (xmlin : option bytes) (state : Z) (edit unlink_corrupt : bool) :
  starts_with QEMUD_SAVE_PARTIAL (f_data f) = true ->
  fs path = Some f ->
  let r := qemuDomainSaveImageOpen env be driver path bypass_cache xmlin
             state edit unlink_corrupt (init_world vm fs) in
  header_read (trace_of r) = true ->
  (partial_open_as_claimed unlink_corrupt r path
   \/ partial_open_not_removed unlink_corrupt r path (fs path))
  /\ img_header (fst r) = None.
Proof.
  intros Hmagic Hfs r. subst r.
  destruct (partial_magic_read be (f_data f) Hmagic) as [Hm2 Hm1].
  match goal with
  | |- context [qemuDomainSaveImageOpen ?e ?b ?d ?p ?bc ?x ?s ?ed ?u ?w] =>
      pattern (qemuDomainSaveImageOpen e b d p bc x s ed u w)
  end.
  apply wp_run.
  unfold qemuDomainSaveImageOpen, qemuDomainSaveImageOpen_unlink,
    qemuDomainSaveImageOpen_error, VIR_FORCE_CLOSE.
  mgo2.
  all: intros Hread; header_was_read Hread.
  all: (split; [| reflexivity]).
  all: unfold partial_open_as_claimed, partial_open_not_removed, file_of;
    cbn [fst snd img_fd]; wsimpl.
  all: first
         [ left; left; split; [reflexivity | in_trace]; fail
         | left; right; repeat split; reflexivity
         | right; split; [reflexivity |]; split; [reflexivity |];
           split; [in_trace |]; split; [not_in_trace |];
           rewrite Hfs in *; unfold opened_file in *; rewrite T in *;
           congruence ].
Qed.

Lemma boots_after_warning_app (msg : string) (l1 l2 : list extcall) :
  boots_after_warning msg l2 = true ->
  boots_after_warning msg (l1 ++ l2) = true.
Proof.
  intros H. induction l1 as [| c l1 IH]; [exact H |].
  cbn [app boots_after_warning].
  destruct c; try exact IH.
  destruct (l1 ++ l2) as [| c' l'] eqn:El; [exact IH |].
  destruct c'; try exact IH.
  rewrite IH. apply orb_true_r.
Qed.

Lemma opening_existsb_calls (p : extcall -> bool) (pre : list event) :
  (forall c, opening_call c = true -> p c = false) ->
  Forall opening pre -> existsb p (map ev_call pre) = false.
Proof.
  intros Hp H. induction H as [| e l He Hl IH]; cbn.
  - reflexivity.
  - rewrite (Hp _ He), IH. reflexivity.
Qed.

Lemma opening_never_starts (pre : list event) :
  Forall opening pre ->
  existsb is_SaveImageStartVM (map ev_call pre) = false
  /\ existsb is_ProcessStart (map ev_call pre) = false.
Proof.
  intros H. split; apply opening_existsb_calls; try exact H;
    intros c Hc; destruct c; try discriminate Hc; reflexivity.
Qed.

Lemma opening_never_removes (path : string) (pre : list event) :
  Forall opening pre -> existsb (removes path) pre = false.
Proof.
  apply opening_existsb. intros [c rc] He. unfold opening in He. cbn in He.
  destruct c; try discriminate He; reflexivity.
Qed.

Lemma opening_call_props (path : string) (c : extcall) (rc : Z) :
  opening_call c = true ->
  is_SaveImageStartVM c = false /\ is_ProcessStart c = false
  /\ removes path (Ev c rc) = false.
Proof. destruct c; intros H; try discriminate H; repeat split. Qed.

Lemma partial_image_start (env : environment) (be : bool)
      (driver : qemud_driver) (vm : virDomainObj) (fs : filesystem)
      (f : file) (flags : Z) :
  starts_with QEMUD_SAVE_PARTIAL (f_data f) = true ->
  fs (managed_save_path driver vm) = Some f ->
  has_flag flags VIR_DOMAIN_START_FORCE_BOOT = false ->
  let s := qemuDomainObjStart env be driver flags (init_world vm fs) in
  header_read (trace_of s) = true ->
  existsb is_SaveImageStartVM (calls_of s) = false
  /\ (removed (managed_save_path driver vm) (trace_of s) = true ->
      boots_after_warning "Ignoring incomplete managed state %s" (calls_of s)
      = true
      /\ fst s = env_rc env (C_qemuProcessStart (start_flags_of flags)))
  /\ (removed (managed_save_path driver vm) (trace_of s) = false ->
      fst s = -1 /\ existsb is_ProcessStart (calls_of s) = false).
Proof.
  intros Hmagic Hfs Hforce s. subst s.
  unfold managed_save_path in *.
  destruct (partial_magic_read be (f_data f) Hmagic) as [Hm2 Hm1].
  match goal with
  | |- context [qemuDomainObjStart ?e ?b ?d ?fl ?w] =>
      pattern (qemuDomainObjStart e b d fl w)
  end.
  apply wp_run.
  unfold qemuDomainObjStart, qemuDomainManagedSavePath, qemuDomainObjRestore,
    qemuDomainObjRestore_cleanup, qemuDomainSaveImageStartVM,
    qemuDomainSaveImageOpen, qemuDomainSaveImageOpen_unlink,
    qemuDomainSaveImageOpen_error, VIR_FORCE_CLOSE, virDomainEventNewFromObj,
    queue_if_set.
  fold (start_flags_of flags).
  rewrite Hforce.
  mgo2.
  all: intros Hread; header_was_read Hread.
  all: unfold calls_of, trace_of, removed; cbn [fst snd img_fd]; wsimpl;
    rewrite ?map_app, ?existsb_app;
    try (destruct (opening_never_starts _ Hpre) as [Hs1 Hs2];
         rewrite ?Hs1, ?Hs2, ?(opening_never_removes _ _ Hpre));
    cbn [map ev_call existsb app is_SaveImageStartVM is_ProcessStart removes
         orb andb];
    try (destruct (opening_call_props (saveDir driver ++ "/" ++ def_name vm ++ ".save")%string _ fd Hoc)
           as [Ho1 [Ho2 Ho3]];
         rewrite ?Ho1, ?Ho2, ?Ho3);
    rewrite ?String.eqb_refl;
    cbn [orb andb Z.eqb].
  all: split; [reflexivity | split; intros Hrem;
    cbn [ev_rc Z.eqb Pos.eqb orb andb] in Hrem |- *;
    try discriminate Hrem].
  all: split; try reflexivity.
  all: rewrite <- ?app_assoc; cbn [app]; rewrite ?app_comm_cons;
    apply boots_after_warning_app;
    destruct oc; try discriminate Hoc; reflexivity.
Qed.
(** C3 (amended). A save image whose header carries the partial magic is
    never used to start a VM.  Once its header has been read,
    [qemuDomainSaveImageOpen] hands back no header and ends in one of three
    ways: with the error "save image is incomplete"; or, when
    [unlink_corrupt] is set, with the file closed and removed and the value
    -3; or, when [unlink_corrupt] is set and the file cannot be closed or
    removed, with the error "cannot remove corrupt file: %s", the value -1
    and the file still in place.  [qemuDomainObjStart] on a domain whose
    managed-save image is partial never calls [qemuDomainSaveImageStartVM];
    when the image was removed it warns "Ignoring incomplete managed state
    %s" and goes straight on to [qemuProcessStart], whose result it
    returns, and when the image could not be removed it returns -1 without
    starting anything. *)
Theorem partial_image_never_resumed (env : environment) (be : bool)
        (driver : qemud_driver) (vm : virDomainObj) (fs : filesystem)
        (f : file) :
  starts_with QEMUD_SAVE_PARTIAL (f_data f) = true ->
  (forall (path : string) (bypass_cache : bool) (xmlin : option bytes)
          (state : Z) (edit unlink_corrupt : bool),
      fs path = Some f ->
      let r := qemuDomainSaveImageOpen env be driver path bypass_cache xmlin
                 state edit unlink_corrupt (init_world vm fs) in
      header_read (trace_of r) = true ->
      (partial_open_as_claimed unlink_corrupt r path
       \/ partial_open_not_removed unlink_corrupt r path (fs path))
      /\ img_header (fst r) = None)
  /\ (forall flags : Z,
      fs (managed_save_path driver vm) = Some f ->
      has_flag flags VIR_DOMAIN_START_FORCE_BOOT = false ->
      let s := qemuDomainObjStart env be driver flags (init_world vm fs) in
      header_read (trace_of s) = true ->
      existsb is_SaveImageStartVM (calls_of s) = false
      /\ (removed (managed_save_path driver vm) (trace_of s) = true ->
          boots_after_warning "Ignoring incomplete managed state %s"
                              (calls_of s) = true
          /\ fst s = env_rc env (C_qemuProcessStart (start_flags_of flags)))
      /\ (removed (managed_save_path driver vm) (trace_of s) = false ->
          fst s = -1 /\ existsb is_ProcessStart (calls_of s) = false)).
Proof.
  intros Hmagic. split.
  - intros path bypass_cache xmlin state edit unlink_corrupt Hfs.
    exact (partial_image_open env be driver vm fs f path bypass_cache xmlin
             state edit unlink_corrupt Hmagic Hfs).
  - intros flags Hfs Hforce.
    exact (partial_image_start env be driver vm fs f flags Hmagic Hfs Hforce).
Qed.

Lemma partial_image_never_resumed_witness :
  (let r := qemuDomainSaveImageOpen env_success false sample_driver
              "/save/guest.save" false None (-1) false true
              (init_world sample_vm partial_image_fs) in
   (partial_open_as_claimed true r "/save/guest.save"
    \/ partial_open_not_removed true r "/save/guest.save"
         (partial_image_fs "/save/guest.save"))
   /\ img_header (fst r) = None)
  /\ (let s := qemuDomainObjStart env_success false sample_driver 0
                 (init_world sample_vm partial_image_fs) in
      existsb is_SaveImageStartVM (calls_of s) = false
      /\ boots_after_warning "Ignoring incomplete managed state %s"
                             (calls_of s) = true
      /\ fst s = 0).
Proof.
  destruct (partial_image_never_resumed env_success false sample_driver
              sample_vm partial_image_fs partial_image)
    as [Hopen Hstart].
  - vm_compute. reflexivity.
  - split.
    + apply (Hopen "/save/guest.save" false None (-1) false true).
      * vm_compute. reflexivity.
      * vm_compute. reflexivity.
    + destruct (Hstart 0) as [H1 [H2 _]].
      * vm_compute. reflexivity.
      * vm_compute. reflexivity.
      * vm_compute. reflexivity.
      * split; [exact H1 |].
        apply H2. vm_compute. reflexivity.
Defined.

(** Opening with [unlink_corrupt] set when the file cannot be removed ends
    in neither of the two ways the specification lists. *)
Lemma partial_image_open_counterexample :
  let env := env_with is_unlink (-1) env_success in
  let r := qemuDomainSaveImageOpen env false sample_driver
             "/save/guest.save" false None (-1) false true
             (init_world sample_vm partial_image_fs) in
  starts_with QEMUD_SAVE_PARTIAL (f_data partial_image) = true
  /\ header_read (trace_of r) = true
  /\ ~ partial_open_as_claimed true r "/save/guest.save".
Proof.
  cbv zeta. split; [vm_compute; reflexivity |].
  split; [vm_compute; reflexivity |].
  unfold partial_open_as_claimed. intros [[_ Hin] | [_ [Hfd _]]].
  - vm_compute in Hin.
    repeat match type of Hin with
           | _ \/ _ => destruct Hin as [Hin | Hin]; [discriminate Hin |]
           end.
    exact Hin.
  - vm_compute in Hfd. discriminate Hfd.
Qed.

(** C1. The code does not back out when the save job is refused: the test
    of [qemuDomainObjBeginAsyncJobWithDriver] in [qemuDomainSaveInternal]
    guards only the [memset] that follows it, so the function carries on.
    On a running domain whose save job is refused while every other call
    succeeds, it stops the guest CPUs, streams the memory image through the
    monitor, stops the domain, ends an asynchronous job that was never
    begun and returns 0. *)
Theorem save_carries_on_after_refused_job :
  let s := qemuDomainSaveInternal env_save_refused false sample_bs
             sample_driver "/save/guest.img" 0 None 0
             (init_world sample_vm no_files) in
  virDomainObjGetState sample_vm = VIR_DOMAIN_RUNNING
  /\ save_job_refused (trace_of s) = true
  /\ refused_save_backs_out s = false
  /\ fst s = 0
  /\ existsb is_StopCPUs (calls_of s) = true
  /\ existsb is_MigrationToFile (calls_of s) = true
  /\ existsb is_EndAsyncJob (calls_of s) = true.
Proof. vm_compute. repeat split; reflexivity. Qed.

(** ** Writing a save image *)

Lemma word_bytes_length (be : bool) (v : Z) :
  List.length (word_bytes be v) = 4%nat.
Proof. destruct be; reflexivity. Qed.

Lemma flat_map_word_bytes_length (be : bool) (l : list Z) :
  List.length (flat_map (word_bytes be) l) = (4 * List.length l)%nat.
Proof.
  induction l as [| v l IH]; [reflexivity |].
  cbn [flat_map]. rewrite length_app, word_bytes_length, IH. cbn [List.length].
  lia.
Qed.

Lemma encode_header_length (be : bool) (h : qemud_save_header) :
  List.length (magic h) = 16%nat -> List.length (unused h) = 15%nat ->
  List.length (encode_header be h) = sizeof_header.
Proof.
  intros Hm Hu. unfold encode_header.
  rewrite !length_app, !word_bytes_length, flat_map_word_bytes_length, Hm, Hu.
  reflexivity.
Qed.

Lemma save_header_length (be : bool) (m domXML : bytes) (c : Z) (r : bool) :
  List.length m = 16%nat ->
  (Z.of_nat (List.length
               (encode_header be
                  (set_magic m (save_header_partial domXML c r))))
   =? Z.of_nat sizeof_header) = true.
Proof.
  intros Hm. rewrite encode_header_length.
  - reflexivity.
  - cbn [magic set_magic]. rewrite length_firstn, Hm. reflexivity.
  - reflexivity.
Qed.

Lemma save_header_partial_magic (domXML : bytes) (c : Z) (r : bool) :
  set_magic QEMUD_SAVE_PARTIAL (save_header_partial domXML c r)
  = save_header_partial domXML c r.
Proof. reflexivity. Qed.

Lemma bytes_eqb_refl (a : bytes) : bytes_eqb a a = true.
Proof.
  induction a as [| x a IH]; [reflexivity |].
  cbn. rewrite Z.eqb_refl. exact IH.
Qed.

Lemma starts_with_app (m x : bytes) : starts_with m (m ++ x) = true.
Proof.
  unfold starts_with.
  rewrite firstn_app, Nat.sub_diag, firstn_O, firstn_all, app_nil_r.
  apply bytes_eqb_refl.
Qed.

Lemma starts_with_split (m d : bytes) :
  starts_with m d = true -> exists x, d = m ++ x.
Proof.
  intros H. apply bytes_eqb_eq in H.
  exists (skipn (List.length m) d).
  rewrite <- H at 1. symmetry. apply firstn_skipn.
Qed.

Lemma starts_with_write_at (m b d : bytes) (pos : nat) :
  starts_with m d = true -> (List.length m <= pos)%nat ->
  starts_with m (write_at pos b d) = true.
Proof.
  intros H Hpos. destruct (starts_with_split m d H) as [x ->].
  unfold write_at. rewrite firstn_app, (firstn_all2 m) by exact Hpos.
  rewrite <- app_assoc. apply starts_with_app.
Qed.

Lemma starts_with_write_header (be : bool) (m : bytes)
      (h : qemud_save_header) (d : bytes) :
  magic h = m -> starts_with m (write_at 0 (encode_header be h) d) = true.
Proof.
  intros <-. unfold write_at, encode_header.
  rewrite firstn_O, Nat.sub_0_l. cbn [repeat app].
  rewrite <- app_assoc. apply starts_with_app.
Qed.

Lemma starts_with_more (m d x : bytes) :
  starts_with m d = true -> starts_with m (d ++ x) = true.
Proof.
  intros H. destruct (starts_with_split m d H) as [y ->].
  rewrite <- app_assoc. apply starts_with_app.
Qed.

(** The file that holds the header of a save in progress keeps the partial
    magic under the writes that follow the header and under the memory
    image added at its end. *)
Ltac keeps_magic :=
  cbn [absent_or_partial option_map f_data f_reg];
  repeat first
    [ reflexivity
    | assumption
    | apply starts_with_write_header; reflexivity
    | apply starts_with_more
    | apply starts_with_write_at;
      [| cbn [List.length QEMUD_SAVE_PARTIAL]; lia ] ].

Lemma save_step_opening (hp hc : bytes) (ph : save_phase) (c : extcall)
      (rc : Z) (f : option file) :
  opening_call c = true ->
  save_step hp hc ph (Jn c rc f)
  = match ph with
    | save_opening => Some save_opening
    | save_completed => Some save_completed
    | _ => if absent_or_partial f then Some ph else None
    end.
Proof.
  intros H. destruct c; try discriminate H; destruct ph; reflexivity.
Qed.

Lemma save_memory_discipline (env : environment) (be : bool) (BS : Z)
      (driver : qemud_driver) (path : string) (domXML : bytes)
      (compressed_ : Z) (was_running_ : bool) (flags : Z)
      (asyncJob_ : qemuDomainAsyncJob) (vm : virDomainObj)
      (fs : filesystem) :
  let s := qemuDomainSaveMemory env be BS driver path domXML compressed_
             was_running_ flags asyncJob_ (init_world vm fs) in
  let hdr := save_header_partial domXML compressed_ was_running_ in
  save_discipline (encode_header be hdr)
                  (encode_header be (set_magic QEMUD_SAVE_MAGIC hdr))
                  (journal_of s) = true
  /\ file_of s path = final_file (fs path) (journal_of s).
Proof.
  intros s hdr. subst s hdr.
  pose proof (save_header_length be QEMUD_SAVE_PARTIAL domXML compressed_
                was_running_ eq_refl) as Hl1.
  rewrite save_header_partial_magic in Hl1.
  pose proof (save_header_length be QEMUD_SAVE_MAGIC domXML compressed_
                was_running_ eq_refl) as Hl2.
  match goal with
  | |- context [qemuDomainSaveMemory ?e ?b ?bs ?d ?p ?x ?c ?r ?fl ?a ?w] =>
      pattern (qemuDomainSaveMemory e b bs d p x c r fl a w)
  end.
  apply wp_run.
  unfold qemuDomainSaveMemory, qemuDomainSaveMemory_cleanup,
    qemuDomainSaveHeader, VIR_FORCE_CLOSE.
  mgo2.
  all: unfold save_discipline, final_file, journal_of, file_of;
    cbn [fst snd]; wsimpl; cbn [app map j_file last].
  all: try (split; reflexivity).
  all: repeat match goal with
              | H : option_map _ _ = Some _ |- _ =>
                  progress cbn [option_map f_reg f_data] in H
              end.
  all: repeat match goal with
              | H : _ = C_qemuMigrationToFile _ _ _ _ _ _ |- _ => subst
              | H : Some _ = Some ?f |- _ => rewrite <- ?H; clear H
              end.
  all: (split; [| reflexivity]).
  all: repeat progress
         (cbn [save_run];
          try match goal with
              | H : opening_call ?c = true
                |- context [save_step _ _ _ (Jn ?c _ _)] =>
                  rewrite (save_step_opening _ _ _ c _ _ H)
              end;
          try match goal with
              | |- context [save_step _ _ _ (Jn (?k _) _ _)] =>
                  cbn [save_step j_call j_rc j_file]
              | |- context [save_step _ _ _ (Jn (?k _ _ _) _ _)] =>
                  cbn [save_step j_call j_rc j_file]
              | |- context [save_step _ _ _ (Jn (?k _ _ _ _ _ _) _ _)] =>
                  cbn [save_step j_call j_rc j_file]
              end;
          rewrite ?bytes_eqb_refl, ?Hl1, ?Hl2;
          change (-1 =? Z.of_nat sizeof_header) with false;
          try match goal with
              | |- context [absent_or_partial ?F] =>
                  replace (absent_or_partial F) with true
                    by (symmetry; keeps_magic)
              end;
          try match goal with
              | |- context [0 <=? ?r] =>
                  destruct (0 <=? r) eqn:?; try (exfalso; zbool; lia)
              end).
  all: try reflexivity.
Qed.

(** ** The header on disk *)

Lemma word_roundtrip (v : Z) :
  0 <= v < 2 ^ 32 ->
  v mod 256 + 256 * ((v / 256) mod 256) + 65536 * ((v / 65536) mod 256)
  + 16777216 * ((v / 16777216) mod 256) = v.
Proof.
  intros Hv. change (2 ^ 32) with 4294967296 in Hv.
  Z.to_euclidean_division_equations; lia.
Qed.

Lemma u32_range (v : Z) : 0 <= u32 v < 2 ^ 32.
Proof. unfold u32. apply Z.mod_pos_bound. reflexivity. Qed.

(** Reading back a header that was written gives the header. *)
Lemma decode_encode (be : bool) (m : bytes) (v x w c : Z) (rest : bytes) :
  List.length m = 16%nat ->
  0 <= v < 2 ^ 32 -> 0 <= x < 2 ^ 32 -> 0 <= w < 2 ^ 32 ->
  0 <= c < 2 ^ 32 ->
  decode_header be
    (firstn sizeof_header
       (encode_header be (mkHeader m v x w c (repeat 0 15)) ++ rest))
  = mkHeader m v x w c (repeat 0 15).
Proof.
  intros Hm Hv Hx Hw Hc.
  do 16 (destruct m as [| ? m]; [discriminate Hm |]).
  destruct m; [| discriminate Hm].
  destruct be;
    cbv [decode_header encode_header word_bytes word_of_bytes words_of_bytes
         flat_map repeat firstn skipn app rev sizeof_header sizeof_magic
         magic version xml_len was_running compressed unused];
    f_equal; try (apply word_roundtrip; assumption); reflexivity.
Qed.

Lemma save_header_partial_eq (domXML : bytes) (c : Z) (r : bool) :
  save_header_partial domXML c r
  = mkHeader QEMUD_SAVE_PARTIAL (u32 QEMUD_SAVE_VERSION)
             (u32 (strlen domXML + 1)) (u32 (if r then 1 else 0)) (u32 c)
             (repeat 0 15).
Proof. reflexivity. Qed.

Lemma save_header_complete_eq (domXML : bytes) (c : Z) (r : bool) :
  set_magic QEMUD_SAVE_MAGIC (save_header_partial domXML c r)
  = mkHeader QEMUD_SAVE_MAGIC (u32 QEMUD_SAVE_VERSION)
             (u32 (strlen domXML + 1)) (u32 (if r then 1 else 0)) (u32 c)
             (repeat 0 15).
Proof. reflexivity. Qed.

(** A file that starts with a written header reads back as that header. *)
Lemma header_of_written (be : bool) (m domXML : bytes) (c : Z) (r : bool)
      (f : file) :
  List.length m = 16%nat ->
  starts_with
    (encode_header be (set_magic m (save_header_partial domXML c r)))
    (f_data f) = true ->
  header_of be f = set_magic m (save_header_partial domXML c r).
Proof.
  intros Hm H. apply starts_with_split in H. destruct H as [rest H].
  unfold header_of. rewrite H.
  assert (Hs : set_magic m (save_header_partial domXML c r)
               = mkHeader m (u32 QEMUD_SAVE_VERSION)
                          (u32 (strlen domXML + 1))
                          (u32 (if r then 1 else 0)) (u32 c) (repeat 0 15)).
  { unfold set_magic. cbn [version xml_len was_running compressed unused
                           save_header_partial set_xml_len set_compressed
                           set_was_running set_version header_zero].
    rewrite firstn_all2 by (rewrite Hm; reflexivity). reflexivity. }
  rewrite Hs. apply decode_encode; try apply u32_range. exact Hm.
Qed.

Lemma starts_with_write_0 (b d : bytes) :
  starts_with b (write_at 0 b d) = true.
Proof.
  unfold write_at. rewrite firstn_O, Nat.sub_0_l. cbn [repeat app].
  apply starts_with_app.
Qed.

Lemma body_write_header (b d : bytes) :
  List.length b = sizeof_header ->
  skipn sizeof_header (write_at 0 b d) = skipn sizeof_header d.
Proof.
  intros Hb. unfold write_at. rewrite firstn_O, Nat.sub_0_l.
  cbn [repeat app Nat.add]. rewrite skipn_app, Hb, Nat.sub_diag, skipn_O.
  rewrite <- Hb at 1. rewrite skipn_all. reflexivity.
Qed.

Lemma opening_not_touch_up (c : extcall) :
  opening_call c = true -> is_touch_up c = false.
Proof. destruct c; intros H; try discriminate H; reflexivity. Qed.

Lemma save_memory_completion (env : environment) (be : bool) (BS : Z)
      (driver : qemud_driver) (path : string) (domXML : bytes)
      (compressed_ : Z) (was_running_ : bool) (flags : Z)
      (asyncJob_ : qemuDomainAsyncJob) (vm : virDomainObj)
      (fs : filesystem) :
  let s := qemuDomainSaveMemory env be BS driver path domXML compressed_
             was_running_ flags asyncJob_ (init_world vm fs) in
  let hdr := save_header_partial domXML compressed_ was_running_ in
  fst s = 0 ->
  exists b a : file,
    completion_step (fs path) (journal_of s) = Some (Some b, Some a)
    /\ file_of s path = Some a
    /\ header_of be b = hdr
    /\ header_of be a = set_magic QEMUD_SAVE_MAGIC hdr
    /\ body_of a = body_of b
    /\ f_reg a = f_reg b.
Proof.
  intros s hdr. subst s hdr.
  pose proof (save_header_length be QEMUD_SAVE_PARTIAL domXML compressed_
                was_running_ eq_refl) as Hl1.
  rewrite save_header_partial_magic in Hl1.
  pose proof (save_header_length be QEMUD_SAVE_MAGIC domXML compressed_
                was_running_ eq_refl) as Hl2.
  match goal with
  | |- context [qemuDomainSaveMemory ?e ?b ?bs ?d ?p ?x ?c ?r ?fl ?a ?w] =>
      pattern (qemuDomainSaveMemory e b bs d p x c r fl a w)
  end.
  apply wp_run.
  unfold qemuDomainSaveMemory, qemuDomainSaveMemory_cleanup,
    qemuDomainSaveHeader, VIR_FORCE_CLOSE.
  mgo2.
  all: cbn [fst]; intros Hret; try discriminate Hret; clear Hret.
  all: unfold journal_of, file_of; cbn [fst snd]; wsimpl; cbn [app].
  all: subst.
  all: match goal with
       | |- context [opened_file ?fl (?g ?p)] =>
           generalize (opened_file fl (g p)); intros d0
       end.
  all: unfold opened_file; change (has_flag O_WRONLY O_TRUNC) with false;
    cbn [andb option_map f_reg f_data completion_step j_call j_file];
    repeat match goal with
           | H : opening_call _ = true |- _ =>
               rewrite (opening_not_touch_up _ H); clear H
           end;
    cbn [is_touch_up].
  all: eexists; eexists; split; [reflexivity |]; split; [reflexivity |].
  all: apply Z.eqb_eq, Nat2Z.inj in Hl1; apply Z.eqb_eq, Nat2Z.inj in Hl2.
  all: unfold body_of; cbn [f_data f_reg].
  all: split; [| split; [| split; [| reflexivity]]].
  all: try (apply body_write_header; exact Hl2).
  all: first
         [ refine (header_of_written be QEMUD_SAVE_PARTIAL _ _ _ _ eq_refl _)
         | refine (header_of_written be QEMUD_SAVE_MAGIC _ _ _ _ eq_refl _) ];
    cbn [f_data]; rewrite ?save_header_partial_magic;
    repeat lazymatch goal with
           | |- starts_with ?b (write_at 0 ?b _) = true =>
               apply starts_with_write_0
           | |- starts_with _ (write_at _ _ _) = true =>
               apply starts_with_write_at; [| lia ]
           | |- starts_with _ (_ ++ _) = true => apply starts_with_more
           end.
Qed.

(** ** The job mask during a snapshot *)

Lemma opening_saving (pre : list event) :
  Forall opening pre -> Forall saving pre.
Proof.
  apply Forall_impl. intros [c rc] H. unfold opening, saving in *.
  cbn in *. destruct c; try discriminate H; reflexivity.
Qed.

Lemma opening_call_saving (c : extcall) (rc : Z) :
  opening_call c = true -> saving (Ev c rc).
Proof.
  intros H. unfold saving. cbn.
  destruct c; try discriminate H; reflexivity.
Qed.

(** [qemuDomainSaveMemory] seen from outside: it makes calls of its own
    kind only, and when it succeeds the last of them is
    [virFileWrapperFdFree]. *)
Lemma wp_qemuDomainSaveMemory (env : environment) (be : bool) (BS : Z)
      (driver : qemud_driver) (path : string) (domXML : bytes)
      (compressed_ : Z) (was_running_ : bool) (flags : Z)
      (asyncJob_ : qemuDomainAsyncJob) (Q : Z -> world -> Prop) (w : world) :
  (forall (ret_ : Z) (evs : list event) (w' : world),
      w_trace w' = w_trace w ++ evs ->
      Forall saving evs ->
      (0 <= ret_ ->
       exists evs' rc, evs = evs' ++ [Ev C_virFileWrapperFdFree rc]) ->
      Q ret_ w') ->
  wp (qemuDomainSaveMemory env be BS driver path domXML compressed_
        was_running_ flags asyncJob_) Q w.
Proof.
  intros H.
  unfold qemuDomainSaveMemory, qemuDomainSaveMemory_cleanup,
    qemuDomainSaveHeader, VIR_FORCE_CLOSE.
  mgo2.
  all: subst.
  all: eapply H;
    [ wsimpl; rewrite <- ?app_assoc; reflexivity
    | repeat first
        [ apply Forall_nil
        | apply opening_saving; assumption
        | apply Forall_app; split
        | apply Forall_cons;
          [ first [ reflexivity | apply opening_call_saving; assumption ] |] ]
    | intros Hret; first [ exfalso; lia
                         | rewrite ?app_assoc; eexists; eexists; reflexivity ] ].
Qed.

Ltac mstep_save :=
  lazymatch goal with
  | |- wp (qemuDomainSaveMemory _ _ _ _ _ _ _ _ _ _) _ _ =>
      let r := fresh "r" in
      let evs := fresh "evs" in
      let w' := fresh "w'" in
      let Hev := fresh "Hev" in
      let Hsv := fresh "Hsv" in
      let Hlast := fresh "Hlast" in
      apply wp_qemuDomainSaveMemory; intros r evs w' Hev Hsv Hlast;
      wsimpl_in Hev; cbn [app] in Hev; cbv beta
  end.

Ltac mgo3 := repeat first [mstep_save | mstep_open | mstep].







(** ** The save image on disk (claims C2 and C10) *)

Lemma decode_encode_exact (be : bool) (m domXML : bytes) (c : Z) (r : bool) :
  List.length m = 16%nat ->
  decode_header be
    (encode_header be (set_magic m (save_header_partial domXML c r)))
  = set_magic m (save_header_partial domXML c r).
Proof.
  intros Hm.
  pose proof (header_of_written be m domXML c r
                (mkFile true
                   (encode_header be
                      (set_magic m (save_header_partial domXML c r)) ++ []))
                Hm (starts_with_app _ _)) as H.
  unfold header_of in H. cbn [f_data] in H.
  rewrite app_nil_r in H.
  pose proof (save_header_length be m domXML c r Hm) as Hl.
  apply Z.eqb_eq, Nat2Z.inj in Hl.
  rewrite <- Hl, firstn_all in H. exact H.
Qed.

(** ** A save that is cut short (claim C2) *)

Lemma write_at_0 (b d : bytes) :
  write_at 0 b d = b ++ skipn (List.length b) d.
Proof.
  unfold write_at. rewrite firstn_O, Nat.sub_0_l. reflexivity.
Qed.

Lemma beginning_of_header_written (hp d0 : bytes) (k : nat) :
  (k < List.length hp)%nat ->
  beginning_of_header hp d0 (write_at 0 (firstn k hp) d0) = true.
Proof.
  intros Hk. unfold beginning_of_header. apply existsb_exists.
  exists k. split.
  - apply in_seq. lia.
  - rewrite write_at_0, length_firstn, Nat.min_l by lia.
    apply bytes_eqb_refl.
Qed.

Lemma beginning_of_header_opened (hp d0 : bytes) :
  (0 < List.length hp)%nat -> beginning_of_header hp d0 d0 = true.
Proof.
  intros Hk. unfold beginning_of_header. apply existsb_exists.
  exists 0%nat. split.
  - apply in_seq. lia.
  - rewrite firstn_O, skipn_O. apply bytes_eqb_refl.
Qed.

(** The open for writing always carries [O_TRUNC]. *)
Lemma save_open_truncates (d : Z) :
  has_flag (Z.lor (Z.lor (Z.lor O_WRONLY O_TRUNC) O_CREAT) d) O_TRUNC = true.
Proof.
  unfold has_flag. apply negb_true_iff, Z.eqb_neq. intros H.
  assert (Hb : Z.testbit (Z.land (Z.lor (Z.lor (Z.lor O_WRONLY O_TRUNC)
                                              O_CREAT) d) O_TRUNC) 9 = true).
  { rewrite Z.land_spec, Z.lor_spec. reflexivity. }
  rewrite H in Hb. discriminate Hb.
Qed.

Lemma opened_for_save (d : Z) (o : option file) :
  f_data (opened_file (Z.lor (Z.lor (Z.lor O_WRONLY O_TRUNC) O_CREAT) d) o)
  = found_at_open o.
Proof.
  unfold opened_file, found_at_open. rewrite save_open_truncates.
  destruct o as [f |]; [| reflexivity].
  destruct (f_reg f); reflexivity.
Qed.

Lemma file_eqb_refl (f : file) : file_eqb f f = true.
Proof.
  unfold file_eqb. rewrite Bool.eqb_reflx, bytes_eqb_refl. reflexivity.
Qed.

Lemma in_progress_same (hp : bytes) (f : file) :
  image_in_progress hp (Some f) (Some f) = true.
Proof.
  unfold image_in_progress. rewrite file_eqb_refl. apply orb_true_r.
Qed.

Lemma in_progress_opened (hp : bytes) (before : option file) (d : Z) :
  (0 < List.length hp)%nat ->
  image_in_progress hp before
    (Some (opened_file (Z.lor (Z.lor (Z.lor O_WRONLY O_TRUNC) O_CREAT) d)
             before)) = true.
Proof.
  intros H. unfold image_in_progress.
  rewrite opened_for_save, beginning_of_header_opened by exact H.
  rewrite orb_true_r. reflexivity.
Qed.

Lemma in_progress_begun (hp : bytes) (before : option file) (d : Z)
      (r : bool) (k : nat) :
  (k < List.length hp)%nat ->
  image_in_progress hp before
    (Some (mkFile r
             (write_at 0 (firstn k hp)
                (f_data
                   (opened_file
                      (Z.lor (Z.lor (Z.lor O_WRONLY O_TRUNC) O_CREAT) d)
                      before))))) = true.
Proof.
  intros H. unfold image_in_progress. cbn [f_data].
  rewrite opened_for_save, beginning_of_header_written by exact H.
  rewrite orb_true_r. reflexivity.
Qed.

Lemma in_progress_partial (hp : bytes) (before : option file) (f : file) :
  starts_with QEMUD_SAVE_PARTIAL (f_data f) = true ->
  image_in_progress hp before (Some f) = true.
Proof. intros H. unfold image_in_progress. rewrite H. reflexivity. Qed.

(** Before the header is touched up the file is in one of the states of
    an image in progress, whatever goes wrong. *)
Lemma save_memory_interrupted (env : environment) (be : bool) (BS : Z)
      (driver : qemud_driver) (path : string) (domXML : bytes)
      (compressed_ : Z) (was_running_ : bool) (flags : Z)
      (asyncJob_ : qemuDomainAsyncJob) (vm : virDomainObj)
      (fs : filesystem) :
  let s := qemuDomainSaveMemory env be BS driver path domXML compressed_
             was_running_ flags asyncJob_ (init_world vm fs) in
  let hdr := save_header_partial domXML compressed_ was_running_ in
  interrupted_in_progress (encode_header be hdr) (fs path) (journal_of s)
  = true.
Proof.
  intros s hdr. subst s hdr.
  pose proof (save_header_length be QEMUD_SAVE_PARTIAL domXML compressed_
                was_running_ eq_refl) as Hl1.
  rewrite save_header_partial_magic in Hl1.
  apply Z.eqb_eq, Nat2Z.inj in Hl1. unfold sizeof_header in Hl1.
  match goal with
  | |- context [qemuDomainSaveMemory ?e ?b ?bs ?d ?p ?x ?c ?r ?fl ?a ?w] =>
      pattern (qemuDomainSaveMemory e b bs d p x c r fl a w)
  end.
  apply wp_run.
  unfold qemuDomainSaveMemory, qemuDomainSaveMemory_cleanup,
    qemuDomainSaveHeader, VIR_FORCE_CLOSE.
  mgo2.
  all: unfold journal_of; cbn [fst snd]; wsimpl; cbn [app].
  all: try reflexivity.
  all: repeat match goal with
              | H : option_map _ _ = Some _ |- _ =>
                  progress cbn [option_map f_reg f_data] in H
              end.
  all: repeat match goal with
              | H : _ = C_qemuMigrationToFile _ _ _ _ _ _ |- _ => subst
              | H : Some _ = Some ?f |- _ => rewrite <- ?H; clear H
              | H : ?g ?p = Some ?f |- _ => is_var g; rewrite ?H
              end.
  all: cbn [interrupted_in_progress j_call j_file option_map f_reg f_data];
    repeat match goal with
           | H : opening_call ?c = true |- _ =>
               rewrite (opening_not_touch_up c H)
           end;
    cbn [is_touch_up].
  all: repeat match goal with
              | |- context [image_in_progress ?hp ?b ?F] =>
                  replace (image_in_progress hp b F) with true
                    by (symmetry;
                        first [ reflexivity
                              | apply in_progress_same
                              | apply in_progress_opened; lia
                              | apply in_progress_begun; lia
                              | apply in_progress_partial; cbn [f_data];
                                keeps_magic ])
              end.
  all: reflexivity.
Qed.

(** A save that returns 0 has gone through all of it, in order: the
    whole header with the partial magic, the memory image, the touch-up
    with the complete magic. *)
Lemma save_memory_completes (env : environment) (be : bool) (BS : Z)
      (driver : qemud_driver) (path : string) (domXML : bytes)
      (compressed_ : Z) (was_running_ : bool) (flags : Z)
      (asyncJob_ : qemuDomainAsyncJob) (vm : virDomainObj)
      (fs : filesystem) :
  let s := qemuDomainSaveMemory env be BS driver path domXML compressed_
             was_running_ flags asyncJob_ (init_world vm fs) in
  let hdr := save_header_partial domXML compressed_ was_running_ in
  fst s = 0 ->
  save_run (encode_header be hdr)
           (encode_header be (set_magic QEMUD_SAVE_MAGIC hdr))
           save_opening (journal_of s) = Some save_completed.
Proof.
  intros s hdr. subst s hdr.
  pose proof (save_header_length be QEMUD_SAVE_PARTIAL domXML compressed_
                was_running_ eq_refl) as Hl1.
  rewrite save_header_partial_magic in Hl1.
  pose proof (save_header_length be QEMUD_SAVE_MAGIC domXML compressed_
                was_running_ eq_refl) as Hl2.
  match goal with
  | |- context [qemuDomainSaveMemory ?e ?b ?bs ?d ?p ?x ?c ?r ?fl ?a ?w] =>
      pattern (qemuDomainSaveMemory e b bs d p x c r fl a w)
  end.
  apply wp_run.
  unfold qemuDomainSaveMemory, qemuDomainSaveMemory_cleanup,
    qemuDomainSaveHeader, VIR_FORCE_CLOSE.
  mgo2.
  all: cbn [fst]; intros Hret; try discriminate Hret; clear Hret.
  all: unfold journal_of; cbn [fst snd]; wsimpl; cbn [app].
  all: repeat match goal with
              | H : _ = C_qemuMigrationToFile _ _ _ _ _ _ |- _ => subst
              end.
  all: repeat progress
         (cbn [save_run];
          try match goal with
              | H : opening_call ?c = true
                |- context [save_step _ _ _ (Jn ?c _ _)] =>
                  rewrite (save_step_opening _ _ _ c _ _ H)
              end;
          try match goal with
              | |- context [save_step _ _ _ (Jn (?k _ _ _) _ _)] =>
                  cbn [save_step j_call j_rc j_file]
              | |- context [save_step _ _ _ (Jn (?k _ _ _ _ _ _) _ _)] =>
                  cbn [save_step j_call j_rc j_file]
              end;
          rewrite ?bytes_eqb_refl, ?Hl1, ?Hl2;
          try match goal with
              | |- context [absent_or_partial ?F] =>
                  replace (absent_or_partial F) with true
                    by (symmetry; keeps_magic)
              end;
          try match goal with
              | H : (?r <? 0) = false |- context [0 <=? ?r] =>
                  replace (0 <=? r) with true
                    by (symmetry; apply Z.leb_le; apply Z.ltb_ge; exact H)
              end).
  all: reflexivity.
Qed.

(** The open for writing always carries [O_CREAT]. *)
Lemma save_open_creates (d : Z) :
  has_flag (Z.lor (Z.lor (Z.lor O_WRONLY O_TRUNC) O_CREAT) d) O_CREAT = true.
Proof.
  unfold has_flag. apply negb_true_iff, Z.eqb_neq. intros H.
  assert (Hb : Z.testbit (Z.land (Z.lor (Z.lor (Z.lor O_WRONLY O_TRUNC)
                                              O_CREAT) d) O_CREAT) 6 = true).
  { rewrite Z.land_spec, Z.lor_spec. reflexivity. }
  rewrite H in Hb. discriminate Hb.
Qed.

(** A save that fails after it has reached the open ends by removing the
    file: when [unlink] does not refuse, nothing is left. *)
Lemma save_memory_failed_removes (env : environment) (be : bool) (BS : Z)
      (driver : qemud_driver) (path : string) (domXML : bytes)
      (compressed_ : Z) (was_running_ : bool) (flags : Z)
      (asyncJob_ : qemuDomainAsyncJob) (vm : virDomainObj)
      (fs : filesystem) :
  let s := qemuDomainSaveMemory env be BS driver path domXML compressed_
             was_running_ flags asyncJob_ (init_world vm fs) in
  fst s <> 0 -> 0 <= env_rc env (C_unlink path) ->
  journal_of s = [] \/ file_of s path = None.
Proof.
  intros s. subst s.
  match goal with
  | |- context [qemuDomainSaveMemory ?e ?b ?bs ?d ?p ?x ?c ?r ?fl ?a ?w] =>
      pattern (qemuDomainSaveMemory e b bs d p x c r fl a w)
  end.
  apply wp_run.
  unfold qemuDomainSaveMemory, qemuDomainSaveMemory_cleanup,
    qemuDomainSaveHeader, VIR_FORCE_CLOSE.
  mgo2.
  all: cbn [fst]; intros Hret Hun; try (exfalso; apply Hret; reflexivity).
  all: unfold journal_of, file_of; cbn [fst snd]; wsimpl; cbn [app].
  all: try (left; reflexivity).
  all: try (right; reflexivity).
  all: try (exfalso; zbool; lia).
  all: repeat match goal with
              | H : context [has_flag (Z.lor _ _) O_CREAT] |- _ =>
                  rewrite save_open_creates in H; cbn [negb andb Z.eqb] in H
              end; try discriminate.
Qed.

(** C2 (amended).  The two magic strings have the same length and differ.
    In every run of [qemuDomainSaveMemory] the first thing written to the
    file is the header with the partial magic, [QEMUD_SAVE_VERSION], the
    length of the XML text with its terminator, [was_running] and the
    compression format, and it reads back as such.  From the moment that
    header is whole in the file until the header is touched up, after
    every call that names the file, the file is absent or starts with the
    partial magic; the touch-up writes the same header with the complete
    magic, and it is made only after [qemuMigrationToFile] has returned
    without error ([save_discipline]).  At every point before the
    touch-up, whatever goes wrong, the file is absent, or starts with the
    partial magic, or holds only a beginning of the partial header
    (possibly none of it) over what the open left in it, or is the file
    that was there before the save, as it was
    ([interrupted_in_progress]).  A run that returns 0 has written the
    whole partial header, streamed the memory image and touched the
    header up, in that order.  A run that fails after it has reached the
    open ends by unlinking the file, so that nothing is left unless
    [unlink] refuses.  The journal used to check this covers the run to
    its end: the file the run leaves behind is the one of the last journal
    entry. *)
Theorem save_image_partial_until_complete
        (env : environment) (be : bool) (BS : Z) (driver : qemud_driver)
        (path : string) (domXML : bytes) (compressed_ : Z)
        (was_running_ : bool) (flags : Z) (asyncJob_ : qemuDomainAsyncJob)
        (vm : virDomainObj) (fs : filesystem) :
  let s := qemuDomainSaveMemory env be BS driver path domXML compressed_
             was_running_ flags asyncJob_ (init_world vm fs) in
  let hdr := save_header_partial domXML compressed_ was_running_ in
  let hp := encode_header be hdr in
  let hc := encode_header be (set_magic QEMUD_SAVE_MAGIC hdr) in
  (List.length QEMUD_SAVE_PARTIAL = List.length QEMUD_SAVE_MAGIC
   /\ QEMUD_SAVE_PARTIAL <> QEMUD_SAVE_MAGIC)
  /\ (magic hdr = QEMUD_SAVE_PARTIAL
      /\ version hdr = QEMUD_SAVE_VERSION
      /\ xml_len hdr = u32 (strlen domXML + 1)
      /\ was_running hdr = (if was_running_ then 1 else 0)
      /\ compressed hdr = u32 compressed_
      /\ decode_header be hp = hdr)
  /\ save_discipline hp hc (journal_of s) = true
  /\ interrupted_in_progress hp (fs path) (journal_of s) = true
  /\ (fst s = 0 ->
      save_run hp hc save_opening (journal_of s) = Some save_completed)
  /\ (fst s <> 0 -> 0 <= env_rc env (C_unlink path) ->
      journal_of s = [] \/ file_of s path = None)
  /\ file_of s path = final_file (fs path) (journal_of s).
Proof.
  intros s hdr hp hc. split; [| split].
  - split; [reflexivity | discriminate].
  - subst hp hdr. repeat split.
    + destruct was_running_; reflexivity.
    + exact (decode_encode_exact be QEMUD_SAVE_PARTIAL domXML compressed_
               was_running_ eq_refl).
  - destruct (save_memory_discipline env be BS driver path domXML
                compressed_ was_running_ flags asyncJob_ vm fs)
      as [Hd Hf].
    split; [exact Hd |].
    split.
    { exact (save_memory_interrupted env be BS driver path domXML
               compressed_ was_running_ flags asyncJob_ vm fs). }
    split.
    { exact (save_memory_completes env be BS driver path domXML
               compressed_ was_running_ flags asyncJob_ vm fs). }
    split; [| exact Hf].
    exact (save_memory_failed_removes env be BS driver path domXML
             compressed_ was_running_ flags asyncJob_ vm fs).
Qed.

(** The theorem at a run in which every call succeeds: the save returns 0
    and has gone through all its phases. *)
Lemma save_image_partial_until_complete_witness :
  let s := qemuDomainSaveMemory env_success false sample_bs sample_driver
             "/save/guest.save" (bytes_of_string "<domain/>") 0 true 0
             QEMU_ASYNC_JOB_SAVE (init_world sample_vm no_files) in
  let hdr := save_header_partial (bytes_of_string "<domain/>") 0 true in
  fst s = 0
  /\ save_run (encode_header false hdr)
              (encode_header false (set_magic QEMUD_SAVE_MAGIC hdr))
              save_opening (journal_of s) = Some save_completed
  /\ interrupted_in_progress (encode_header false hdr) None (journal_of s)
     = true.
Proof.
  cbv zeta.
  destruct (save_image_partial_until_complete env_success false sample_bs
              sample_driver "/save/guest.save" (bytes_of_string "<domain/>")
              0 true 0 QEMU_ASYNC_JOB_SAVE sample_vm no_files)
    as [_ [_ [_ [Hi [Hc _]]]]].
  split; [vm_compute; reflexivity |].
  split; [apply Hc; vm_compute; reflexivity | exact Hi].
Defined.

(** The specification has an interrupted file absent or with the partial
    magic.  When the wrapper for the descriptor cannot be set up, the save
    fails before anything is written; when the file then cannot be removed
    either, the empty file the open made stays behind: it is there and
    does not start with the partial magic. *)
Lemma save_cut_short_counterexample :
  let s := qemuDomainSaveMemory env_save_cut_short false sample_bs
             sample_driver "/save/guest.save" (bytes_of_string "<domain/>")
             0 true 0 QEMU_ASYNC_JOB_SAVE (init_world sample_vm no_files) in
  fst s = -1
  /\ existsb (fun e => is_touch_up (j_call e)) (journal_of s) = false
  /\ existsb (fun e => is_MigrationToFile (j_call e)) (journal_of s) = false
  /\ file_of s "/save/guest.save" = Some (mkFile true [])
  /\ absent_or_partial (file_of s "/save/guest.save") = false.
Proof. vm_compute. repeat split; reflexivity. Qed.

(** A complete run: the header goes in with the partial magic, the memory
    image follows, and the header is touched up at the end. *)
Example save_image_complete_run :
  let s := qemuDomainSaveMemory env_success false sample_bs sample_driver
             "/save/guest.save" (bytes_of_string "<domain/>") 0 true 0
             QEMU_ASYNC_JOB_SAVE (init_world sample_vm no_files) in
  let hdr := save_header_partial (bytes_of_string "<domain/>") 0 true in
  fst s = 0
  /\ save_run (encode_header false hdr)
              (encode_header false (set_magic QEMUD_SAVE_MAGIC hdr))
              save_opening (journal_of s) = Some save_completed
  /\ map absent_or_partial (map j_file (journal_of s))
     = [false; true; true; true; true; false].
Proof. vm_compute. repeat split; reflexivity. Qed.

(** A journal in which the header is touched up before the memory image is
    in the file is rejected. *)
Example save_discipline_rejects_early_touch_up :
  let hp := encode_header false (save_header_partial [] 0 true) in
  let hc := encode_header false
              (set_magic QEMUD_SAVE_MAGIC (save_header_partial [] 0 true)) in
  save_discipline hp hc
    [Jn (C_safewrite 0 3 hp) 92 (Some (mkFile true hp));
     Jn (C_safewrite 2 3 hc) 92 (Some (mkFile true hc))] = false.
Proof. vm_compute. reflexivity. Qed.

(** C10.  When [qemuDomainSaveMemory] returns 0, the write that touches up
    the header changes nothing but the magic: just before it the file
    starts with the header that was written first, just after it the file
    starts with the same header carrying the complete magic, so that
    version, XML length, [was_running], compression format and the unused
    words are the same, and everything behind the header, the XML text
    and the memory image, is as it was.  The file is left in that state. *)
Theorem completion_changes_only_the_magic
        (env : environment) (be : bool) (BS : Z) (driver : qemud_driver)
        (path : string) (domXML : bytes) (compressed_ : Z)
        (was_running_ : bool) (flags : Z) (asyncJob_ : qemuDomainAsyncJob)
        (vm : virDomainObj) (fs : filesystem) :
  let s := qemuDomainSaveMemory env be BS driver path domXML compressed_
             was_running_ flags asyncJob_ (init_world vm fs) in
  let hdr := save_header_partial domXML compressed_ was_running_ in
  fst s = 0 ->
  exists b a : file,
    completion_step (fs path) (journal_of s) = Some (Some b, Some a)
    /\ file_of s path = Some a
    /\ header_of be b = hdr
    /\ header_of be a = set_magic QEMUD_SAVE_MAGIC (header_of be b)
    /\ (version (header_of be a) = version (header_of be b)
        /\ xml_len (header_of be a) = xml_len (header_of be b)
        /\ was_running (header_of be a) = was_running (header_of be b)
        /\ compressed (header_of be a) = compressed (header_of be b)
        /\ unused (header_of be a) = unused (header_of be b))
    /\ body_of a = body_of b
    /\ f_reg a = f_reg b.
Proof.
  intros s hdr Hret.
  destruct (save_memory_completion env be BS driver path domXML compressed_
              was_running_ flags asyncJob_ vm fs Hret)
    as [b [a [Hstep [Hfile [Hb [Ha [Hbody Hreg]]]]]]].
  exists b, a. rewrite Ha, Hb.
  repeat split; assumption.
Qed.

Lemma completion_changes_only_the_magic_witness :
  let s := qemuDomainSaveMemory env_success false sample_bs sample_driver
             "/save/guest.save" (bytes_of_string "<domain/>") 0 true 0
             QEMU_ASYNC_JOB_SAVE (init_world sample_vm no_files) in
  fst s = 0
  /\ exists b a : file,
       completion_step None (journal_of s) = Some (Some b, Some a)
       /\ file_of s "/save/guest.save" = Some a
       /\ magic (header_of false b) = QEMUD_SAVE_PARTIAL
       /\ magic (header_of false a) = QEMUD_SAVE_MAGIC
       /\ body_of a = body_of b.
Proof.
  cbv zeta. split; [vm_compute; reflexivity |].
  destruct (completion_changes_only_the_magic env_success false sample_bs
              sample_driver "/save/guest.save" (bytes_of_string "<domain/>")
              0 true 0 QEMU_ASYNC_JOB_SAVE sample_vm no_files)
    as [b [a [Hstep [Hfile [Hb [Ha [_ [Hbody _]]]]]]]].
  - vm_compute. reflexivity.
  - exists b, a. rewrite Ha, Hb.
    split; [exact Hstep |]. split; [exact Hfile |].
    split; [reflexivity |]. split; [reflexivity | exact Hbody].
Defined.

(** ** The job mask during a snapshot (claim C5) *)

Lemma saving_existsb_calls (p : extcall -> bool) (evs : list event) :
  (forall c, saving_call c = true -> p c = false) ->
  Forall saving evs -> existsb p (map ev_call evs) = false.
Proof.
  intros Hp H. induction H as [| e l He Hl IH]; cbn.
  - reflexivity.
  - rewrite (Hp _ He), IH. reflexivity.
Qed.








(** A complete run: the mask is widened, the memory image is streamed, the
    mask is set back, the disks are snapshotted. *)
Example snapshot_mask_complete_run :
  let s := qemuDomainSnapshotCreateActiveExternal env_success false sample_bs
             sample_JOB_MASK sample_DEFAULT_JOB_MASK sample_driver true
             "/save/guest.mem" 0 (init_world sample_vm no_files) in
  fst s = (0, vm_obj)
  /\ filter (fun c => is_SetAsyncJobMask 55 c || is_SetAsyncJobMask 19 c
                      || is_MigrationToFile c
                      || is_SnapshotCreateDiskActive c)
            (calls_of s)
     = [C_qemuDomainObjSetAsyncJobMask 55;
        C_qemuMigrationToFile 3 4096 "/save/guest.mem" None false
                              QEMU_ASYNC_JOB_SNAPSHOT;
        C_qemuDomainObjSetAsyncJobMask 19;
        C_qemuDomainSnapshotCreateDiskActive 0 QEMU_ASYNC_JOB_SNAPSHOT].
Proof. vm_compute. split; reflexivity. Qed.

(** A run in which the disks are snapshotted under the wide mask is
    rejected. *)
Example mask_discipline_rejects_late_restore :
  mask_discipline 55 19
    [C_qemuDomainObjSetAsyncJobMask 55; C_virFileWrapperFdFree;
     C_qemuDomainSnapshotCreateDiskActive 0 QEMU_ASYNC_JOB_SNAPSHOT] = false.
Proof. reflexivity. Qed.

(** ** The theorems at sample inputs *)

Lemma qemuDomainGetJobInfo_reports_witness :
  let r := qemuDomainGetJobInfo env_success jobinfo_zero
             (init_world sample_busy_vm no_files) in
  fst r = (0, set_timeElapsed 4000 jobinfo_zero)
  /\ timeElapsed (snd (fst r)) = 5000 - 1000.
Proof.
  destruct (qemuDomainGetJobInfo_reports env_success sample_busy_vm no_files
              jobinfo_zero) as [H _].
  - simpl. lia.
  - simpl. lia.
  - destruct H as [H1 H2].
    + reflexivity.
    + simpl. discriminate.
    + reflexivity.
    + split; [exact H1 |]. apply H2. vm_compute. split; discriminate.
Defined.

Lemma qemuDomainGetControlInfo_reports_witness :
  let r := qemuDomainGetControlInfo env_success
             (mkControlInfo VIR_DOMAIN_CONTROL_OK 0 0) 0
             (init_world sample_busy_vm no_files) in
  fst r = (0, mkControlInfo VIR_DOMAIN_CONTROL_OCCUPIED 0 3000)
  /\ ci_stateTime (snd (fst r)) = 5000 - 2000.
Proof.
  destruct (qemuDomainGetControlInfo_reports env_success sample_busy_vm
              no_files (mkControlInfo VIR_DOMAIN_CONTROL_OK 0 0))
    as [_ [H _]].
  - simpl. lia.
  - reflexivity.
  - simpl. lia.
  - destruct H as [H1 H2].
    + reflexivity.
    + simpl. discriminate.
    + simpl. lia.
    + split; [exact H1 |]. apply H2. vm_compute. split; discriminate.
Defined.

Lemma qemuDomainAbortJob_cases_witness :
  let r := qemuDomainAbortJob env_success
             (init_world sample_busy_vm no_files) in
  fst r = 0
  /\ calls_of r =
     [C_qemuDriverLock; C_virDomainFindByUUID; C_qemuDriverUnlock;
      C_qemuDomainObjBeginJob QEMU_JOB_ABORT;
      C_VIR_DEBUG "Cancelling job at client request";
      C_qemuDomainObjAbortAsyncJob; C_qemuDomainObjEnterMonitor;
      C_qemuMonitorMigrateCancel; C_qemuDomainObjExitMonitor;
      C_qemuDomainObjEndJob; C_virDomainObjUnlock].
Proof.
  destruct (qemuDomainAbortJob_cases env_success sample_busy_vm no_files)
    as [_ [_ [_ H]]].
  - simpl. lia.
  - simpl. lia.
  - apply H.
    + reflexivity.
    + reflexivity.
    + simpl. discriminate.
    + simpl. discriminate.
Defined.

Lemma reference_dropped_after_end_job_witness :
  qemudDomainSuspend_endjob env_last_reference 0 vm_obj None
    (init_world sample_vm no_files)
  = qemudDomainSuspend_cleanup env_last_reference 0 vm_NULL None
      (snd (extern_vm env_last_reference C_qemuDomainObjEndJob
              (init_world sample_vm no_files)))
  /\ released_untouched
       (trace_of (qemuDomainDestroyFlags env_last_reference 0
                    (init_world sample_vm no_files))) = true
  /\ removed_when_kept
       (trace_of (qemuDomainDestroyFlags env_success 0
                    (init_world sample_transient_vm no_files))) = true.
Proof.
  destruct (reference_dropped_after_end_job env_last_reference sample_vm
              no_files 0) as [H [_ [Hd _]]].
  destruct (reference_dropped_after_end_job env_success sample_transient_vm
              no_files 0) as [_ [_ [_ [_ Hr]]]].
  split; [| split].
  - apply (H eq_refl 0 None (init_world sample_vm no_files)).
  - exact Hd.
  - apply Hr.
    + vm_compute. do 5 right. left. reflexivity.
    + reflexivity.
Defined.

Lemma migration_job_held_from_begin_to_confirm_witness :
  let w0 := init_world sample_vm no_files in
  let b := qemuDomainMigrateBegin3 env_success 1023
             VIR_MIGRATE_CHANGE_PROTECTION w0 in
  let c := qemuDomainMigrateConfirm3 env_success 1023
             VIR_MIGRATE_CHANGE_PROTECTION 0 w0 in
  existsb extcall_is_JobFinish (calls_of b) = false
  /\ fst b = Some (env_data env_success C_qemuMigrationBegin)
  /\ fst c = 0
  /\ existsb extcall_is_JobFinish (calls_of c) = true.
Proof.
  destruct (migration_job_held_from_begin_to_confirm env_success sample_vm
              no_files 1023 VIR_MIGRATE_CHANGE_PROTECTION 0)
    as [_ [_ [Hb [_ Hc]]]].
  - reflexivity.
  - reflexivity.
  - simpl. lia.
  - destruct Hb as [Hok Hfin].
    + simpl. lia.
    + destruct Hok as [_ Hxml]; [reflexivity |].
      destruct Hc as [Hret [rest [Hcalls _]]].
      * simpl. lia.
      * split; [exact Hfin |]. split; [apply Hxml; simpl; lia |].
        split; [exact Hret |]. rewrite Hcalls. reflexivity.
Defined.

(** * Further properties of the driver *)

(** ** Requests that cannot be served *)

(** X1.  When the domain list has no domain with the uuid asked for,
    [qemudDomainSuspend], [qemuDomainDestroyFlags], [qemuDomainAbortJob],
    [qemuDomainGetJobInfo], [qemuDomainGetControlInfo],
    [qemuDomainMigrateBegin3] and [qemuDomainMigrateConfirm3] fail, report
    [VIR_ERR_NO_DOMAIN] and nothing else, hand the domain object to no
    call (so no job is begun and nothing is unlocked) and leave the domain
    object as it was. *)
Theorem unknown_uuid_is_refused
        (env : environment) (vm : virDomainObj) (fs : filesystem)
        (QEMU_MIGRATION_FLAGS dflags mflags cancelled : Z)
        (ji : virDomainJobInfo) (ci : virDomainControlInfo) :
  env_rc env C_virDomainFindByUUID = 0 ->
  unsupported_flags dflags VIR_DOMAIN_DESTROY_GRACEFUL = false ->
  unsupported_flags mflags QEMU_MIGRATION_FLAGS = false ->
  let w0 := init_world vm fs in
  let refused {A : Type} (failed : A -> Prop) (r : A * world) :=
    failed (fst r)
    /\ reported_errors (calls_of r) = [VIR_ERR_NO_DOMAIN]
    /\ untouched (trace_of r) = true
    /\ w_vm (snd r) = vm in
  refused (fun z => z = -1) (qemudDomainSuspend env w0)
  /\ refused (fun z => z = -1) (qemuDomainDestroyFlags env dflags w0)
  /\ refused (fun z => z = -1) (qemuDomainAbortJob env w0)
  /\ refused (fun p => p = (-1, ji)) (qemuDomainGetJobInfo env ji w0)
  /\ refused (fun p => p = (-1, ci)) (qemuDomainGetControlInfo env ci 0 w0)
  /\ refused (fun x => x = None)
             (qemuDomainMigrateBegin3 env QEMU_MIGRATION_FLAGS mflags w0)
  /\ refused (fun z => z = -1)
             (qemuDomainMigrateConfirm3 env QEMU_MIGRATION_FLAGS mflags
                                        cancelled w0).
Proof.
  intros Hnone Hd Hm w0 refused. subst refused w0.
  assert (Ef : (env_rc env C_virDomainFindByUUID =? 0) = true)
    by (apply Z.eqb_eq; exact Hnone).
  unfold qemudDomainSuspend, qemudDomainSuspend_cleanup,
    qemuDomainDestroyFlags, qemuDomainDestroyFlags_cleanup,
    qemuDomainAbortJob, qemuDomainAbortJob_cleanup,
    qemuDomainGetJobInfo, qemuDomainGetControlInfo,
    qemuDomainMigrateBegin3, qemuDomainMigrateBegin3_cleanup,
    qemuDomainMigrateConfirm3, qemuDomainMigrateConfirm3_cleanup.
  rewrite Hd, Hm. munfold. cbn. rewrite Ef. cbn.
  repeat split.
Qed.

Lemma unknown_uuid_is_refused_witness :
  let env := env_with (fun c => match c with
                                | C_virDomainFindByUUID => true
                                | _ => false
                                end) 0 env_success in
  let r := qemudDomainSuspend env (init_world sample_vm no_files) in
  fst r = -1 /\ untouched (trace_of r) = true.
Proof.
  destruct (unknown_uuid_is_refused
              (env_with (fun c => match c with
                                  | C_virDomainFindByUUID => true
                                  | _ => false
                                  end) 0 env_success)
              sample_vm no_files 1023 0 0 0 jobinfo_zero
              (mkControlInfo VIR_DOMAIN_CONTROL_OK 0 0))
    as [[H1 [_ [H2 _]]] _].
  - reflexivity.
  - reflexivity.
  - reflexivity.
  - split; [exact H1 | exact H2].
Defined.

(** ** Holding the synchronous job *)

(** X2.  [qemudDomainSuspend], [qemuDomainDestroyFlags] and
    [qemuDomainAbortJob] acquire their job at most once, end it exactly
    when they have acquired it, stop or resume the CPUs, stop the
    emulator and use the monitor only while they hold it, and never
    return holding it.  [qemuProcessKill] is the one call to the emulator
    that is made without the job: [qemuDomainDestroyFlags] makes it at
    most once and only before it asks for the job, never asks for the job
    without having made it, and makes it whether or not the job is then
    granted; [qemudDomainSuspend] and [qemuDomainAbortJob] never make
    it. *)
Theorem synchronous_job_is_released
        (env : environment) (vm : virDomainObj) (fs : filesystem)
        (flags : Z) :
  let w0 := init_world vm fs in
  job_discipline false (trace_of (qemudDomainSuspend env w0)) = true
  /\ job_discipline false (trace_of (qemuDomainDestroyFlags env flags w0))
     = true
  /\ job_discipline false (trace_of (qemuDomainAbortJob env w0)) = true
  /\ kill_precedes_job false false
       (trace_of (qemuDomainDestroyFlags env flags w0)) = true
  /\ job_follows_kill false
       (trace_of (qemuDomainDestroyFlags env flags w0)) = true
  /\ existsb is_ProcessKill (calls_of (qemudDomainSuspend env w0)) = false
  /\ existsb is_ProcessKill (calls_of (qemuDomainAbortJob env w0)) = false.
Proof.
  intros w0. subst w0. repeat split.
  - unfold qemudDomainSuspend, qemudDomainSuspend_endjob,
      qemudDomainSuspend_cleanup. munfold. mrun; mdone.
  - unfold qemuDomainDestroyFlags, qemuDomainDestroyFlags_endjob,
      qemuDomainDestroyFlags_cleanup, set_vm_beingDestroyed. munfold.
    mrun; mdone.
  - unfold qemuDomainAbortJob, qemuDomainAbortJob_endjob,
      qemuDomainAbortJob_cleanup. munfold. mrun; mdone.
  - unfold qemuDomainDestroyFlags, qemuDomainDestroyFlags_endjob,
      qemuDomainDestroyFlags_cleanup, set_vm_beingDestroyed. munfold.
    mrun; mdone.
  - unfold qemuDomainDestroyFlags, qemuDomainDestroyFlags_endjob,
      qemuDomainDestroyFlags_cleanup, set_vm_beingDestroyed. munfold.
    mrun; mdone.
  - unfold qemudDomainSuspend, qemudDomainSuspend_endjob,
      qemudDomainSuspend_cleanup. munfold. mrun; mdone.
  - unfold qemuDomainAbortJob, qemuDomainAbortJob_endjob,
      qemuDomainAbortJob_cleanup. munfold. mrun; mdone.
Qed.

(** A run of [qemuDomainDestroyFlags] in which the job is refused: the
    process has been signalled all the same. *)
Example destroy_kills_without_job :
  let env := env_with asks_for_job (-1) env_success in
  let r := qemuDomainDestroyFlags env 0 (init_world sample_vm no_files) in
  fst r = -1
  /\ filter (fun c => is_ProcessKill c || asks_for_job c || needs_job c
                      || is_EndJob c)
            (calls_of r)
     = [C_qemuProcessKill VIR_QEMU_PROCESS_KILL_FORCE;
        C_qemuDomainObjBeginJobWithDriver QEMU_JOB_DESTROY].
Proof. vm_compute. split; reflexivity. Qed.

(** The discipline is not met by a run that returns with the job held. *)
Example job_discipline_rejects_leak :
  job_discipline false
    [Ev (C_qemuDomainObjBeginJob QEMU_JOB_MODIFY) 0;
     Ev C_virDomainObjUnlock 0] = false.
Proof. reflexivity. Qed.

(** ** Suspending a domain *)

Ltac in_calls H :=
  cbn in H;
  repeat match type of H with
         | _ \/ _ => destruct H as [H | H]
         | False => contradiction
         end;
  try discriminate H.

(** X3.  [qemudDomainSuspend] pauses the CPUs outside any async job
    ([QEMU_ASYNC_JOB_NONE]) and takes the reason from the async job that
    is active once it holds its own job: [VIR_DOMAIN_PAUSED_MIGRATION]
    during an outgoing migration, [VIR_DOMAIN_PAUSED_SNAPSHOT] during a
    snapshot, [VIR_DOMAIN_PAUSED_USER] otherwise.  The only event it
    creates is a suspended event, with detail "migrated" during an
    outgoing migration and "paused" otherwise; during a snapshot it
    creates none. *)
Theorem suspend_reason_follows_async_job
        (env : environment) (vm : virDomainObj) (fs : filesystem) :
  let r := qemudDomainSuspend env (init_world vm fs) in
  let v := env_vm env (C_qemuDomainObjBeginJobWithDriver QEMU_JOB_SUSPEND)
                  vm in
  let aj := asyncJob (job (privateData v)) in
  (forall reason a,
      In (C_qemuProcessStopCPUs reason a) (calls_of r) ->
      a = QEMU_ASYNC_JOB_NONE
      /\ reason = match aj with
                  | QEMU_ASYNC_JOB_MIGRATION_OUT => VIR_DOMAIN_PAUSED_MIGRATION
                  | QEMU_ASYNC_JOB_SNAPSHOT => VIR_DOMAIN_PAUSED_SNAPSHOT
                  | _ => VIR_DOMAIN_PAUSED_USER
                  end)
  /\ (forall t d,
         In (C_virDomainEventNewFromObj t d) (calls_of r) ->
         t = VIR_DOMAIN_EVENT_SUSPENDED
         /\ aj <> QEMU_ASYNC_JOB_SNAPSHOT
         /\ d = match aj with
                | QEMU_ASYNC_JOB_MIGRATION_OUT =>
                    VIR_DOMAIN_EVENT_SUSPENDED_MIGRATED
                | _ => VIR_DOMAIN_EVENT_SUSPENDED_PAUSED
                end).
Proof.
  intros r v aj. subst r aj v.
  unfold qemudDomainSuspend, qemudDomainSuspend_endjob,
    qemudDomainSuspend_cleanup. munfold.
  split.
  - intros reason a.
    mrun; cbn; intros Hin; in_calls Hin; injection Hin as <- <-;
      repeat match goal with
             | H : asyncJob_eqb _ _ = _ |- _ => revert H
             end;
      destruct (asyncJob _); cbn; intros; try discriminate;
      split; reflexivity.
  - intros t d.
    mrun; cbn; intros Hin; in_calls Hin; injection Hin as <- <-;
      repeat match goal with
             | H : asyncJob_eqb _ _ = _ |- _ => revert H
             end;
      destruct (asyncJob _); cbn; intros; try discriminate;
      repeat split; discriminate.
Qed.

Lemma suspend_reason_follows_async_job_witness :
  let r := qemudDomainSuspend env_success
             (init_world sample_migrating_vm no_files) in
  In (C_qemuProcessStopCPUs VIR_DOMAIN_PAUSED_MIGRATION QEMU_ASYNC_JOB_NONE)
     (calls_of r)
  /\ QEMU_ASYNC_JOB_NONE = QEMU_ASYNC_JOB_NONE
  /\ VIR_DOMAIN_PAUSED_MIGRATION = VIR_DOMAIN_PAUSED_MIGRATION.
Proof.
  intros r.
  assert (Hin : In (C_qemuProcessStopCPUs VIR_DOMAIN_PAUSED_MIGRATION
                      QEMU_ASYNC_JOB_NONE) (calls_of r))
    by (vm_compute; tauto).
  split; [exact Hin |].
  exact (proj1 (suspend_reason_follows_async_job env_success
                  sample_migrating_vm no_files) _ _ Hin).
Defined.

(** ** Holding the asynchronous job *)

Lemma async_run_app (held : bool) (l1 l2 : list event) :
  async_run held (l1 ++ l2)
  = match async_run held l1 with
    | Some h => async_run h l2
    | None => None
    end.
Proof.
  revert held. induction l1 as [| e l1 IH]; intros held; [reflexivity |].
  cbn [app async_run]. destruct (async_step held e); [apply IH |].
  reflexivity.
Qed.

Lemma async_run_saving (evs : list event) :
  Forall saving evs -> async_run true evs = Some true.
Proof.
  intros H. induction H as [| [c rc] l He Hl IH]; [reflexivity |].
  cbn [async_run]. unfold saving in He. cbn [ev_call] in He.
  replace (async_step true (Ev c rc)) with (Some true); [exact IH |].
  destruct c; try discriminate He; reflexivity.
Qed.

Lemma resume_failed_app (l1 l2 : list event) :
  resume_failed (l1 ++ l2) = resume_failed l1 || resume_failed l2.
Proof. apply existsb_app. Qed.

Lemma resume_failed_saving (evs : list event) :
  Forall saving evs -> resume_failed evs = false.
Proof.
  intros H. induction H as [| [c rc] l He Hl IH]; [reflexivity |].
  unfold resume_failed in *. cbn [existsb ev_call ev_rc].
  rewrite IH. unfold saving in He. cbn [ev_call] in He.
  destruct c; try discriminate He; reflexivity.
Qed.

(** X4.  [qemuDomainSnapshotCreateActiveExternal], with or without a
    memory image, acquires the snapshot job at most once, touches the
    guest (CPUs, guest agent, disks, memory stream, job mask) only while
    it holds the job, never ends a job it does not hold, and returns with
    the job ended on every path but one: when resuming the CPUs at label
    [endjob] fails it returns -1 at once, with the job still held. *)
Theorem snapshot_job_is_released
        (env : environment) (be : bool) (BS : Z)
        (JOB_MASK : qemuDomainJob -> Z) (DEFAULT_JOB_MASK : Z)
        (driver : qemud_driver) (memory : bool) (file_ : string)
        (flags : Z) (vm : virDomainObj) (fs : filesystem) :
  let s := qemuDomainSnapshotCreateActiveExternal env be BS JOB_MASK
             DEFAULT_JOB_MASK driver memory file_ flags (init_world vm fs) in
  async_run false (trace_of s) = Some (resume_failed (trace_of s))
  /\ (resume_failed (trace_of s) = true -> fst s = (-1, vm_obj)).
Proof.
  intros s. subst s.
  match goal with
  | |- context [qemuDomainSnapshotCreateActiveExternal ?e ?b ?bs ?jm ?dm ?d ?m
                  ?fi ?fl ?w] =>
      pattern (qemuDomainSnapshotCreateActiveExternal e b bs jm dm d m fi fl w)
  end.
  apply wp_run.
  unfold qemuDomainSnapshotCreateActiveExternal,
    qemuDomainSnapshotCreateActiveExternal_take,
    qemuDomainSnapshotCreateActiveExternal_endjob,
    virDomainEventNewFromObj, queue_if_set.
  mgo3.
  all: unfold trace_of; cbn [fst snd]; wsimpl.
  all: try match goal with
           | H : w_trace _ = _ |- _ => rewrite H
           end.
  all: cbn [app]; rewrite <- ?app_assoc; cbn [app].
  all: try match goal with
           | Hsv : Forall saving _ |- _ =>
               let Hrf := fresh "Hrf" in
               let Har := fresh "Har" in
               pose proof (resume_failed_saving _ Hsv) as Hrf;
               pose proof (async_run_saving _ Hsv) as Har;
               unfold resume_failed in Hrf
           end.
  all: unfold resume_failed.
  all: repeat progress
         (cbn [async_run]; unfold async_step, begins_async;
          cbn [is_EndAsyncJob uses_guest ev_call ev_rc existsb orb];
          rewrite ?existsb_app, ?async_run_app;
          repeat match goal with
                 | H : existsb _ ?l = false |- context [existsb _ ?l] =>
                     rewrite H
                 | H : async_run true ?l = _ |- context [async_run true ?l] =>
                     rewrite H
                 | H : (?a <? 0) = _ |- context [?a <? 0] => rewrite H
                 end;
          try match goal with
              | |- context [0 <=? ?r] =>
                  destruct (0 <=? r) eqn:?; try (exfalso; zbool; lia)
              end).
  all: cbn [orb]; (split; [reflexivity | intros Hf; try discriminate Hf;
                                          reflexivity]).
Qed.

(** ** Migration without change protection *)

(** X5.  Without [VIR_MIGRATE_CHANGE_PROTECTION],
    [qemuDomainMigrateBegin3] works under the synchronous job
    [QEMU_JOB_MODIFY] and ends it before it returns on every path; it
    never starts the migration job, never registers the close callback,
    and the XML it returns, if any, is the one [qemuMigrationBegin]
    produced. *)
Theorem begin3_without_protection_holds_no_job
        (env : environment) (vm : virDomainObj) (fs : filesystem)
        (QEMU_MIGRATION_FLAGS flags : Z) :
  unsupported_flags flags QEMU_MIGRATION_FLAGS = false ->
  has_flag flags VIR_MIGRATE_CHANGE_PROTECTION = false ->
  let b := qemuDomainMigrateBegin3 env QEMU_MIGRATION_FLAGS flags
             (init_world vm fs) in
  job_discipline false (trace_of b) = true
  /\ existsb is_migration_job_call (calls_of b) = false
  /\ (forall xml, fst b = Some xml ->
        xml = env_data env C_qemuMigrationBegin
        /\ In (C_qemuDomainObjBeginJobWithDriver QEMU_JOB_MODIFY)
              (calls_of b)).
Proof.
  intros Hflags Hcp b. subst b.
  unfold qemuDomainMigrateBegin3, qemuDomainMigrateBegin3_endjob,
    qemuDomainMigrateBegin3_cleanup.
  rewrite Hflags, Hcp. munfold.
  split; [| split].
  - mrun; mdone.
  - mrun; mdone.
  - intros xml. mrun; cbn; intros Hx; try discriminate Hx;
      injection Hx as <-; (split; [reflexivity |]); cbn; tauto.
Qed.

Lemma begin3_without_protection_holds_no_job_witness :
  let b := qemuDomainMigrateBegin3 env_success 1023 0
             (init_world sample_vm no_files) in
  job_discipline false (trace_of b) = true
  /\ fst b = Some (env_data env_success C_qemuMigrationBegin).
Proof.
  destruct (begin3_without_protection_holds_no_job env_success sample_vm
              no_files 1023 0) as [H _].
  - reflexivity.
  - reflexivity.
  - split; [exact H | reflexivity].
Defined.

(** X6.  Once [qemuDomainMigrateConfirm3] has confirmed the migration and
    finished the job with the object still referenced, it removes the
    domain from the list exactly when the domain is no longer active and
    is transient or [VIR_MIGRATE_UNDEFINE_SOURCE] was given; it deletes
    the configuration exactly when, in addition,
    [VIR_MIGRATE_UNDEFINE_SOURCE] was given; and it unlocks the object
    exactly when it has not removed it. *)
Theorem confirm3_removes_migrated_domain
        (env : environment) (vm : virDomainObj) (fs : filesystem)
        (QEMU_MIGRATION_FLAGS flags cancelled : Z) :
  unsupported_flags flags QEMU_MIGRATION_FLAGS = false ->
  env_rc env C_virDomainFindByUUID <> 0 ->
  env_rc env (C_qemuMigrationJobIsActive QEMU_ASYNC_JOB_MIGRATION_OUT) <> 0 ->
  env_rc env C_qemuMigrationJobFinish <> 0 ->
  let c := qemuDomainMigrateConfirm3 env QEMU_MIGRATION_FLAGS flags
             cancelled (init_world vm fs) in
  let v := confirm3_vm env flags cancelled vm in
  let gone := negb (virDomainObjIsActive v)
              && (negb (persistent v)
                  || has_flag flags VIR_MIGRATE_UNDEFINE_SOURCE) in
  existsb is_RemoveInactive (calls_of c) = gone
  /\ existsb is_DeleteConfig (calls_of c)
     = gone && has_flag flags VIR_MIGRATE_UNDEFINE_SOURCE
  /\ existsb is_ObjUnlock (calls_of c) = negb gone
  /\ fst c = env_rc env (C_qemuMigrationConfirm flags cancelled).
Proof.
  intros Hflags Hfound Hact Hfin c v gone. subst c gone v.
  unfold confirm3_vm, qemuDomainMigrateConfirm3,
    qemuDomainMigrateConfirm3_cleanup.
  rewrite Hflags. munfold.
  apply Z.eqb_neq in Hfound, Hact, Hfin.
  cbn. rewrite Hfound. cbn. rewrite Hact. cbn. rewrite Hfin. cbn.
  destruct (virDomainObjIsActive _); cbn; [repeat split |].
  destruct (persistent _); cbn;
    destruct (has_flag flags VIR_MIGRATE_UNDEFINE_SOURCE); cbn;
    repeat split.
Qed.

Lemma confirm3_removes_migrated_domain_witness :
  let vm := mkVm "guest" (-1) VIR_DOMAIN_SHUTOFF false false
                 (mkPriv sample_job false 0 false) in
  let c := qemuDomainMigrateConfirm3 env_success 1023 0 0
             (init_world vm no_files) in
  existsb is_RemoveInactive (calls_of c) = true
  /\ existsb is_DeleteConfig (calls_of c) = false
  /\ existsb is_ObjUnlock (calls_of c) = false.
Proof.
  destruct (confirm3_removes_migrated_domain env_success
              (mkVm "guest" (-1) VIR_DOMAIN_SHUTOFF false false
                    (mkPriv sample_job false 0 false))
              no_files 1023 0 0) as [H1 [H2 [H3 _]]].
  - reflexivity.
  - simpl. lia.
  - simpl. lia.
  - simpl. lia.
  - split; [exact H1 | split; [exact H2 | exact H3]].
Defined.

(** ** Opening a file the way the driver does *)

Ltac bool_hyps :=
  repeat match goal with
         | H : negb _ = true |- _ => apply negb_true_iff in H
         | H : negb _ = false |- _ => apply negb_false_iff in H
         | H : _ && _ = true |- _ => apply andb_prop in H; destruct H
         | H : _ || _ = false |- _ => apply orb_false_elim in H; destruct H
         end.

(** X7.  [qemuOpenFile] asks for the file to be removed on error exactly
    when it was given [O_CREAT].  It opens the file in a child process
    under the configured user only after the open in the daemon was
    refused with [EACCES] or [EPERM], and only when the file is on a
    shared file system and the configured user is not the daemon's; the
    security driver is bypassed only when that second open succeeded.  It
    uses plain [open], without [O_CREAT], only for a file that is already
    there and is not a regular file.  Every failure is reported and
    leaves the file as it was and no descriptor open; on success the
    descriptor is at the start of the file, which is there. *)
Theorem qemuOpenFile_retries_only_when_denied
        (env : environment) (driver : qemud_driver) (vm : virDomainObj)
        (fs : filesystem) (path : string) (oflags : Z) :
  let r := qemuOpenFile env driver path oflags (init_world vm fs) in
  let fd := fst (fst (fst r)) in
  let need_unlink := snd (fst (fst r)) in
  let bypass_security := snd (fst r) in
  need_unlink = has_flag oflags O_CREAT
  /\ (existsb is_fork_open (calls_of r) = true ->
      env_rc env (C_virStorageFileIsSharedFS path) = 1
      /\ user driver <> env_rc env C_getuid
      /\ existsb denied_in_process (trace_of r) = true)
  /\ (bypass_security = true ->
      existsb is_fork_open (calls_of r) = true /\ 0 <= fd)
  /\ (existsb is_plain_open (calls_of r) = true ->
      has_flag oflags O_CREAT = true
      /\ (exists f, fs path = Some f /\ f_reg f = false)
      /\ In (C_open path (Z.land oflags (Z.lnot O_CREAT))) (calls_of r))
  /\ (fd < 0 ->
      existsb is_ReportSystemError (calls_of r) = true
      /\ file_of r path = fs path
      /\ w_open (snd r) = None)
  /\ (0 <= fd ->
      w_open (snd r) = Some (mkOpen fd path 0)
      /\ exists f, file_of r path = Some f).
Proof.
  intros r fd need_unlink bypass_security.
  subst r fd need_unlink bypass_security.
  match goal with
  | |- context [qemuOpenFile ?e ?d ?p ?o ?w] =>
      pattern (qemuOpenFile e d p o w)
  end.
  apply wp_run. unfold qemuOpenFile.
  mgo.
  all: unfold calls_of, trace_of, file_of; cbn [fst snd]; wsimpl;
    cbn [app map ev_call existsb is_fork_open denied_in_process
         is_plain_open is_ReportSystemError ev_rc orb andb].
  all: repeat match goal with
              | H : _ = Some _ |- _ => progress rewrite H in *
              | H : _ = None |- _ => progress rewrite H in *
              end.
  all: destruct (has_flag oflags O_CREAT) eqn:Ecreat;
    destruct (dynamicOwnership driver) eqn:Edyn;
    destruct (env_rc env (C_virStorageFileIsSharedFS path) <=? 0) eqn:Esh;
    try match goal with f0 : file |- _ => destruct (f_reg f0) eqn:Ereg end;
    cbn [andb orb negb] in *; try discriminate.
  all: bool_hyps.
  all: repeat match goal with |- _ /\ _ => split end; intros;
    try discriminate; try reflexivity; try lia; try (exfalso; zbool; lia);
    try (exfalso; unfold ENOENT in *; lia).
  all: repeat match goal with
              | |- _ /\ _ => split
              | |- exists _, _ => eexists
              end;
    try reflexivity; try assumption; try (cbn [In]; tauto).
  all: repeat match goal with
              | |- context [?x =? ?y] =>
                  let b := fresh "b" in
                  let Hb := fresh "Hb" in
                  remember (x =? y) as b eqn:Hb in *; destruct b
              end;
    cbn [andb orb negb] in *; try discriminate; try reflexivity.
  all: zbool; first [lia | congruence].
Qed.

Lemma qemuOpenFile_retries_only_when_denied_witness :
  let r := qemuOpenFile env_root_squash sample_driver "/save/guest.save"
             (Z.lor (Z.lor O_WRONLY O_TRUNC) O_CREAT)
             (init_world sample_vm no_files) in
  existsb is_fork_open (calls_of r) = true
  /\ env_rc env_root_squash (C_virStorageFileIsSharedFS "/save/guest.save")
     = 1
  /\ user sample_driver <> env_rc env_root_squash C_getuid
  /\ existsb denied_in_process (trace_of r) = true.
Proof.
  intros r.
  assert (Hfork : existsb is_fork_open (calls_of r) = true)
    by (vm_compute; reflexivity).
  split; [exact Hfork |].
  exact (proj1 (proj2 (qemuOpenFile_retries_only_when_denied
                         env_root_squash sample_driver sample_vm no_files
                         "/save/guest.save"
                         (Z.lor (Z.lor O_WRONLY O_TRUNC) O_CREAT)))
               Hfork).
Defined.

(** ** Opening a save image *)

(** [qemuOpenFile] seen from outside, with what a successful open says
    about the file: a file that was not there has been made, which takes
    [O_CREAT]. *)
Lemma wp_qemuOpenFile_made (env : environment) (driver : qemud_driver)
      (path : string) (oflags : Z) (Q : Z * bool * bool -> world -> Prop)
      (w : world) :
  (forall fd pre, fd < 0 -> Forall opening pre ->
     Q (fd, has_flag oflags O_CREAT, false) (logs pre w)) ->
  (forall fd bs c pre, 0 <= fd -> Forall opening pre ->
     opening_call c = true ->
     (w_fs w path = None -> has_flag oflags O_CREAT = true) ->
     Q (fd, has_flag oflags O_CREAT, bs)
       (log c fd
          (with_file c fd path (Some (opened_file oflags (w_fs w path)))
             (Some (mkOpen fd path 0)) (logs pre w)))) ->
  wp (qemuOpenFile env driver path oflags) Q w.
Proof.
  intros Hfail Hok. unfold qemuOpenFile.
  mgo.
  all: try (assert (Hreg : f_reg f0 = false)
              by (rewrite Hf in *; cbn in *;
                  rewrite andb_true_r in *;
                  destruct (has_flag oflags O_CREAT); cbn in *;
                  [ apply negb_true_iff; assumption | discriminate ])).
  all: try (exfalso; rewrite Hf in E; cbn in E;
            rewrite ?andb_false_r in E; discriminate E).
  all: try (to_logs w; apply Hfail;
            first [assumption | reflexivity | all_opening]; fail).
  all: unfold opened_file in Hok; rewrite Hf in Hok;
    try (rewrite Hreg, andb_false_r in Hok);
    try rewrite Hreg, andb_false_r;
    to_logs w; apply Hok;
    first [assumption | reflexivity
          | intros _; assumption | intros Hn; discriminate Hn
          | all_opening ].
Qed.

Ltac mstep_open_made :=
  lazymatch goal with
  | |- wp (qemuOpenFile _ _ _ _) _ _ =>
      let fd := fresh "fd" in
      let bs := fresh "bs" in
      let oc := fresh "oc" in
      let pre := fresh "pre" in
      let Hfd := fresh "Hfd" in
      let Hpre := fresh "Hpre" in
      let Hoc := fresh "Hoc" in
      let Hmade := fresh "Hmade" in
      apply wp_qemuOpenFile_made;
      [ intros fd pre Hfd Hpre | intros fd bs oc pre Hfd Hpre Hoc Hmade ];
      cbv beta; wsimpl; try wsimpl_in Hmade
  end.

Ltac mgo4 := repeat first [mstep_open_made | mstep].

(** Flags that carry neither [O_CREAT] nor [O_TRUNC] open a file as it
    is. *)
Lemma opened_file_kept (a d : Z) (o : option file) :
  Z.land a (Z.lor O_CREAT O_TRUNC) = 0 ->
  Z.land d (Z.lor O_CREAT O_TRUNC) = 0 ->
  (o = None -> has_flag (Z.lor a d) O_CREAT = true) ->
  Some (opened_file (Z.lor a d) o) = o.
Proof.
  intros Ha Hd Hmade.
  assert (Hbit : forall b, Z.land (Z.lor O_CREAT O_TRUNC) b = b ->
                           has_flag (Z.lor a d) b = false).
  { intros b Hb. unfold has_flag.
    rewrite <- Hb, Z.land_assoc, Z.land_lor_distr_l, Ha, Hd.
    reflexivity. }
  destruct o as [f |]; cbn.
  - rewrite (Hbit O_TRUNC) by reflexivity. reflexivity.
  - rewrite (Hbit O_CREAT) in Hmade by reflexivity.
    discriminate (Hmade eq_refl).
Qed.

Lemma fs_set_other (p q : string) (o : option file) (fs : filesystem) :
  q <> p -> fs_set p o fs q = fs q.
Proof.
  intros H. unfold fs_set. apply String.eqb_neq in H. rewrite H.
  reflexivity.
Qed.

(** X8. Opening a save image ([qemuDomainSaveImageOpen]) never changes
    what a file holds, whatever the image contains and whichever way the
    open goes: every other file is as before, and the image itself is as
    before unless the result is -3, in which case it has been removed;
    -3 is only returned to a caller that passed [unlink_corrupt].  On
    every failure no descriptor is left open, and the domain object is
    not touched.  The hypothesis says that the flag the system uses for
    direct I/O is neither [O_CREAT] nor [O_TRUNC]. *)
Theorem image_open_keeps_files
        (env : environment) (be : bool) (driver : qemud_driver)
        (path : string) (bypass_cache : bool) (xmlin : option bytes)
        (state : Z) (edit unlink_corrupt : bool)
        (vm : virDomainObj) (fs : filesystem) :
  (bypass_cache = true -> 0 <= env_rc env C_virFileDirectFdFlag ->
   Z.land (env_rc env C_virFileDirectFdFlag) (Z.lor O_CREAT O_TRUNC) = 0) ->
  let r := qemuDomainSaveImageOpen env be driver path bypass_cache xmlin
             state edit unlink_corrupt (init_world vm fs) in
  (forall q, q <> path -> file_of r q = fs q)
  /\ file_of r path = (if img_fd (fst r) =? -3 then None else fs path)
  /\ (img_fd (fst r) = -3 -> unlink_corrupt = true)
  /\ (img_fd (fst r) < 0 -> w_open (snd r) = None)
  /\ w_vm (snd r) = vm.
Proof.
  intros Hdirect r. subst r. unfold file_of.
  apply wp_run.
  unfold qemuDomainSaveImageOpen, qemuDomainSaveImageOpen_unlink,
    qemuDomainSaveImageOpen_error, VIR_FORCE_CLOSE.
  assert (Ha : Z.land (if edit then O_RDWR else O_RDONLY)
                 (Z.lor O_CREAT O_TRUNC) = 0)
    by (destruct edit; reflexivity).
  destruct bypass_cache.
  all: mgo4.
  all: try match goal with
       | H : true && (_ <? 0) = false |- _ =>
           cbn [andb] in H; apply Z.ltb_ge in H;
           specialize (Hdirect eq_refl H)
       end.
  all: try match goal with
       | Hm : ?o = None -> has_flag (Z.lor ?a ?d) O_CREAT = true |- _ =>
           rewrite (opened_file_kept a d o) in *
             by first [exact Hm | exact Ha | exact Hdirect | reflexivity]
       end.
  all: cbn [img_fd];
    try match goal with
        | H : 0 <= ?fd |- context [?fd =? -3] =>
            replace (fd =? -3) with false by (symmetry; apply Z.eqb_neq; lia)
        end;
    change (-1 =? -3) with false; change (-2 =? -3) with false;
    change (-3 =? -3) with true; cbv iota.
  all: repeat split;
    try (intros q Hq; rewrite ?fs_set_other by exact Hq; reflexivity);
    try reflexivity; try (intros; lia); try congruence.
Qed.

Lemma image_open_keeps_files_witness :
  (true = true -> 0 <= env_rc env_success C_virFileDirectFdFlag ->
   Z.land (env_rc env_success C_virFileDirectFdFlag)
     (Z.lor O_CREAT O_TRUNC) = 0)
  /\ let r := qemuDomainSaveImageOpen env_success false sample_driver
                "/save/guest.save" true None (-1) false true
                (init_world sample_vm partial_image_fs) in
     (forall q, q <> "/save/guest.save" -> file_of r q = partial_image_fs q)
     /\ file_of r "/save/guest.save"
        = (if img_fd (fst r) =? -3 then None
           else partial_image_fs "/save/guest.save")
     /\ (img_fd (fst r) = -3 -> true = true)
     /\ (img_fd (fst r) < 0 -> w_open (snd r) = None)
     /\ w_vm (snd r) = sample_vm.
Proof.
  split.
  - intros _ _. reflexivity.
  - apply (image_open_keeps_files env_success false sample_driver
             "/save/guest.save" true None (-1) false true sample_vm
             partial_image_fs).
    intros _ _. reflexivity.
Defined.

(** A read that returns a whole header comes from a file that was there
    and that the open has left as it was. *)
Lemma header_read_whole (fl : Z) (o : option file) (got : bytes) :
  got = firstn (Z.to_nat (Z.of_nat sizeof_header))
          (skipn 0 (f_data (opened_file fl o))) ->
  negb (Z.of_nat (List.length got) =? Z.of_nat sizeof_header) = false ->
  exists f, o = Some f /\ opened_file fl o = f
            /\ got = firstn sizeof_header (f_data f)
            /\ List.length got = sizeof_header
            /\ (sizeof_header <= List.length (f_data f))%nat.
Proof.
  intros Hgot Hlen. apply negb_false_iff, Z.eqb_eq, Nat2Z.inj in Hlen.
  rewrite Nat2Z.id, skipn_O in Hgot.
  destruct o as [f0 |]; unfold opened_file in *.
  - destruct (has_flag fl O_TRUNC && f_reg f0).
    + rewrite Hgot in Hlen. discriminate Hlen.
    + exists f0. repeat split; try assumption.
      rewrite Hgot, length_firstn in Hlen. lia.
  - rewrite Hgot in Hlen. discriminate Hlen.
Qed.

Ltac call_is_made :=
  rewrite ?map_app;
  repeat (apply in_or_app;
          first [ right; cbn [map ev_call In]; left; reflexivity | left ]).

(** What [qemuDomainSaveImageOpen] has checked when it returns a
    descriptor. *)
Lemma image_open_accepts
        (env : environment) (be : bool) (driver : qemud_driver)
        (path : string) (bypass_cache : bool) (xmlin : option bytes)
        (state : Z) (edit unlink_corrupt : bool)
        (vm : virDomainObj) (fs : filesystem) :
  let r := qemuDomainSaveImageOpen env be driver path bypass_cache xmlin
             state edit unlink_corrupt (init_world vm fs) in
  0 <= img_fd (fst r) ->
  exists f,
    fs path = Some f
    /\ magic_is QEMUD_SAVE_MAGIC (header_on_disk be f) = true
    /\ version (header_as_read be f) <= QEMUD_SAVE_VERSION
    /\ 0 < xml_len (header_as_read be f)
    /\ Z.of_nat sizeof_header + xml_len (header_as_read be f)
       <= Z.of_nat (List.length (f_data f))
    /\ In (C_virDomainDefParseString (cstr (xml_on_disk be f))) (calls_of r)
    /\ img_header (fst r)
       = Some (if 0 <=? state
               then set_was_running state (header_as_read be f)
               else header_as_read be f)
    /\ w_open (snd r)
       = Some (mkOpen (img_fd (fst r)) path
                 (sizeof_header
                  + Z.to_nat (xml_len (header_as_read be f)))%nat).
Proof.
  intros r. subst r. unfold calls_of.
  apply wp_run.
  unfold qemuDomainSaveImageOpen, qemuDomainSaveImageOpen_unlink,
    qemuDomainSaveImageOpen_error, VIR_FORCE_CLOSE.
  destruct bypass_cache.
  all: mgo4.
  all: cbn [img_fd img_header]; try (intros; exfalso; lia).
  all: intros _;
    match goal with
    | Hgot : ?got = firstn _ (skipn 0 _),
      Hn : negb (Z.of_nat (List.length ?got) =? _) = false |- _ =>
        destruct (header_read_whole _ _ _ Hgot Hn)
          as (f & Hfs & Hof & Hg & Hlen & Hdata);
        rewrite Hof, Hlen in *; clear Hgot Hn
    end;
    exists f; unfold xml_on_disk, header_as_read, header_on_disk;
    rewrite <- Hg;
    change (skipn (0 + sizeof_header)) with (@skipn Z sizeof_header) in *.
  all: match goal with
       | Hgot0 : ?got0 = firstn _ (skipn sizeof_header _),
         Hn : negb (Z.of_nat (List.length ?got0) =? _) = false |- _ =>
           apply negb_false_iff, Z.eqb_eq in Hn;
           assert (Hxml : (List.length got0
                           <= List.length (f_data f) - sizeof_header)%nat)
             by (rewrite Hgot0, length_firstn, length_skipn; lia);
           rewrite <- Hgot0
       end.
  all: repeat match goal with
       | H : negb _ = false |- _ => apply negb_false_iff in H
       | H : (_ <? _) = false |- _ => apply Z.ltb_ge in H
       | H : (_ <=? _) = false |- _ => apply Z.leb_gt in H
       end.
  all: repeat split; try assumption; try lia; try call_is_made.
  all: match goal with
       | H : Z.of_nat (List.length _) = _ |- _ =>
           rewrite <- H, Nat2Z.id; reflexivity
       end.
Qed.



(** ** Save images moved between hosts *)

Lemma lor_shiftl_add (a b k : Z) :
  0 <= k -> 0 <= b < 2 ^ k -> Z.lor (Z.shiftl a k) b = a * 2 ^ k + b.
Proof.
  intros Hk Hb.
  assert (H0 : Z.land (Z.shiftl a k) b = 0).
  { apply Z.bits_inj'. intros n Hn.
    rewrite Z.land_spec, Z.bits_0.
    destruct (Z.ltb_spec n k) as [Hlt | Hge].
    - rewrite Z.shiftl_spec_low by exact Hlt. reflexivity.
    - destruct (Z.eq_dec b 0) as [-> | Hnz].
      + rewrite Z.bits_0. apply andb_false_r.
      + rewrite (Z.bits_above_log2 b n); [apply andb_false_r | lia |].
        apply Z.lt_le_trans with k; [| exact Hge].
        apply Z.log2_lt_pow2; lia. }
  pose proof (Z.add_lor_land (Z.shiftl a k) b) as H.
  rewrite H0 in H. rewrite <- (Z.shiftl_mul_pow2 a k Hk). lia.
Qed.

Lemma lor_octets (a b c d : Z) :
  0 <= b < 256 -> 0 <= c < 256 -> 0 <= d < 256 ->
  Z.lor (Z.lor (Z.shiftl a 24) (Z.shiftl b 16)) (Z.lor (Z.shiftl c 8) d)
  = d + 256 * c + 65536 * b + 16777216 * a.
Proof.
  intros Hb Hc Hd.
  replace (Z.shiftl a 24) with (Z.shiftl (Z.shiftl a 8) 16)
    by (rewrite Z.shiftl_shiftl by lia; reflexivity).
  rewrite <- Z.shiftl_lor.
  rewrite (lor_shiftl_add a b 8), (lor_shiftl_add c d 8)
    by (change (2 ^ 8) with 256; lia).
  rewrite lor_shiftl_add
    by (change (2 ^ 8) with 256; change (2 ^ 16) with 65536; lia).
  change (2 ^ 8) with 256; change (2 ^ 16) with 65536. lia.
Qed.

(** [bswap_32] on the octets of a word. *)
Lemma bswap_32_sum (v : Z) :
  bswap_32 v
  = (v / 16777216) mod 256 + 256 * ((v / 65536) mod 256)
    + 65536 * ((v / 256) mod 256) + 16777216 * (v mod 256).
Proof.
  unfold bswap_32.
  change 255 with (Z.ones 8).
  rewrite !Z.land_ones, !Z.shiftr_div_pow2 by lia.
  change (2 ^ 8) with 256. change (2 ^ 16) with 65536.
  change (2 ^ 24) with 16777216.
  apply lor_octets; apply Z.mod_pos_bound; reflexivity.
Qed.

(** The octets of a word put together from four octets. *)
Lemma octets_of_sum (a b c d : Z) :
  0 <= a < 256 -> 0 <= b < 256 -> 0 <= c < 256 -> 0 <= d < 256 ->
  let s := a + 256 * b + 65536 * c + 16777216 * d in
  s mod 256 = a /\ (s / 256) mod 256 = b /\ (s / 65536) mod 256 = c
  /\ (s / 16777216) mod 256 = d.
Proof.
  intros Ha Hb Hc Hd s. subst s.
  repeat split; Z.to_euclidean_division_equations; lia.
Qed.

Lemma bswap_32_involutive (v : Z) :
  0 <= v < 2 ^ 32 -> bswap_32 (bswap_32 v) = v.
Proof.
  intros Hv. rewrite (bswap_32_sum v).
  pose proof (Z.mod_pos_bound v 256 eq_refl) as H0.
  pose proof (Z.mod_pos_bound (v / 256) 256 eq_refl) as H1.
  pose proof (Z.mod_pos_bound (v / 65536) 256 eq_refl) as H2.
  pose proof (Z.mod_pos_bound (v / 16777216) 256 eq_refl) as H3.
  destruct (octets_of_sum _ _ _ _ H3 H2 H1 H0) as (E0 & E1 & E2 & E3).
  rewrite bswap_32_sum, E0, E1, E2, E3.
  pose proof (word_roundtrip v Hv). lia.
Qed.

(** A header read on a host of the other byte order comes out with its
    four words swapped. *)
Lemma decode_encode_other (be : bool) (m : bytes) (v x w c : Z)
      (rest : bytes) :
  List.length m = 16%nat ->
  decode_header (negb be)
    (firstn sizeof_header
       (encode_header be (mkHeader m v x w c (repeat 0 15)) ++ rest))
  = mkHeader m (bswap_32 v) (bswap_32 x) (bswap_32 w) (bswap_32 c)
             (repeat 0 15).
Proof.
  intros Hm.
  do 16 (destruct m as [| ? m]; [discriminate Hm |]).
  destruct m; [| discriminate Hm].
  rewrite !bswap_32_sum.
  destruct be;
    cbv [decode_header encode_header word_bytes word_of_bytes words_of_bytes
         flat_map repeat firstn skipn app rev sizeof_header sizeof_magic
         magic version xml_len was_running compressed unused negb];
    f_equal; try lia; reflexivity.
Qed.

(** The header of a written image as a reader on either kind of host
    takes it. *)
Lemma header_as_read_written
      (be be' : bool) (m domXML : bytes) (c : Z) (r : bool) (f : file)
      (rest : bytes) :
  (sizeof_magic <= List.length m)%nat ->
  let h := set_magic m (save_header_partial domXML c r) in
  f_data f = encode_header be h ++ rest ->
  header_as_read be' f = h
  /\ (QEMUD_SAVE_VERSION <? version (header_on_disk be' f)) = xorb be be'.
Proof.
  intros Hm h Hf. subst h.
  assert (Hs : set_magic m (save_header_partial domXML c r)
               = mkHeader (firstn sizeof_magic m) (u32 QEMUD_SAVE_VERSION)
                          (u32 (strlen domXML + 1))
                          (u32 (if r then 1 else 0)) (u32 c) (repeat 0 15))
    by reflexivity.
  assert (Hl : List.length (firstn sizeof_magic m) = 16%nat)
    by (rewrite length_firstn; unfold sizeof_magic in *; lia).
  unfold header_as_read, header_on_disk. rewrite Hf, Hs.
  destruct (Bool.eqb be be') eqn:Eb.
  - apply Bool.eqb_prop in Eb. subst be'.
    rewrite decode_encode by (exact Hl || apply u32_range).
    rewrite xorb_nilpotent. split; reflexivity.
  - assert (be' = negb be) as -> by (destruct be, be'; first [discriminate Eb | reflexivity]).
    rewrite decode_encode_other by exact Hl.
    replace (xorb be (negb be)) with true by (destruct be; reflexivity).
    cbn [version].
    change (QEMUD_SAVE_VERSION <? bswap_32 (u32 QEMUD_SAVE_VERSION))
      with true.
    cbv iota. split; [| reflexivity].
    unfold bswap_header.
    cbn [magic version xml_len was_running compressed unused].
    rewrite !bswap_32_involutive by apply u32_range. reflexivity.
Qed.

(** X10. A save image can be moved between hosts of different byte
    order.  The header that [qemuDomainSaveMemory] writes, with either
    magic, on a host of one byte order is the header that
    [qemuDomainSaveImageOpen] works with on a host of either byte order:
    read on the other kind of host its version comes out above the
    current one, which makes the reader swap the words back. *)
Theorem save_header_read_on_either_host
        (be be' : bool) (m domXML : bytes) (c : Z) (r reg : bool)
        (rest : bytes) :
  (sizeof_magic <= List.length m)%nat ->
  let h := set_magic m (save_header_partial domXML c r) in
  let f := mkFile reg (encode_header be h ++ rest) in
  header_as_read be' f = h
  /\ (QEMUD_SAVE_VERSION <? version (header_on_disk be' f)) = xorb be be'.
Proof.
  intros Hm h f.
  exact (header_as_read_written be be' m domXML c r f rest Hm eq_refl).
Qed.

Lemma save_header_read_on_either_host_witness :
  (sizeof_magic <= List.length QEMUD_SAVE_MAGIC)%nat
  /\ let h := set_magic QEMUD_SAVE_MAGIC
                (save_header_partial (bytes_of_string "<domain/>") 0 true) in
     let f := mkFile true (encode_header true h ++ [1; 2; 3]) in
     header_as_read false f = h
     /\ (QEMUD_SAVE_VERSION <? version (header_on_disk false f))
        = xorb true false.
Proof.
  split.
  - vm_compute. lia.
  - apply (save_header_read_on_either_host true false QEMUD_SAVE_MAGIC
             (bytes_of_string "<domain/>") 0 true true [1; 2; 3]).
    vm_compute. lia.
Defined.

(** ** Where the memory image goes *)

Lemma migration_offsets_app (a b : list extcall) :
  migration_offsets (a ++ b) = migration_offsets a ++ migration_offsets b.
Proof. apply flat_map_app. Qed.

Lemma opening_no_offsets (pre : list event) :
  Forall opening pre -> migration_offsets (map ev_call pre) = [].
Proof.
  intros H. induction H as [| [c rc] l He Hl IH]; [reflexivity |].
  unfold opening in He. cbn in He. cbn [map ev_call].
  unfold migration_offsets in *. cbn [flat_map]. rewrite IH.
  destruct c; try discriminate He; reflexivity.
Qed.

Lemma opening_call_no_offsets (c : extcall) :
  opening_call c = true -> migration_offsets [c] = [].
Proof. destruct c; intros H; try discriminate H; reflexivity. Qed.

(** The padding rounds the offset up to the next block boundary, past
    1024 spare octets. *)
Lemma save_offset_aligned (BS : Z) (domXML : bytes) :
  0 < BS ->
  Z.of_nat sizeof_header + (strlen domXML + 1) + 1024 + BS < 2 ^ 64 ->
  let len := strlen domXML + 1 in
  let offset := u64 (u64 (Z.of_nat sizeof_header + len) + save_pad BS domXML) in
  offset mod BS = 0
  /\ Z.of_nat sizeof_header + len + 1024 < offset
     <= Z.of_nat sizeof_header + len + 1024 + BS.
Proof.
  intros HBS Hfit len offset. subst offset.
  assert (Hlen : 0 < len) by (unfold len, strlen; lia).
  fold len in Hfit.
  unfold save_pad. fold len.
  set (o := Z.of_nat sizeof_header + len) in *.
  assert (Ho : 0 <= o) by (unfold o; lia).
  clearbody o. clear Hlen. clearbody len.
  pose proof (Z.mod_pos_bound (o + 1024) BS HBS) as Hr.
  unfold u64. change (2 ^ 64) with 18446744073709551616 in *.
  rewrite (Z.mod_small o 18446744073709551616) by lia.
  rewrite (Z.mod_small (1024 + _) 18446744073709551616) by lia.
  rewrite (Z.mod_small _ 18446744073709551616) by lia.
  split; [| lia].
  replace (o + (1024 + (BS - (o + 1024) mod BS)))
    with (((o + 1024) / BS + 1) * BS)
    by (pose proof (Z.div_mod (o + 1024) BS); lia).
  apply Z.mod_mul. lia.
Qed.

(** X11. [qemuDomainSaveMemory] tells [qemuMigrationToFile] to put the
    memory image at a multiple of the block size
    [QEMU_MONITOR_MIGRATE_TO_FILE_BS], more than 1024 octets behind the
    end of the XML text that the header announces in [xml_len], and at
    most one block further.  A save that succeeds has made this call
    exactly once.  The hypotheses say that the block size is positive
    and that the offset fits in an [unsigned long long]. *)
Theorem save_memory_offset_is_aligned
        (env : environment) (be : bool) (BS : Z) (driver : qemud_driver)
        (path : string) (domXML : bytes) (compressed_ : Z)
        (was_running_ : bool) (flags : Z) (asyncJob_ : qemuDomainAsyncJob)
        (vm : virDomainObj) (fs : filesystem) :
  0 < BS ->
  Z.of_nat sizeof_header + (strlen domXML + 1) + 1024 + BS < 2 ^ 64 ->
  let s := qemuDomainSaveMemory env be BS driver path domXML compressed_
             was_running_ flags asyncJob_ (init_world vm fs) in
  let hdr := save_header_partial domXML compressed_ was_running_ in
  (forall offset, In offset (migration_offsets (calls_of s)) ->
     offset mod BS = 0
     /\ Z.of_nat sizeof_header + xml_len hdr + 1024 < offset
     /\ offset <= Z.of_nat sizeof_header + (strlen domXML + 1) + 1024 + BS)
  /\ (fst s = 0 ->
      exists offset, migration_offsets (calls_of s) = [offset]).
Proof.
  intros HBS Hfit s hdr. subst s hdr. unfold calls_of.
  pose proof (save_offset_aligned BS domXML HBS Hfit) as Hal.
  cbv zeta in Hal.
  assert (Hx : xml_len (save_header_partial domXML compressed_ was_running_)
               <= strlen domXML + 1)
    by (apply Z.mod_le; [unfold strlen; lia | reflexivity]).
  apply wp_run.
  unfold qemuDomainSaveMemory, qemuDomainSaveMemory_cleanup,
    qemuDomainSaveHeader, VIR_FORCE_CLOSE.
  mgo2.
  all: repeat match goal with
              | H : ?m = C_qemuMigrationToFile _ _ _ _ _ _ |- _ => subst m
              end.
  all: rewrite ?map_app, ?migration_offsets_app;
    repeat match goal with
           | H : Forall opening ?pre |- _ =>
               rewrite (opening_no_offsets pre H); clear H
           | H : opening_call ?c = true |- _ =>
               cbn [map ev_call];
               rewrite (opening_call_no_offsets c H); clear H
           end;
    cbn [map ev_call migration_offsets flat_map app In].
  all: split;
    [ intros offset Hin; try contradiction; destruct Hin as [<- | []]; lia
    | intros Hret; first [ discriminate Hret | eexists; reflexivity ] ].
Qed.

Lemma save_memory_offset_is_aligned_witness :
  0 < 512
  /\ Z.of_nat sizeof_header + (strlen (bytes_of_string "<domain/>") + 1)
     + 1024 + 512 < 2 ^ 64
  /\ let s := qemuDomainSaveMemory env_success false 512 sample_driver
                "/save/guest.save" (bytes_of_string "<domain/>") 0 true 0
                QEMU_ASYNC_JOB_SAVE (init_world sample_vm no_files) in
     let hdr := save_header_partial (bytes_of_string "<domain/>") 0 true in
     (forall offset, In offset (migration_offsets (calls_of s)) ->
        offset mod 512 = 0
        /\ Z.of_nat sizeof_header + xml_len hdr + 1024 < offset
        /\ offset <= Z.of_nat sizeof_header
                     + (strlen (bytes_of_string "<domain/>") + 1)
                     + 1024 + 512)
     /\ (fst s = 0 ->
         exists offset, migration_offsets (calls_of s) = [offset]).
Proof.
  split; [reflexivity |]. split; [reflexivity |].
  apply (save_memory_offset_is_aligned env_success false 512 sample_driver
           "/save/guest.save" (bytes_of_string "<domain/>") 0 true 0
           QEMU_ASYNC_JOB_SAVE sample_vm no_files); reflexivity.
Defined.

(** A step written out as a function of the world. *)
Ltac mstep_raw :=
  lazymatch goal with
  | |- wp (fun _ => (_, _)) _ _ => unfold wp at 1; cbv beta; cbn [fst snd]
  end.

Ltac mgo5 := repeat first [mstep_open | mstep_raw | mstep].

(** ** Starting a domain that has a managed-save image *)

(** X12. [qemuDomainObjStart] never boots a domain from scratch beside
    its managed-save image: whenever it has called [qemuProcessStart],
    the image is not on disk when it returns (there was none, or
    [VIR_DOMAIN_START_FORCE_BOOT] removed it, or it was found corrupt and
    removed), no restore from the image was attempted in the same call,
    and the result is that of [qemuProcessStart].  With
    [VIR_DOMAIN_START_FORCE_BOOT] the image is never opened.  The
    hypothesis says that starting the emulator on an image returns 0 or
    a negative value. *)
Theorem start_never_boots_beside_image
        (env : environment) (be : bool) (driver : qemud_driver)
        (flags : Z) (vm : virDomainObj) (fs : filesystem) :
  (forall p sp, env_rc env (C_qemuDomainSaveImageStartVM p sp) <= 0) ->
  let s := qemuDomainObjStart env be driver flags (init_world vm fs) in
  let ms := managed_save_path driver vm in
  (existsb is_ProcessStart (calls_of s) = true ->
   file_of s ms = None
   /\ existsb is_SaveImageStartVM (calls_of s) = false
   /\ fst s = env_rc env (C_qemuProcessStart (start_flags_of flags)))
  /\ (has_flag flags VIR_DOMAIN_START_FORCE_BOOT = true ->
      existsb opens_file (calls_of s) = false
      /\ existsb is_SaveImageStartVM (calls_of s) = false).
Proof.
  intros Hvm s ms. subst s ms.
  unfold managed_save_path in *.
  match goal with
  | |- context [qemuDomainObjStart ?e ?b ?d ?fl ?w] =>
      pattern (qemuDomainObjStart e b d fl w)
  end.
  apply wp_run.
  unfold qemuDomainObjStart, qemuDomainManagedSavePath, qemuDomainObjRestore,
    qemuDomainObjRestore_cleanup, qemuDomainSaveImageStartVM,
    qemuDomainSaveImageOpen, qemuDomainSaveImageOpen_unlink,
    qemuDomainSaveImageOpen_error, VIR_FORCE_CLOSE, virDomainEventNewFromObj,
    queue_if_set.
  fold (start_flags_of flags).
  mgo5.
  all: unfold calls_of, trace_of, file_of; cbn [fst snd img_fd]; wsimpl;
    rewrite ?map_app, ?existsb_app;
    try (destruct (opening_never_starts _ Hpre) as [Hs1 Hs2];
         rewrite ?Hs1, ?Hs2);
    cbn [map ev_call existsb app is_SaveImageStartVM is_ProcessStart
         opens_file orb andb];
    try (destruct (opening_call_props EmptyString _ 0 Hoc)
           as [Ho1 [Ho2 _]];
         rewrite ?Ho1, ?Ho2);
    cbn [orb andb].
  all: split; [ intros Hboot; try discriminate Hboot
              | intros Hforce; try discriminate Hforce ].
  all: try (repeat split; reflexivity).
  all: try (exfalso;
            match goal with
            | H : (0 <? env_rc _ (C_qemuDomainSaveImageStartVM ?p ?sp))
                  = true,
              Hv : forall p sp, _ <= 0 |- _ =>
                specialize (Hv p sp); apply Z.ltb_lt in H; lia
            end).
  all: try (exfalso;
            repeat match goal with
                   | H : context [img_fd (mkImage _ _ _ _)] |- _ =>
                       cbn [img_fd] in H
                   end;
            congruence).
  all: match goal with
       | H : match ?x with Some _ => true | None => false end = false |- _ =>
           destruct x; [discriminate H | repeat split; reflexivity]
       end.
Qed.

Lemma start_never_boots_beside_image_witness :
  (forall p sp, env_rc env_success (C_qemuDomainSaveImageStartVM p sp) <= 0)
  /\ let s := qemuDomainObjStart env_success false sample_driver 0
                (init_world sample_vm partial_image_fs) in
     let ms := managed_save_path sample_driver sample_vm in
     (existsb is_ProcessStart (calls_of s) = true ->
      file_of s ms = None
      /\ existsb is_SaveImageStartVM (calls_of s) = false
      /\ fst s = env_rc env_success (C_qemuProcessStart (start_flags_of 0)))
     /\ (has_flag 0 VIR_DOMAIN_START_FORCE_BOOT = true ->
         existsb opens_file (calls_of s) = false
         /\ existsb is_SaveImageStartVM (calls_of s) = false).
Proof.
  split.
  - intros p sp. cbn. lia.
  - apply (start_never_boots_beside_image env_success false sample_driver 0
             sample_vm partial_image_fs).
    intros p sp. cbn. lia.
Defined.

(** ** Reading back what was saved *)

(** What lies behind a header that was written at the start of a file
    and followed at once by a second write. *)
Lemma starts_with_body (hp xb d st : bytes) :
  starts_with xb
    (skipn (List.length hp)
       (write_at (0 + List.length hp) xb (write_at 0 hp d) ++ st)) = true.
Proof.
  unfold write_at. cbn [Nat.sub repeat app Nat.add].
  rewrite !firstn_O. cbn [app].
  rewrite firstn_app, firstn_all, Nat.sub_diag, firstn_O, app_nil_r.
  replace (List.length hp - List.length (hp ++ skipn (List.length hp) d))%nat
    with 0%nat by (rewrite length_app; lia).
  cbn [repeat app]. rewrite <- !app_assoc.
  rewrite skipn_app, skipn_all, Nat.sub_diag, skipn_O. cbn [app].
  apply starts_with_app.
Qed.

(** When [qemuDomainSaveMemory] returns 0 the XML text, as long as the
    header says, lies right behind the header. *)
Lemma save_memory_body (env : environment) (be : bool) (BS : Z)
      (driver : qemud_driver) (path : string) (domXML : bytes)
      (compressed_ : Z) (was_running_ : bool) (flags : Z)
      (asyncJob_ : qemuDomainAsyncJob) (vm : virDomainObj)
      (fs : filesystem) :
  let s := qemuDomainSaveMemory env be BS driver path domXML compressed_
             was_running_ flags asyncJob_ (init_world vm fs) in
  let hdr := save_header_partial domXML compressed_ was_running_ in
  fst s = 0 ->
  exists a : file,
    file_of s path = Some a
    /\ starts_with (encode_header be (set_magic QEMUD_SAVE_MAGIC hdr))
         (f_data a) = true
    /\ starts_with (firstn (Z.to_nat (xml_len hdr)) (save_xml_buffer BS domXML))
         (body_of a) = true.
Proof.
  intros s hdr. subst s hdr.
  pose proof (save_header_length be QEMUD_SAVE_PARTIAL domXML compressed_
                was_running_ eq_refl) as Hl1.
  rewrite save_header_partial_magic in Hl1.
  pose proof (save_header_length be QEMUD_SAVE_MAGIC domXML compressed_
                was_running_ eq_refl) as Hl2.
  match goal with
  | |- context [qemuDomainSaveMemory ?e ?b ?bs ?d ?p ?x ?c ?r ?fl ?a ?w] =>
      pattern (qemuDomainSaveMemory e b bs d p x c r fl a w)
  end.
  apply wp_run.
  unfold qemuDomainSaveMemory, qemuDomainSaveMemory_cleanup,
    qemuDomainSaveHeader, VIR_FORCE_CLOSE.
  mgo2.
  all: cbn [fst]; intros Hret; try discriminate Hret; clear Hret.
  all: try (exfalso;
            match goal with
            | H : negb (-1 =? xml_len (save_header_partial ?d ?c ?r)) = false
              |- _ =>
                apply negb_false_iff, Z.eqb_eq in H;
                pose proof (u32_range (strlen d + 1)) as Hu;
                change (xml_len (save_header_partial d c r))
                  with (u32 (strlen d + 1)) in H;
                lia
            end).
  all: unfold journal_of, file_of; cbn [fst snd]; wsimpl; cbn [app].
  all: subst.
  all: match goal with
       | |- context [opened_file ?fl (?g ?p)] =>
           is_var g; generalize (opened_file fl (g p)); intros d0
       end.
  all: unfold opened_file; change (has_flag O_WRONLY O_TRUNC) with false;
    cbn [andb option_map f_reg f_data].
  all: eexists; split; [reflexivity |].
  all: apply Z.eqb_eq, Nat2Z.inj in Hl1; apply Z.eqb_eq, Nat2Z.inj in Hl2.
  all: unfold body_of; cbn [f_data f_reg].
  all: split; [apply starts_with_write_0 |].
  all: rewrite body_write_header by exact Hl2.
  all: rewrite <- Hl1; apply starts_with_body.
Qed.

(** The part of the XML buffer that goes into the file is the text and
    its terminator. *)
Lemma xml_text_written (BS : Z) (domXML : bytes) (c : Z) (r : bool) :
  strlen domXML + 1 < 2 ^ 32 ->
  xml_len (save_header_partial domXML c r) = strlen domXML + 1
  /\ firstn (Z.to_nat (xml_len (save_header_partial domXML c r)))
        (save_xml_buffer BS domXML) = domXML ++ [0].
Proof.
  intros Hfit.
  assert (Hx : xml_len (save_header_partial domXML c r) = strlen domXML + 1).
  { change (xml_len (save_header_partial domXML c r))
      with (u32 (strlen domXML + 1)).
    unfold u32. apply Z.mod_small. unfold strlen in *. lia. }
  split; [exact Hx |].
  rewrite Hx. unfold save_xml_buffer.
  assert (Hpad : 0 <= save_pad BS domXML)
    by (unfold save_pad, u64; apply Z.mod_pos_bound; reflexivity).
  unfold strlen in *.
  replace (Z.to_nat (Z.of_nat (List.length domXML) + 1))
    with (List.length domXML + 1)%nat by lia.
  rewrite firstn_app, firstn_all2 by lia.
  replace (List.length domXML + 1 - List.length domXML)%nat with 1%nat by lia.
  destruct (Z.to_nat (Z.of_nat (List.length domXML) + 1 + save_pad BS domXML)
            - List.length domXML)%nat eqn:Ek; [lia |].
  reflexivity.
Qed.

Lemma cstr_terminated (l rest : bytes) :
  ~ In 0 l -> cstr (l ++ 0 :: rest) = l.
Proof.
  induction l as [| x l IH]; intros Hn; [reflexivity |].
  cbn [app cstr].
  destruct (x =? 0) eqn:Ex.
  - apply Z.eqb_eq in Ex. exfalso. apply Hn. left. exact Ex.
  - rewrite IH; [reflexivity |]. intros Hin. apply Hn. right. exact Hin.
Qed.

(** X13. What [qemuDomainSaveMemory] has saved,
    [qemuDomainSaveImageOpen] reads back.  If a save returned 0 and the
    image is then opened, on a host of either byte order and under any
    environment, and the open returns a descriptor, then the header
    handed back is the completed header of the save (with [was_running]
    replaced when a state is given), the XML that is parsed is the XML
    that was saved, and the descriptor stands right behind the XML text
    and its terminator.  The hypotheses say that the XML is a C string
    and that its length fits the 32-bit field of the header. *)
Theorem saved_image_reads_back
        (env env' : environment) (be be' : bool) (BS : Z)
        (driver driver' : qemud_driver) (path : string) (domXML : bytes)
        (compressed_ : Z) (was_running_ : bool) (flags : Z)
        (asyncJob_ : qemuDomainAsyncJob) (vm vm' : virDomainObj)
        (fs : filesystem) (bypass_cache : bool) (xmlin : option bytes)
        (state : Z) (edit unlink_corrupt : bool) :
  ~ In 0 domXML ->
  strlen domXML + 1 < 2 ^ 32 ->
  let s := qemuDomainSaveMemory env be BS driver path domXML compressed_
             was_running_ flags asyncJob_ (init_world vm fs) in
  let hdr := set_magic QEMUD_SAVE_MAGIC
               (save_header_partial domXML compressed_ was_running_) in
  fst s = 0 ->
  let r := qemuDomainSaveImageOpen env' be' driver' path bypass_cache xmlin
             state edit unlink_corrupt (init_world vm' (w_fs (snd s))) in
  0 <= img_fd (fst r) ->
  img_header (fst r)
  = Some (if 0 <=? state then set_was_running state hdr else hdr)
  /\ In (C_virDomainDefParseString domXML) (calls_of r)
  /\ w_open (snd r)
     = Some (mkOpen (img_fd (fst r)) path
               (sizeof_header + (List.length domXML + 1))%nat).
Proof.
  intros Hnul Hfit s hdr Hret r Hfd.
  destruct (save_memory_body env be BS driver path domXML compressed_
              was_running_ flags asyncJob_ vm fs Hret)
    as (a & Hfile & Hhead & Hbody).
  fold s in Hfile. unfold file_of in Hfile.
  destruct (xml_text_written BS domXML compressed_ was_running_ Hfit)
    as [Hx Hxb].
  rewrite Hxb in Hbody.
  pose proof (save_header_length be QEMUD_SAVE_MAGIC domXML compressed_
                was_running_ eq_refl) as Hl.
  apply Z.eqb_eq, Nat2Z.inj in Hl.
  apply starts_with_split in Hhead. destruct Hhead as [x Hdata].
  unfold body_of in Hbody. rewrite Hdata in Hbody.
  rewrite <- Hl in Hbody at 1.
  rewrite skipn_app, skipn_all, Nat.sub_diag, skipn_O in Hbody.
  cbn [app] in Hbody.
  apply starts_with_split in Hbody. destruct Hbody as [rest Hx'].
  subst x.
  destruct (header_as_read_written be be' QEMUD_SAVE_MAGIC domXML
              compressed_ was_running_ a _ (le_n _) Hdata)
    as [Hread _].
  fold hdr in Hread.
  assert (Hxml : xml_on_disk be' a = domXML ++ [0]).
  { unfold xml_on_disk. rewrite Hread.
    unfold hdr. change (xml_len (set_magic QEMUD_SAVE_MAGIC ?h))
      with (xml_len h).
    rewrite Hx, Hdata. rewrite <- Hl at 1.
    rewrite skipn_app, skipn_all, Nat.sub_diag, skipn_O. cbn [app].
    unfold strlen.
    replace (Z.to_nat (Z.of_nat (List.length domXML) + 1))
      with (List.length (domXML ++ [0]))
      by (rewrite length_app; cbn [List.length]; lia).
    rewrite firstn_app, firstn_all, Nat.sub_diag, firstn_O.
    apply app_nil_r. }
  destruct (image_open_accepts env' be' driver' path bypass_cache xmlin state
              edit unlink_corrupt vm' (w_fs (snd s)) Hfd)
    as (f & Hf & _ & _ & _ & _ & Hparse & Hhdr & Hopen).
  fold r in Hparse, Hhdr, Hopen.
  rewrite Hfile in Hf. injection Hf as <-.
  rewrite Hread in Hhdr, Hopen. rewrite Hxml in Hparse.
  change (domXML ++ [0]) with (domXML ++ 0 :: []) in Hparse.
  rewrite cstr_terminated in Hparse by exact Hnul.
  repeat split; [exact Hhdr | exact Hparse |].
  rewrite Hopen. unfold hdr.
  change (xml_len (set_magic QEMUD_SAVE_MAGIC ?h)) with (xml_len h).
  rewrite Hx. unfold strlen. do 2 f_equal. lia.
Qed.

Lemma saved_image_reads_back_witness :
  let domXML := bytes_of_string "<domain/>" in
  let s := qemuDomainSaveMemory env_success false sample_bs sample_driver
             "/save/guest.save" domXML 0 true 0 QEMU_ASYNC_JOB_SAVE
             (init_world sample_vm no_files) in
  let hdr := set_magic QEMUD_SAVE_MAGIC (save_header_partial domXML 0 true) in
  let r := qemuDomainSaveImageOpen env_success true sample_driver
             "/save/guest.save" false None (-1) false false
             (init_world sample_vm (w_fs (snd s))) in
  ~ In 0 domXML
  /\ strlen domXML + 1 < 2 ^ 32
  /\ fst s = 0
  /\ 0 <= img_fd (fst r)
  /\ img_header (fst r)
     = Some (if 0 <=? -1 then set_was_running (-1) hdr else hdr)
  /\ In (C_virDomainDefParseString domXML) (calls_of r)
  /\ w_open (snd r)
     = Some (mkOpen (img_fd (fst r)) "/save/guest.save"
               (sizeof_header + (List.length domXML + 1))%nat).
Proof.
  intros domXML s hdr r.
  assert (H1 : ~ In 0 domXML) by (vm_compute; lia).
  assert (H2 : strlen domXML + 1 < 2 ^ 32) by (vm_compute; reflexivity).
  assert (H3 : fst s = 0) by (vm_compute; reflexivity).
  assert (H4 : 0 <= img_fd (fst r)) by (vm_compute; discriminate).
  split; [exact H1 |]. split; [exact H2 |]. split; [exact H3 |].
  split; [exact H4 |].
  exact (saved_image_reads_back env_success env_success false true sample_bs
           sample_driver sample_driver "/save/guest.save" domXML 0 true 0
           QEMU_ASYNC_JOB_SAVE sample_vm sample_vm no_files false None (-1)
           false false H1 H2 H3 H4).
Defined.

(** ** Saving a domain and stopping it *)

(** [qemuDomainSaveMemory] seen from outside, with what it leaves on
    disk: it returns 0 or -1, and when it returns 0 the file is there and
    bears the magic of a completed image. *)
Lemma wp_qemuDomainSaveMemory_image (env : environment) (be : bool) (BS : Z)
      (driver : qemud_driver) (path : string) (domXML : bytes)
      (compressed_ : Z) (was_running_ : bool) (flags : Z)
      (asyncJob_ : qemuDomainAsyncJob) (Q : Z -> world -> Prop) (w : world) :
  (forall (ret_ : Z) (evs : list event) (w' : world),
      w_trace w' = w_trace w ++ evs ->
      Forall saving evs ->
      ret_ = 0 \/ ret_ = -1 ->
      (ret_ = 0 ->
       exists a, w_fs w' path = Some a
                 /\ starts_with QEMUD_SAVE_MAGIC (f_data a) = true) ->
      Q ret_ w') ->
  wp (qemuDomainSaveMemory env be BS driver path domXML compressed_
        was_running_ flags asyncJob_) Q w.
Proof.
  intros H.
  unfold qemuDomainSaveMemory, qemuDomainSaveMemory_cleanup,
    qemuDomainSaveHeader, VIR_FORCE_CLOSE.
  mgo2.
  all: subst.
  all: eapply H;
    [ wsimpl; rewrite <- ?app_assoc; reflexivity
    | repeat first
        [ apply Forall_nil
        | apply opening_saving; assumption
        | apply Forall_app; split
        | apply Forall_cons;
          [ first [ reflexivity | apply opening_call_saving; assumption ] |] ]
    | first [ left; reflexivity | right; reflexivity ]
    | intros Hret; try discriminate Hret; wsimpl ].
  all: eexists; split; [reflexivity |].
  all: cbn [option_map f_data]; apply starts_with_write_header; reflexivity.
Qed.

Ltac mstep_save_image :=
  lazymatch goal with
  | |- wp (qemuDomainSaveMemory _ _ _ _ _ _ _ _ _ _) _ _ =>
      let r := fresh "r" in
      let evs := fresh "evs" in
      let w' := fresh "w'" in
      let Hev := fresh "Hev" in
      let Hsv := fresh "Hsv" in
      let Hret := fresh "Hret" in
      let Himg := fresh "Himg" in
      apply wp_qemuDomainSaveMemory_image;
      intros r evs w' Hev Hsv Hret Himg;
      wsimpl_in Hev; cbn [app] in Hev; cbv beta;
      destruct Hret as [-> | ->];
      [ specialize (Himg eq_refl) | clear Himg ]
  end.

Ltac mgo6 := repeat first [mstep_save_image | mstep].

Lemma saving_never_stops (evs : list event) :
  Forall saving evs ->
  existsb is_ProcessStop (map ev_call evs) = false
  /\ existsb is_StartCPUs (map ev_call evs) = false.
Proof.
  intros H. split; apply saving_existsb_calls; try exact H;
    intros c Hc; destruct c; try discriminate Hc; reflexivity.
Qed.

(** X14. [qemuDomainSaveInternal] returns 0 or -1.  It stops the
    emulator ([qemuProcessStop]) exactly on the runs that return 0, and
    on those runs the file at [path] is there and bears the magic of a
    completed image: the guest is never shut down before its image is
    complete.  It resumes the guest CPUs only on runs that return -1. *)
Theorem save_stops_guest_only_after_image_complete
        (env : environment) (be : bool) (BS : Z) (driver : qemud_driver)
        (path : string) (compressed_ : Z) (xmlin : option bytes) (flags : Z)
        (vm : virDomainObj) (fs : filesystem) :
  let s := qemuDomainSaveInternal env be BS driver path compressed_ xmlin
             flags (init_world vm fs) in
  (fst s = 0 \/ fst s = -1)
  /\ (existsb is_ProcessStop (calls_of s) = true <-> fst s = 0)
  /\ (fst s = 0 ->
      exists a, file_of s path = Some a
                /\ starts_with QEMUD_SAVE_MAGIC (f_data a) = true)
  /\ (existsb is_StartCPUs (calls_of s) = true -> fst s = -1).
Proof.
  intros s. subst s. unfold calls_of, file_of.
  apply wp_run.
  unfold qemuDomainSaveInternal, qemuDomainSaveInternal_save,
    qemuDomainSaveInternal_endjob, qemuDomainSaveInternal_cleanup,
    virDomainEventNewFromObj, queue_if_set, unlock_if_set.
  mgo6.
  all: rewrite ?Hev; rewrite ?map_app, ?existsb_app;
    cbn [map ev_call existsb is_ProcessStop is_StartCPUs orb app];
    try (destruct (saving_never_stops _ Hsv) as [Hn1 Hn2];
         rewrite Hn1, Hn2);
    cbn [orb].
  all: split; [first [left; reflexivity | right; reflexivity] |].
  all: split; [split; intros Hx; first [reflexivity | discriminate Hx] |].
  all: split; [intros Hx; first [discriminate Hx | exact Himg]
              | intros Hx; first [reflexivity | discriminate Hx]].
Qed.

(** ** Removing a managed-save image *)

(** X15. [qemuDomainManagedSaveRemove] on a domain that is found clears
    [hasManagedSave] whatever [unlink] returns, so that
    [qemuDomainHasManagedSaveImage] answers 0 afterwards.  Its own result
    is that of [unlink]: 0 when the image was there and has been
    removed, -1 when it could not be removed, and then the file, if there
    was one, is still in place although the domain no longer counts as
    having an image.  No other file is touched.  The hypotheses say that
    the domain is found and that the path can be allocated. *)
Theorem managed_save_remove_clears_flag
        (env : environment) (driver : qemud_driver) (vm : virDomainObj)
        (fs : filesystem) :
  env_rc env C_virDomainFindByUUID <> 0 ->
  0 <= env_rc env C_virAsprintf ->
  let ms := managed_save_path driver vm in
  let s := qemuDomainManagedSaveRemove env driver 0 (init_world vm fs) in
  w_vm (snd s) = set_hasManagedSave false vm
  /\ fst (qemuDomainHasManagedSaveImage env 0 (snd s)) = 0
  /\ (fst s = 0 \/ fst s = -1)
  /\ (fst s = 0 -> fs ms <> None /\ file_of s ms = None)
  /\ (fst s = -1 -> file_of s ms = fs ms)
  /\ (forall q, q <> ms -> file_of s q = fs q).
Proof.
  intros Hfound Hpath ms s. subst ms s.
  apply Z.eqb_neq in Hfound. apply Z.ltb_ge in Hpath.
  unfold qemuDomainManagedSaveRemove, qemuDomainHasManagedSaveImage,
    qemuDomainManagedSave_cleanup, qemuDomainManagedSavePath,
    managed_save_path, unlink, file_of.
  munfold. cbn. rewrite Hfound. cbn. rewrite Hpath. cbn.
  destruct (fs (saveDir driver ++ "/" ++ def_name vm ++ ".save")%string)
    as [f |] eqn:Ef; [destruct (env_rc env (C_unlink _) <? 0) |];
    cbn; rewrite ?Hfound; cbn; rewrite ?fs_set_same.
  all: repeat split; try (intros; discriminate); try (intros; congruence);
    try (left; reflexivity); try (right; reflexivity);
    try (intros q Hq; apply fs_set_other; exact Hq).
Qed.

Lemma managed_save_remove_clears_flag_witness :
  env_rc env_success C_virDomainFindByUUID <> 0
  /\ 0 <= env_rc env_success C_virAsprintf
  /\ let ms := managed_save_path sample_driver sample_vm in
     let s := qemuDomainManagedSaveRemove env_success sample_driver 0
                (init_world sample_vm partial_image_fs) in
     w_vm (snd s) = set_hasManagedSave false sample_vm
     /\ fst (qemuDomainHasManagedSaveImage env_success 0 (snd s)) = 0
     /\ (fst s = 0 \/ fst s = -1)
     /\ (fst s = 0 -> partial_image_fs ms <> None /\ file_of s ms = None)
     /\ (fst s = -1 -> file_of s ms = partial_image_fs ms)
     /\ (forall q, q <> ms -> file_of s q = partial_image_fs q).
Proof.
  split; [vm_compute; discriminate |].
  split; [vm_compute; discriminate |].
  apply (managed_save_remove_clears_flag env_success sample_driver sample_vm
           partial_image_fs).
  - vm_compute. discriminate.
  - vm_compute. discriminate.
Defined.

(** ** Starting a domain *)

Lemma opening_starting (pre : list event) :
  Forall opening pre -> Forall starting pre.
Proof.
  apply Forall_impl. intros [c rc] H. unfold opening, starting in *.
  cbn in *. destruct c; try discriminate H; reflexivity.
Qed.

Lemma opening_call_starting (c : extcall) (rc : Z) :
  opening_call c = true -> starting (Ev c rc).
Proof.
  intros H. unfold starting. cbn.
  destruct c; try discriminate H; reflexivity.
Qed.

(** [qemuDomainObjStart] seen from outside: it makes calls of its own
    kind only. *)
Lemma wp_qemuDomainObjStart (env : environment) (be : bool)
      (driver : qemud_driver) (flags : Z) (Q : Z -> world -> Prop)
      (w : world) :
  (forall (r : Z) (evs : list event) (w' : world),
      w_trace w' = w_trace w ++ evs ->
      Forall starting evs ->
      Q r w') ->
  wp (qemuDomainObjStart env be driver flags) Q w.
Proof.
  intros H.
  unfold qemuDomainObjStart, qemuDomainManagedSavePath, qemuDomainObjRestore,
    qemuDomainObjRestore_cleanup, qemuDomainSaveImageStartVM,
    qemuDomainSaveImageOpen, qemuDomainSaveImageOpen_unlink,
    qemuDomainSaveImageOpen_error, VIR_FORCE_CLOSE, virDomainEventNewFromObj,
    queue_if_set.
  mgo5.
  all: subst.
  all: eapply H;
    [ wsimpl; rewrite <- ?app_assoc; reflexivity
    | repeat first
        [ apply Forall_nil
        | apply opening_starting; assumption
        | apply Forall_app; split
        | apply Forall_cons;
          [ first [ reflexivity | apply opening_call_starting; assumption ] |] ] ].
Qed.

Ltac mstep_start :=
  lazymatch goal with
  | |- wp (qemuDomainObjStart _ _ _ _) _ _ =>
      let r := fresh "r" in
      let evs := fresh "evs" in
      let w' := fresh "w'" in
      let Hev := fresh "Hev" in
      let Hst := fresh "Hst" in
      apply wp_qemuDomainObjStart; intros r evs w' Hev Hst;
      wsimpl_in Hev; cbn [app] in Hev; cbv beta
  end.

Ltac mgo7 := repeat first [mstep_start | mstep].

Lemma job_discipline_app_held (evs rest : list event) :
  Forall starting evs ->
  job_discipline true (evs ++ rest) = job_discipline true rest.
Proof.
  intros H. induction H as [| [c rc] l He Hl IH]; [reflexivity |].
  cbn [app job_discipline]. unfold starting in He. cbn [ev_call] in He.
  rewrite IH.
  destruct c; try discriminate He; reflexivity.
Qed.

(** X16. [qemuDomainStartWithFlags] takes the [QEMU_JOB_MODIFY] job at
    most once, does everything [qemuDomainObjStart] does, starting the
    emulator included, while it holds that job, and never returns
    holding it.  It returns 0 or -1.  A domain that is active once the
    job is held is not started again: the call returns -1, neither
    [qemuProcessStart] nor [qemuDomainSaveImageStartVM] is called and no
    file is touched. *)
Theorem start_holds_job_and_refuses_active
        (env : environment) (be : bool) (driver : qemud_driver)
        (flags : Z) (vm : virDomainObj) (fs : filesystem) :
  let s := qemuDomainStartWithFlags env be driver flags (init_world vm fs) in
  let v := env_vm env (C_qemuDomainObjBeginJobWithDriver QEMU_JOB_MODIFY)
                  vm in
  job_discipline false (trace_of s) = true
  /\ (fst s = 0 \/ fst s = -1)
  /\ (virDomainObjIsActive v = true ->
      fst s = -1
      /\ existsb is_ProcessStart (calls_of s) = false
      /\ existsb is_SaveImageStartVM (calls_of s) = false
      /\ forall q, file_of s q = fs q).
Proof.
  intros s v. subst s v. unfold trace_of, calls_of, file_of.
  apply wp_run.
  unfold qemuDomainStartWithFlags, qemuDomainStartWithFlags_endjob,
    qemuDomainManagedSave_cleanup, unlock_if_set.
  mgo7.
  all: rewrite ?Hev; rewrite <- ?app_assoc; cbn [app map ev_call].
  all: cbn [job_discipline begins_job is_EndJob needs_job ev_call ev_rc].
  all: repeat match goal with
              | H : (?x <? 0) = false |- context [0 <=? ?x] =>
                  replace (0 <=? x) with true
                    by (symmetry; apply Z.leb_le; apply Z.ltb_ge; exact H)
              | H : (?x <? 0) = true |- context [0 <=? ?x] =>
                  replace (0 <=? x) with false
                    by (symmetry; apply Z.leb_gt; apply Z.ltb_lt; exact H)
              end.
  all: cbn [job_discipline begins_job is_EndJob needs_job ev_call ev_rc
            negb andb];
    rewrite ?job_discipline_app_held by assumption;
    cbn [job_discipline begins_job is_EndJob needs_job ev_call ev_rc
         negb andb existsb is_ProcessStart is_SaveImageStartVM orb].
  all: split; [reflexivity |].
  all: split; [first [left; reflexivity | right; reflexivity] |].
  all: intros Hact; try congruence.
  all: repeat split; reflexivity.
Qed.
